(** * cAdvisor container handlers: raw factory, Docker handler, netlink load reader

    A shallow embedding of the Go sources
      - container/raw   (factory: [rawFactory.CanHandleAndAccept]),
      - container/docker (handler: [getRwLayerID], [newDockerContainerHandler],
        [dockerFsHandler.Usage], [needNet], [getFsStats], [GetStats]),
      - utils/cpuload/netlink/reader.go ([NetlinkReader.GetCpuLoad]),
    together with the properties of these functions.

    Conventions.
      - A Go call either returns or panics: [outcome].
      - A Go [(T, error)] result is a pair [T * option error]; [None] is [nil].
      - Calls that touch the outside world (files, the Docker daemon, the
        kernel) are run in a writer monad [io] that records every such call
        in order; what the world answers is read from an oracle record.
      - [uint64] is [Z] with the wrap-around of the arithmetic written out. *)

From Stdlib Require Import ZArith List String Ascii Lia Bool.
From stdpp Require Import base option list strings gmap.

Open Scope string_scope.
Open Scope list_scope.

(** ** Go runtime: panics, errors, recorded effects *)

Inductive outcome (A : Type) : Type :=
| Returns (a : A)
| Panics (msg : string).
Arguments Returns {A} a.
Arguments Panics {A} msg.

#[global] Instance outcome_ret : MRet outcome := fun A a => Returns a.
#[global] Instance outcome_bind : MBind outcome := fun A B f m =>
  match m with
  | Returns a => f a
  | Panics msg => Panics msg
  end.

(** Error values: one handed back by a collaborator, or one built by
    [fmt.Errorf(format, args...)] from the format, its string arguments and,
    when an error value is among the arguments, that error. *)
Inductive error : Type :=
| ErrExternal (msg : string)
| Errorf (format : string) (args : list string)
| ErrorfWrap (format : string) (args : list string) (cause : error).

(** Answer of a collaborator whose Go result is [(T, error)] and whose value
    is only looked at when the error is [nil]. *)
Inductive res (A : Type) : Type :=
| Ok (a : A)
| Err (e : error).
Arguments Ok {A} a.
Arguments Err {A} e.

(** [s[i]] on a slice: a run-time panic when [i] is out of range. *)
Definition index {A : Type} (s : list A) (i : nat) : outcome A :=
  match s !! i with
  | Some x => Returns x
  | None => Panics "runtime error: index out of range"
  end.

(** Effectful computations: the outcome and the external calls made, in
    order.  A panic keeps the calls made before it. *)
Definition io (E A : Type) : Type := (outcome A * list E)%type.

Definition io_ret {E A : Type} (a : A) : io E A := (Returns a, []).

Definition io_bind {E A B : Type} (m : io E A) (k : A → io E B) : io E B :=
  match m with
  | (Returns a, t1) => let '(r, t2) := k a in (r, t1 ++ t2)
  | (Panics msg, t1) => (Panics msg, t1)
  end.

Definition io_lift {E A : Type} (o : outcome A) : io E A := (o, []).

(** An external call: record it and return the world's answer. *)
Definition call {E A : Type} (ev : E) (answer : A) : io E A := (Returns answer, [ev]).

#[global] Instance io_mret {E : Type} : MRet (io E) := fun A a => io_ret a.
#[global] Instance io_mbind {E : Type} : MBind (io E) := fun A B k m => io_bind m k.

Definition result {E A : Type} (m : io E A) : outcome A := fst m.
Definition trace {E A : Type} (m : io E A) : list E := snd m.

(** ** Package [strings] *)

Module GoStrings.

(** [strings.HasPrefix(s, prefix)] *)
Definition HasPrefix (s prefix : string) : bool := String.prefix prefix s.

(** [strings.TrimPrefix(s, prefix)] *)
Definition TrimPrefix (s prefix : string) : string :=
  if HasPrefix s prefix
  then String.substring (String.length prefix)
                        (String.length s - String.length prefix) s
  else s.

(** [strings.SplitN(s, sep, 2)] for a one-byte separator: cut at the first
    occurrence, if any. *)
Fixpoint SplitN2 (s : string) (sep : ascii) : list string :=
  match s with
  | EmptyString => [EmptyString]
  | String c rest =>
      if Ascii.eqb c sep then [EmptyString; rest]
      else match SplitN2 rest sep with
           | hd :: tl => String c hd :: tl
           | [] => [String c EmptyString]
           end
  end.

(** [strings.Join(elems, sep)] *)
Definition Join (elems : list string) (sep : string) : string :=
  String.concat sep elems.

(** [strings.Split(s, sep)] for a separator that is not empty.  The string
    is read from the left: [skip] bytes of a separator just matched remain
    to be passed over, [cur] is the piece read so far. *)
Fixpoint splitFrom (sep s : string) (skip : nat) (cur : string) : list string :=
  match s with
  | EmptyString => [cur]
  | String c rest =>
      match skip with
      | S k => splitFrom sep rest k cur
      | O =>
          if String.prefix sep s
          then cur :: splitFrom sep rest (String.length sep - 1) EmptyString
          else splitFrom sep rest 0 (cur +:+ String c EmptyString)
      end
  end.

Definition Split (s sep : string) : list string := splitFrom sep s 0 EmptyString.

(** [bytes.IndexByte(b, c)]: the index of the first [c] in [b], or [-1]. *)
Fixpoint IndexByte (b : list ascii) (c : ascii) : Z :=
  match b with
  | [] => (-1)%Z
  | x :: rest =>
      if Ascii.eqb x c then 0%Z
      else let i := IndexByte rest c in
           if (i <? 0)%Z then (-1)%Z else (i + 1)%Z
  end.

End GoStrings.

(** ** Package [path] *)

Module GoPath.

(** The elements between the slashes of a path, empty ones included. *)
Fixpoint elements (p : string) : list string :=
  match p with
  | EmptyString => [EmptyString]
  | String c rest =>
      if Ascii.eqb c "/" then EmptyString :: elements rest
      else match elements rest with
           | hd :: tl => String c hd :: tl
           | [] => [String c EmptyString]
           end
  end.

(** One element read by [Clean]; [out] is the cleaned path so far, last
    element first.  Empty and [.] elements are skipped; [..] removes the
    element before it when there is one to backtrack over, is dropped at the
    root, and is kept at the start of a relative path. *)
Definition clean_step (rooted : bool) (out : list string) (e : string) : list string :=
  if String.eqb e "" || String.eqb e "." then out
  else if String.eqb e ".." then
    match out with
    | top :: below => if String.eqb top ".." then e :: out else below
    | [] => if rooted then [] else [e]
    end
  else e :: out.

(** [path.Clean(p)] *)
Definition Clean (p : string) : string :=
  let rooted := GoStrings.HasPrefix p "/" in
  let out := rev (fold_left (clean_step rooted) (elements p) []) in
  if rooted then "/" +:+ GoStrings.Join out "/"
  else match out with
       | [] => "."
       | _ => GoStrings.Join out "/"
       end.

Fixpoint skip_empty (elem : list string) : list string :=
  match elem with
  | [] => []
  | e :: rest => if String.eqb e "" then skip_empty rest else elem
  end.

(** [path.Join(elem...)]: empty leading elements are ignored, the rest is
    joined with slashes and cleaned; the empty string when nothing is left. *)
Definition Join (elem : list string) : string :=
  match skip_empty elem with
  | [] => ""
  | l => Clean (GoStrings.Join l "/")
  end.

End GoPath.

(** ** container/raw: the raw factory *)

Module Raw.

(** [rawFactory]: of its fields only the prefix whitelist is read by
    [CanHandleAndAccept]; the others are handles to collaborators. *)
Record rawFactory : Type := {
  rawPrefixWhiteList : list string
}.

(** The loop [for _, prefix := range self.rawPrefixWhiteList]. *)
Fixpoint rangeWhiteList (name : string) (l : list string) : bool * bool * option error :=
  match l with
  | [] => (true, false, None)
  | prefix :: rest =>
      if GoStrings.HasPrefix name prefix then (true, true, None)
      else rangeWhiteList name rest
  end.

(** [func (self *rawFactory) CanHandleAndAccept(name string) (bool, bool, error)];
    [dockerOnly] is the value of the [--docker_only] flag.  The second
    operand of [&&] is evaluated only when the first is true. *)
Definition CanHandleAndAccept (dockerOnly : bool) (self : rawFactory) (name : string)
  : outcome (bool * bool * option error) :=
  if String.eqb name "/" then Returns (true, true, None)
  else
    cond ← (if dockerOnly
            then first ← index (rawPrefixWhiteList self) 0; mret (String.eqb first "")
            else mret false);
    if (cond : bool) then Returns (true, false, None)
    else Returns (rangeWhiteList name (rawPrefixWhiteList self)).

End Raw.

(** ** container/docker: the Docker container handler *)

Module Docker.

(** [uint64] addition. *)
Definition add64 (a b : Z) : Z := ((a + b) mod 2 ^ 64)%Z.

(** Modelled from the spec: [type storageDriver string] and its constants are
    declared in the factory of the docker package, which is not among the
    sources.  The values are the driver names of the spec: the directory-based
    drivers aufs, overlay and overlay2, the thin-pool driver (devicemapper)
    and the copy-on-write filesystem driver (zfs). *)
Definition storageDriver : Type := string.

(** Modelled from the spec: the thin-pool driver. *)
Definition devicemapperStorageDriver : storageDriver := "devicemapper".

(** Modelled from the spec: the directory-based driver aufs. *)
Definition aufsStorageDriver : storageDriver := "aufs".

(** Modelled from the spec: the directory-based driver overlay. *)
Definition overlayStorageDriver : storageDriver := "overlay".

(** Modelled from the spec: the directory-based driver overlay2. *)
Definition overlay2StorageDriver : storageDriver := "overlay2".

(** Modelled from the spec: the copy-on-write filesystem driver. *)
Definition zfsStorageDriver : storageDriver := "zfs".

(** The read write layers exist here. *)
Definition aufsRWLayer : string := "diff".
Definition overlayRWLayer : string := "upper".
Definition overlay2RWLayer : string := "diff".

(** Path to the directory where docker stores log files. *)
Definition pathToContainersDir : string := "containers".

(** Modelled from the spec: [container.MetricKind], a string type, and the
    enabled-metrics set [container.MetricSet] ([map[MetricKind]struct{}]) are
    declared in the container package, which is not among the sources.  No
    property below depends on the spelling of a metric kind. *)
Definition MetricKind : Type := string.
Abbreviation MetricSet := (gset string).

(** Modelled from the spec: the network-usage metrics. *)
Definition NetworkUsageMetrics : MetricKind := "network".

(** Modelled from the spec: the disk-usage metrics. *)
Definition DiskUsageMetrics : MetricKind := "disk".

(** Modelled from the spec: the disk-I/O metrics. *)
Definition DiskIOMetrics : MetricKind := "diskIO".

(** Modelled from the spec: [func (ms MetricSet) Has(mk MetricKind) bool],
    membership in the enabled-metrics set. *)
Definition Has (ms : MetricSet) (mk : MetricKind) : bool := bool_decide (mk ∈ ms).

(** [func (n NetworkMode) IsContainer() bool] of the Docker API types, a
    third-party package: the mode, cut at its first colon, has more than one
    part and the first part is [container]. *)
Definition IsContainer (n : string) : bool :=
  match GoStrings.SplitN2 n ":" with
  | part0 :: _ :: _ => String.eqb part0 "container"
  | _ => false
  end.

(** Modelled from the spec: [common.FsUsage], the snapshot of the sampler and
    of the corrector; the three fields are [uint64]. *)
Record FsUsage : Type := {
  BaseUsageBytes : Z;
  TotalUsageBytes : Z;
  InodeUsage : Z
}.

(** Modelled from the spec: [info.FsStats], a filesystem sub-record, with the
    fields the handler fills in: device, type, capacity limit, total usage,
    base usage and inode usage. *)
Record FsStats : Type := {
  Device : string;
  Type_ : string;
  Limit : Z;
  Usage : Z;
  BaseUsage : Z;
  Inodes : Z
}.

(** Modelled from the spec: [info.FsInfo], an entry of the machine's
    filesystem inventory (device, capacity, type). *)
Record FsInfo : Type := {
  fsDevice : string;
  fsCapacity : Z;
  fsType : string
}.

(** Modelled from the spec: [info.MachineInfo], of which the filesystem
    inventory is read. *)
Record MachineInfo : Type := {
  Filesystems : list FsInfo
}.

(** Modelled from the spec: [info.MachineInfoFactory], the machine info
    provider, by what [GetMachineInfo()] answers at this poll. *)
Record MachineInfoFactory : Type := {
  GetMachineInfo : res MachineInfo
}.

(** Modelled from the spec: [fs.FsInfo], the filesystem-info provider, by the
    method used here; it answers with the device of the filesystem a
    directory is on. *)
Record fsInfoProvider : Type := {
  GetDirFsDevice : string → res string
}.

(** Modelled from the spec: [devicemapper.ThinPoolWatcher], by its
    [GetUsage(deviceId)], which answers with bytes or an error. *)
Record ThinPoolWatcher : Type := {
  thinPoolGetUsage : string → res Z
}.

(** Modelled from the spec: [zfs.ZfsWatcher], by its [GetUsage(filesystem)]. *)
Record ZfsWatcher : Type := {
  zfsGetUsage : string → res Z
}.

(** Modelled from the spec: [common.FsHandler] as implemented by the periodic
    sampler, by what its [Usage()] answers at this poll, the last completed
    sample. *)
Record commonFsHandler : Type := {
  samplerUsage : FsUsage
}.

(** [dockerFsHandler] *)
Record dockerFsHandler : Type := {
  fsHandler : commonFsHandler;
  thinPoolWatcher : option ThinPoolWatcher;
  deviceID : string;
  zfsWatcher : option ZfsWatcher;
  zfsFilesystem : string
}.

(** [func (h *dockerFsHandler) Usage() common.FsUsage] *)
Definition dockerFsHandler_Usage (h : dockerFsHandler) : FsUsage :=
  let usage := samplerUsage (fsHandler h) in
  let usage :=
    match thinPoolWatcher h with
    | Some tp =>
        match thinPoolGetUsage tp (deviceID h) with
        | Err _ => usage
        | Ok thinPoolUsage =>
            {| BaseUsageBytes := thinPoolUsage;
               TotalUsageBytes := add64 (TotalUsageBytes usage) thinPoolUsage;
               InodeUsage := InodeUsage usage |}
        end
    | None => usage
    end in
  match zfsWatcher h with
  | Some zw =>
      match zfsGetUsage zw (zfsFilesystem h) with
      | Err _ => usage
      | Ok zfsUsage =>
          {| BaseUsageBytes := zfsUsage;
             TotalUsageBytes := add64 (TotalUsageBytes usage) zfsUsage;
             InodeUsage := InodeUsage usage |}
      end
  | None => usage
  end.


(** What [client.ContainerInspect] of the Docker client, a third-party
    package, answers: the fields of the inspection record that the handler
    reads.  [configLabels] is a Go map and may be [nil]. *)
Record ContainerJSON : Type := {
  ctnrCreated : string;
  ctnrName : string;
  ctnrRestartCount : Z;
  ctnrStatePid : Z;
  configLabels : option (gmap string string);
  configImage : string;
  configEnv : list string;
  hostConfigNetworkMode : string;
  networkSettingsIPAddress : string;
  graphDriverData : gmap string string
}.

(** [*docker.Client] *)
Record dockerClient : Type := {
  ContainerInspect : string → res ContainerJSON
}.

(** The host as seen by the docker package: the file system behind
    [ioutil.ReadFile], and the daemon behind [Status()].
    Modelled from the spec: [Status()] is declared in the docker package
    outside these sources; of the status it answers with, the driver status
    map is read here. *)
Record World : Type := {
  ReadFile : string → res string;
  Status : res (gmap string string)
}.

(** The external calls of handler construction. *)
Inductive Event : Type :=
| EvReadFile (filename : string)
| EvStatus
| EvContainerInspect (id : string).

(** Docker version >=1.10.0 have a randomized ID for the root fs of a container. *)
Definition randomizedRWLayerMinorVersion : Z := 10.
Definition rwLayerIDFile : string := "mount-id".

(** The mapping file read by [getRwLayerID]. *)
Definition rwLayerIDPath (containerID storageDir : string) (sd : storageDriver) : string :=
  GoPath.Join [storageDir; "image"; sd; "layerdb"; "mounts"; containerID; rwLayerIDFile].

(** [func getRwLayerID(containerID, storageDir string, sd storageDriver, dockerVersion []int) (string, error)] *)
Definition getRwLayerID (w : World) (containerID storageDir : string) (sd : storageDriver)
    (dockerVersion : list Z) : io Event (string * option error) :=
  major ← io_lift (index dockerVersion 0);
  old ← (if (major <=? 1)%Z
         then minor ← io_lift (index dockerVersion 1);
              mret (minor <? randomizedRWLayerMinorVersion)%Z
         else mret false);
  if (old : bool) then mret (containerID, None)
  else
    let filename := rwLayerIDPath containerID storageDir sd in
    bytes ← call (EvReadFile filename) (ReadFile w filename);
    match bytes with
    | Err err =>
        mret ("", Some (ErrorfWrap
                "failed to identify the read-write layer ID for container %q. - %v"
                [containerID] err))
    | Ok bytes => mret (bytes, None)
    end.

Section Handler.

(** The stats sub-records and [time.Time] are declared outside these
    sources; the handler only moves their values around. *)
Context {NetworkStats DiskIoStats Time : Type}.

(** [info.NetworkStats{}], the zero value. *)
Variable zeroNetworkStats : NetworkStats.

(** [common.AssignDeviceNamesToDiskStats(namer, &stats.DiskIo)] *)
Variable AssignDeviceNamesToDiskStats : MachineInfo → DiskIoStats → DiskIoStats.

(** Modelled from the spec: [info.ContainerStats], by the sub-records this
    handler writes: network, disk I/O and filesystem. *)
Record ContainerStats : Type := {
  Network : NetworkStats;
  DiskIo : DiskIoStats;
  Filesystem : list FsStats
}.

(** Modelled from the spec: [containerlibcontainer.Handler], the cgroup-stats
    collaborator, by what its [GetStats()] answers at this poll: a pointer,
    possibly [nil], and an error. *)
Record libcontainerHandlerT : Type := {
  libcontainerGetStats : option ContainerStats * option error
}.

(** Modelled from the spec: [info.ContainerReference], the identity of a
    container: id, name, aliases and namespace. *)
Record ContainerReference : Type := {
  Id : string;
  Name : string;
  Aliases : list string;
  Namespace : string
}.

(** [dockerContainerHandler]; [hStorageDriver] is the field [storageDriver]
    and [hFsHandler] the field [fsHandler], an interface value that is [nil]
    or holds a [*dockerFsHandler]. *)
Record dockerContainerHandler : Type := {
  machineInfoFactory : MachineInfoFactory;
  cgroupPaths : gmap string string;
  hStorageDriver : storageDriver;
  fsInfo : fsInfoProvider;
  rootfsStorageDir : string;
  creationTime : Time;
  envs : gmap string string;
  labels : option (gmap string string);
  image : string;
  networkMode : string;
  hFsHandler : option dockerFsHandler;
  ipAddress : string;
  includedMetrics : MetricSet;
  poolName : string;
  zfsParent : string;
  reference : ContainerReference;
  libcontainerHandler : option libcontainerHandlerT
}.

(** Dereference of a pointer or call through an interface value. *)
Definition deref {A : Type} (p : option A) : outcome A :=
  match p with
  | Some a => Returns a
  | None => Panics "runtime error: invalid memory address or nil pointer dereference"
  end.

(** [func (self *dockerContainerHandler) needNet() bool] *)
Definition needNet (self : dockerContainerHandler) : bool :=
  if Has (includedMetrics self) NetworkUsageMetrics
  then negb (IsContainer (networkMode self))
  else false.

(** The loop over [mi.Filesystems] with its [break]: capacity and type of
    the first entry for the device, the zero values when there is none. *)
Fixpoint findFilesystem (fss : list FsInfo) (device : string) : Z * string :=
  match fss with
  | [] => (0%Z, "")
  | fs :: rest =>
      if String.eqb (fsDevice fs) device then (fsCapacity fs, fsType fs)
      else findFilesystem rest device
  end.

(** The filesystem record that [getFsStats] appends for a device: limit and
    type from the inventory, usage from the corrector. *)
Definition fsStatFor (mi : MachineInfo) (fh : dockerFsHandler) (device : string) : FsStats :=
  {| Device := device;
     Type_ := snd (findFilesystem (Filesystems mi) device);
     Limit := fst (findFilesystem (Filesystems mi) device);
     Usage := TotalUsageBytes (dockerFsHandler_Usage fh);
     BaseUsage := BaseUsageBytes (dockerFsHandler_Usage fh);
     Inodes := InodeUsage (dockerFsHandler_Usage fh) |}.

(** The [switch self.storageDriver] of [getFsStats]: the accounting device,
    an early return with an error, or an early return with [nil]. *)
Inductive deviceChoice : Type :=
| UseDevice (device : string)
| ReturnErr (e : error)
| ReturnNil.

Definition chooseDevice (self : dockerContainerHandler) : deviceChoice :=
  let sd := hStorageDriver self in
  if String.eqb sd devicemapperStorageDriver then UseDevice (poolName self)
  else if String.eqb sd aufsStorageDriver || String.eqb sd overlayStorageDriver
          || String.eqb sd overlay2StorageDriver then
    match GetDirFsDevice (fsInfo self) (rootfsStorageDir self) with
    | Err e => ReturnErr (ErrorfWrap "unable to determine device info for dir: %v: %v"
                                     [rootfsStorageDir self] e)
    | Ok device => UseDevice device
    end
  else if String.eqb sd zfsStorageDriver then UseDevice (zfsParent self)
  else ReturnNil.

(** [func (self *dockerContainerHandler) getFsStats(stats *info.ContainerStats) error];
    the result carries what [stats] points to afterwards. *)
Definition getFsStats (self : dockerContainerHandler) (stats : option ContainerStats)
  : outcome (option ContainerStats * option error) :=
  match GetMachineInfo (machineInfoFactory self) with
  | Err e => Returns (stats, Some e)
  | Ok mi =>
      stats ← (if Has (includedMetrics self) DiskIOMetrics
               then s ← deref stats;
                    mret (Some {| Network := Network s;
                                  DiskIo := AssignDeviceNamesToDiskStats mi (DiskIo s);
                                  Filesystem := Filesystem s |})
               else mret stats);
      if negb (Has (includedMetrics self) DiskUsageMetrics) then Returns (stats, None)
      else
        match chooseDevice self with
        | ReturnErr e => Returns (stats, Some e)
        | ReturnNil => Returns (stats, None)
        | UseDevice device =>
            let '(limit, fsType) := findFilesystem (Filesystems mi) device in
            fh ← deref (hFsHandler self);
            let usage := dockerFsHandler_Usage fh in
            let fsStat := {| Device := device; Type_ := fsType; Limit := limit;
                             Usage := TotalUsageBytes usage;
                             BaseUsage := BaseUsageBytes usage;
                             Inodes := InodeUsage usage |} in
            s ← deref stats;
            mret (Some {| Network := Network s;
                          DiskIo := DiskIo s;
                          Filesystem := Filesystem s ++ [fsStat] |}, None)
        end
  end.

(** [func (self *dockerContainerHandler) GetStats()], returning a pointer to
    [info.ContainerStats] and an error. *)
Definition GetStats (self : dockerContainerHandler)
  : outcome (option ContainerStats * option error) :=
  lh ← deref (libcontainerHandler self);
  let '(stats, err) := libcontainerGetStats lh in
  match err with
  | Some e => Returns (stats, Some e)
  | None =>
      stats ← (if negb (needNet self)
               then s ← deref stats;
                    mret (Some {| Network := zeroNetworkStats;
                                  DiskIo := DiskIo s;
                                  Filesystem := Filesystem s |})
               else mret stats);
      '(stats, err) ← getFsStats self stats;
      match err with
      | Some e => Returns (stats, Some e)
      | None => Returns (stats, None)
      end
  end.

(** Collaborators of handler construction that live outside these sources:
    [time.Parse(time.RFC3339Nano, value)], [ContainerNameToDockerId],
    [common.MakeCgroupPaths], [common.NewFsHandler(common.DefaultPeriod, ...)],
    [containerlibcontainer.NewHandler] (given the name and paths of the
    cgroup manager, the root, the pid and the metrics), [strconv.Itoa],
    [strings.ToLower], and the constants [DockerNamespace] and
    [dockerutil.DriverStatusParentDataset]. *)
Variable time_Parse : string → res Time.
Variable ContainerNameToDockerId : string → string.
Variable MakeCgroupPaths : gmap string string → string → gmap string string.
Variable NewFsHandler : string → string → fsInfoProvider → commonFsHandler.
Variable NewHandler :
  string → gmap string string → string → Z → MetricSet → libcontainerHandlerT.
Variable strconv_Itoa : Z → string.
Variable strings_ToLower : string → string.
Variable DockerNamespace : string.
Variable DriverStatusParentDataset : string.

(** Modelled from the spec: [containerlibcontainer.CgroupSubsystems], the
    cgroup subsystem mount table, by the field read here. *)
Record CgroupSubsystems : Type := {
  MountPoints : gmap string string
}.

(** The [switch storageDriver] of the constructor: [rootfsStorageDir],
    [zfsFilesystem] and [zfsParent], or the error of an early return. *)
Definition storageLayout (w : World) (driver : storageDriver) (storageDir rwLayerID : string)
  : io Event (res (string * string * string)) :=
  if String.eqb driver aufsStorageDriver then
    mret (Ok (GoPath.Join [storageDir; aufsStorageDriver; aufsRWLayer; rwLayerID], "", ""))
  else if String.eqb driver overlayStorageDriver then
    mret (Ok (GoPath.Join [storageDir; driver; rwLayerID; overlayRWLayer], "", ""))
  else if String.eqb driver overlay2StorageDriver then
    mret (Ok (GoPath.Join [storageDir; driver; rwLayerID; overlay2RWLayer], "", ""))
  else if String.eqb driver zfsStorageDriver then
    status ← call EvStatus (Status w);
    match status with
    | Err err => mret (Err (ErrorfWrap "unable to determine docker status: %v" [] err))
    | Ok driverStatus =>
        let zfsParent := default "" (driverStatus !! DriverStatusParentDataset) in
        mret (Ok ("", GoPath.Join [zfsParent; rwLayerID], zfsParent))
    end
  else mret (Ok ("", "", "")).

(** Body of the loops that split env vars to get the metadata map. *)
Definition exposeEnv (exposedEnv : string) (envs : gmap string string) (envVar : string)
  : gmap string string :=
  if negb (String.eqb envVar "") then
    match GoStrings.SplitN2 envVar "=" with
    | [key; value] =>
        if String.eqb key exposedEnv then <[strings_ToLower exposedEnv := value]> envs
        else envs
    | _ => envs
    end
  else envs.

Definition metadataEnvMap (metadataEnvs env : list string) : gmap string string :=
  fold_left (fun envs exposedEnv => fold_left (exposeEnv exposedEnv) env envs)
            metadataEnvs ∅.

(** [func newDockerContainerHandler(client, name, machineInfoFactory, fsInfo,
    storageDriver, storageDir, cgroupSubsystems, inHostNamespace, metadataEnvs,
    dockerVersion, includedMetrics, thinPoolName, thinPoolWatcher, zfsWatcher)
    (container.ContainerHandler, error)] *)
Definition newDockerContainerHandler (w : World) (client : dockerClient) (name : string)
    (mif : MachineInfoFactory) (fsi : fsInfoProvider)
    (driver : storageDriver) (storageDir : string)
    (cgroupSubsystems : CgroupSubsystems) (inHostNamespace : bool)
    (metadataEnvs : list string) (dockerVersion : list Z)
    (metrics : MetricSet) (thinPoolName : string)
    (tpw : option ThinPoolWatcher) (zw : option ZfsWatcher)
  : io Event (option dockerContainerHandler * option error) :=
  let paths := MakeCgroupPaths (MountPoints cgroupSubsystems) name in
  let rootFs := if inHostNamespace then "/" else "/rootfs" in
  let storageDir := if inHostNamespace then storageDir
                    else GoPath.Join [rootFs; storageDir] in
  let id := ContainerNameToDockerId name in
  let otherStorageDir := GoPath.Join [storageDir; pathToContainersDir; id] in
  '(rwLayerID, err) ← getRwLayerID w id storageDir driver dockerVersion;
  match err with
  | Some err => mret (None, Some err)
  | None =>
  layout ← storageLayout w driver storageDir rwLayerID;
  match layout with
  | Err err => mret (None, Some err)
  | Ok (rootfsDir, zfsFs, zfsPar) =>
  ctnr ← call (EvContainerInspect id) (ContainerInspect client id);
  match ctnr with
  | Err err =>
      mret (None, Some (ErrorfWrap "failed to inspect container %q: %v" [id] err))
  | Ok ctnr =>
  match time_Parse (ctnrCreated ctnr) with
  | Err err =>
      mret (None, Some (ErrorfWrap
              "failed to parse the create timestamp %q for container %q: %v"
              [ctnrCreated ctnr; id] err))
  | Ok created =>
  lbls ← io_lift
    (if (0 <? ctnrRestartCount ctnr)%Z then
       match configLabels ctnr with
       | None => Panics "assignment to entry in nil map"
       | Some m =>
           Returns (Some (<["restartcount" := strconv_Itoa (ctnrRestartCount ctnr)]> m))
       end
     else Returns (configLabels ctnr));
  let mode := hostConfigNetworkMode ctnr in
  ip ← (if String.eqb (networkSettingsIPAddress ctnr) ""
           && GoStrings.HasPrefix mode "container:"
        then
          let containerId := GoStrings.TrimPrefix mode "container:" in
          c ← call (EvContainerInspect containerId) (ContainerInspect client containerId);
          match c with
          | Err err =>
              mret (Err (ErrorfWrap "failed to inspect container %q: %v" [id] err))
          | Ok c => mret (Ok (networkSettingsIPAddress c))
          end
        else mret (Ok (networkSettingsIPAddress ctnr)));
  match ip with
  | Err err => mret (None, Some err)
  | Ok ip =>
  mret (Some {|
    machineInfoFactory := mif;
    cgroupPaths := paths;
    hStorageDriver := driver;
    fsInfo := fsi;
    rootfsStorageDir := rootfsDir;
    creationTime := created;
    envs := metadataEnvMap metadataEnvs (configEnv ctnr);
    labels := lbls;
    image := configImage ctnr;
    networkMode := mode;
    hFsHandler :=
      if Has metrics DiskUsageMetrics then
        Some {| fsHandler := NewFsHandler rootfsDir otherStorageDir fsi;
                thinPoolWatcher := tpw;
                deviceID := default "" (graphDriverData ctnr !! "DeviceId");
                zfsWatcher := zw;
                zfsFilesystem := zfsFs |}
      else None;
    ipAddress := ip;
    includedMetrics := metrics;
    poolName := thinPoolName;
    zfsParent := zfsPar;
    reference := {| Id := id; Name := name;
                    Aliases := [GoStrings.TrimPrefix (ctnrName ctnr) "/"; id];
                    Namespace := DockerNamespace |};
    libcontainerHandler :=
      Some (NewHandler name paths rootFs (ctnrStatePid ctnr) metrics)
  |}, None)
  end end end end end.

(** The calls that [Start] and [Cleanup] make on the sampler. *)
Inductive SamplerEvent : Type :=
| EvSamplerStart (sampler : commonFsHandler)
| EvSamplerStop (sampler : commonFsHandler).

(** [func (h *dockerFsHandler) Start()] *)
Definition dockerFsHandler_Start (h : dockerFsHandler) : io SamplerEvent unit :=
  call (EvSamplerStart (fsHandler h)) tt.

(** [func (h *dockerFsHandler) Stop()] *)
Definition dockerFsHandler_Stop (h : dockerFsHandler) : io SamplerEvent unit :=
  call (EvSamplerStop (fsHandler h)) tt.

(** [func (self *dockerContainerHandler) Start()] *)
Definition Start (self : dockerContainerHandler) : io SamplerEvent unit :=
  match hFsHandler self with
  | Some fh => dockerFsHandler_Start fh
  | None => mret tt
  end.

(** [func (self *dockerContainerHandler) Cleanup()] *)
Definition Cleanup (self : dockerContainerHandler) : io SamplerEvent unit :=
  match hFsHandler self with
  | Some fh => dockerFsHandler_Stop fh
  | None => mret tt
  end.

(** [func (self *dockerContainerHandler) GetCgroupPath(resource string) (string, error)] *)
Definition GetCgroupPath (self : dockerContainerHandler) (resource : string)
  : string * option error :=
  match cgroupPaths self !! resource with
  | Some path => (path, None)
  | None =>
      ("", Some (Errorf "could not find path for resource %q for container %q\n"
                        [resource; Name (reference self)]))
  end.

(** [func (self *dockerContainerHandler) GetContainerLabels() map[string]string] *)
Definition GetContainerLabels (self : dockerContainerHandler) : option (gmap string string) :=
  labels self.

(** [func (self *dockerContainerHandler) GetContainerIPAddress() string] *)
Definition GetContainerIPAddress (self : dockerContainerHandler) : string :=
  ipAddress self.

End Handler.

End Docker.

(** ** utils/cpuload/netlink: the load reader *)

Module Netlink.

Section Reader.

(** [info.LoadStats] is declared outside these sources; [zeroLoadStats] is
    [info.LoadStats{}]. *)
Context {LoadStats : Type}.
Variable zeroLoadStats : LoadStats.

(** [*os.File], by its descriptor, and [*Connection], by a handle. *)
Definition File : Type := Z.
Definition Connection : Type := Z.

(** [NetlinkReader] *)
Record NetlinkReader : Type := {
  familyId : Z;
  conn : option Connection
}.

(** The kernel side: [os.Open], and the request and reply of [getLoadStats].
    Modelled from the spec: [getLoadStats] is defined next to the connection,
    outside these sources; it sends one stats request for the descriptor and
    the family id and answers with the decoded reply or an error. *)
Record Kernel : Type := {
  os_Open : string → res File;
  getLoadStats : Z → File → option Connection → res LoadStats
}.

(** The external calls of [GetCpuLoad]. *)
Inductive Event : Type :=
| EvOpen (name : string)
| EvGetLoadStats (id : Z) (cfd : File) (c : option Connection)
| EvClose (cfd : File).

(** [func (self *NetlinkReader) GetCpuLoad(name string, path string) (info.LoadStats, error)];
    the deferred [cfd.Close()] runs when the function returns. *)
Definition GetCpuLoad (k : Kernel) (self : NetlinkReader) (name path : string)
  : io Event (LoadStats * option error) :=
  if Nat.eqb (String.length path) 0 then
    mret (zeroLoadStats, Some (Errorf "cgroup path can not be empty!" []))
  else
    cfd ← call (EvOpen path) (os_Open k path);
    match cfd with
    | Err err =>
        mret (zeroLoadStats,
              Some (ErrorfWrap "failed to open cgroup path %s: %q" [path] err))
    | Ok cfd =>
        stats ← call (EvGetLoadStats (familyId self) cfd (conn self))
                     (getLoadStats k (familyId self) cfd (conn self));
        _ ← call (EvClose cfd) tt;
        match stats with
        | Err err => mret (zeroLoadStats, Some err)
        | Ok stats => mret (stats, None)
        end
    end.

(** The kernel side of [New]: [newConnection()] and [getFamilyId(conn)].
    Modelled from the spec: both are defined next to the connection, outside
    these sources; the first opens the generic kernel messaging connection,
    the second performs the family-resolution handshake on it. *)
Record Handshake : Type := {
  newConnection : res Connection;
  getFamilyId : Connection → res Z
}.

(** The external calls of [New] and [Stop]. *)
Inductive ConnEvent : Type :=
| EvNewConnection
| EvGetFamilyId (c : Connection)
| EvConnClose (c : Connection).

(** [func New()], returning a pointer to a [NetlinkReader] and an error. *)
Definition New (k : Handshake) : io ConnEvent (option NetlinkReader * option error) :=
  c ← call EvNewConnection (newConnection k);
  match c with
  | Err err =>
      mret (None, Some (ErrorfWrap "failed to create a new connection: %s" [] err))
  | Ok c =>
      id ← call (EvGetFamilyId c) (getFamilyId k c);
      match id with
      | Err err =>
          mret (None, Some (ErrorfWrap
                  "failed to get netlink family id for task stats: %s" [] err))
      | Ok id => mret (Some {| familyId := id; conn := Some c |}, None)
      end
  end.

(** [func (self *NetlinkReader) Stop()] *)
Definition Stop (self : NetlinkReader) : io ConnEvent unit :=
  match conn self with
  | Some c => call (EvConnClose c) tt
  | None => mret tt
  end.

(** [func (self *NetlinkReader) Start() error] *)
Definition Start (self : NetlinkReader) : option error := None.

End Reader.

End Netlink.

(** ** utils/cloudinfo: the cloud provider registry *)

Module CloudInfo.

Section Providers.

(** [info.UnknownProvider], [info.UnknownInstance] and [info.UnNamedInstance]
    are declared outside these sources. *)
Variable UnknownProvider UnknownInstance UnNamedInstance : string.

(** [CloudProvider], an interface, by what its three methods answer. *)
Record CloudProvider : Type := {
  IsActiveProvider : bool;
  GetInstanceType : string;
  GetInstanceID : string
}.

(** [realCloudInfo] *)
Record realCloudInfo : Type := {
  cloudProvider : string;
  instanceType : string;
  instanceID : string
}.

(** [func RegisterCloudProvider(name info.CloudProvider, provider CloudProvider)]
    on the package variable [providers], which is passed in and handed back;
    the boolean tells whether the duplicate-registration warning was logged. *)
Definition RegisterCloudProvider (providers : gmap string CloudProvider)
    (name : string) (provider : CloudProvider) : bool * gmap string CloudProvider :=
  (bool_decide (is_Some (providers !! name)), <[name := provider]> providers).

(** The loop [for name, provider := range providers] of [NewRealCloudInfo],
    for one order of iteration. *)
Fixpoint rangeProviders (order : list (string * CloudProvider)) : realCloudInfo :=
  match order with
  | [] =>
      (* No registered active provider. *)
      {| cloudProvider := UnknownProvider;
         instanceType := UnknownInstance;
         instanceID := UnNamedInstance |}
  | (name, provider) :: rest =>
      if IsActiveProvider provider
      then {| cloudProvider := name;
              instanceType := GetInstanceType provider;
              instanceID := GetInstanceID provider |}
      else rangeProviders rest
  end.

(** [func NewRealCloudInfo() CloudInfo]: Go ranges over a map in an order it
    does not specify, so the call may return what the loop gives for any
    order of the registered providers. *)
Definition NewRealCloudInfo (providers : gmap string CloudProvider) (r : realCloudInfo) : Prop :=
  ∃ order, order ≡ₚ map_to_list providers ∧ rangeProviders order = r.

(** [func (self *realCloudInfo) GetCloudProvider() info.CloudProvider] *)
Definition GetCloudProvider (self : realCloudInfo) : string := cloudProvider self.

End Providers.

End CloudInfo.

(** ** machine: machine information *)

Module Machine.

Definition hugepagesDirectory : string := "/sys/kernel/mm/hugepages/".

(** The default values of the flags [machine_id_file] and [boot_id_file]. *)
Definition machineIdFilePathDefault : string := "/etc/machine-id,/var/lib/dbus/machine-id".
Definition bootIdFilePathDefault : string := "/proc/sys/kernel/random/boot_id".

(** The file system: [ioutil.ReadFile], and [ioutil.ReadDir] by the names of
    the entries it lists. *)
Record Files : Type := {
  ReadFile : string → res string;
  ReadDir : string → res (list string)
}.

(** The file system calls made. *)
Inductive Event : Type :=
| EvReadFile (filename : string)
| EvReadDir (dirname : string).

(** [info.HugePagesInfo] *)
Record HugePagesInfo : Type := {
  PageSize : Z;
  NumPages : Z
}.

(** [b[:i]] on a slice or array of bytes: a run-time panic when [i] is out of
    range. *)
Definition sliceTo {A : Type} (b : list A) (i : Z) : outcome (list A) :=
  if (i <? 0)%Z || (Z.of_nat (length b) <? i)%Z
  then Panics "runtime error: slice bounds out of range"
  else Returns (take (Z.to_nat i) b).

(** [func KernelVersion() string]; [uname] is what [unix.Uname] answers, the
    [Release] field of the structure it fills in, or an error. *)
Definition KernelVersion (uname : res (list ascii)) : outcome string :=
  match uname with
  | Err _ => Returns "Unknown"
  | Ok Release =>
      b ← sliceTo Release (GoStrings.IndexByte Release "000"%char);
      mret (string_of_list_ascii b)
  end.

Section Info.

(** From the Go library: [strings.TrimSpace], [strconv.ParseUint(s, 10, 64)]
    and [fmt.Sscanf(s, "%d", &n)] for an unsigned [n], which answers [None]
    when it reports an error or a count other than one. *)
Variable strings_TrimSpace : string → string.
Variable strconv_ParseUint : string → res Z.
Variable fmt_Sscanf_d : string → option Z.

(** The loop of [getInfoFromFiles] over the files. *)
Fixpoint rangeFiles (w : Files) (files : list string) : io Event string :=
  match files with
  | [] => mret ""
  | file :: rest =>
      id ← call (EvReadFile file) (ReadFile w file);
      match id with
      | Ok id => mret (strings_TrimSpace id)
      | Err _ => rangeFiles w rest
      end
  end.

(** [func getInfoFromFiles(filePaths string) string] *)
Definition getInfoFromFiles (w : Files) (filePaths : string) : io Event string :=
  if Nat.eqb (String.length filePaths) 0 then mret ""
  else rangeFiles w (GoStrings.Split filePaths ",").

(** The loop of [GetHugePagesInfo] over the directory entries; [acc] is
    [hugePagesInfo] so far. *)
Fixpoint rangeHugePages (w : Files) (files : list string) (acc : list HugePagesInfo)
  : io Event (list HugePagesInfo * option error) :=
  match files with
  | [] => mret (acc, None)
  | name :: rest =>
      let nameArray := GoStrings.Split name "-" in
      size ← io_lift (index nameArray 1);
      let pageSizeArray := GoStrings.Split size "kB" in
      digits ← io_lift (index pageSizeArray 0);
      match strconv_ParseUint digits with
      | Err err => mret (acc, Some err)
      | Ok pageSize =>
          let numFile := hugepagesDirectory +:+ name +:+ "/nr_hugepages" in
          val ← call (EvReadFile numFile) (ReadFile w numFile);
          match val with
          | Err err => mret (acc, Some err)
          | Ok val =>
              match fmt_Sscanf_d val with
              | None =>
                  mret (acc, Some (Errorf "could not parse file %v contents %q"
                                          [numFile; val]))
              | Some numPages =>
                  rangeHugePages w rest
                    (acc ++ [ {| PageSize := pageSize; NumPages := numPages |} ])
              end
          end
      end
  end.

(** [func GetHugePagesInfo() ([]info.HugePagesInfo, error)] *)
Definition GetHugePagesInfo (w : Files) : io Event (list HugePagesInfo * option error) :=
  files ← call (EvReadDir hugepagesDirectory) (ReadDir w hugepagesDirectory);
  match files with
  | Err _ => mret ([], None)
  | Ok files => rangeHugePages w files []
  end.

(** The collaborators of [Info] besides the file system; the types of what
    they answer with are declared outside these sources. *)
Context {DiskMap NetDevices Topology : Type}.

(** [fs.Fs], an entry of [fsInfo.GetGlobalFsInfo()], by the fields [Info]
    reads; [fsInodes] is a pointer. *)
Record Fs : Type := {
  fsDevice : string;
  fsMajor : Z;
  fsMinor : Z;
  fsTypeString : string;
  fsCapacity : Z;
  fsInodes : option Z
}.

(** [info.FsInfo] *)
Record FsInfo : Type := {
  Device : string;
  DeviceMajor : Z;
  DeviceMinor : Z;
  Type_ : string;
  Capacity : Z;
  Inodes : Z;
  HasInodes : bool
}.

Record Collaborators : Type := {
  GetClockSpeed : string → res Z;
  GetMachineMemoryCapacity : res Z;
  GetGlobalFsInfo : list Fs * option error;
  GetBlockDeviceInfo : DiskMap * option error;
  GetNetworkDevices : NetDevices * option error;
  GetTopology : string → Topology * Z * option error;
  GetSystemUUID : string * option error
}.

(** [info.MachineInfo] *)
Record MachineInfo : Type := {
  NumCores : Z;
  CpuFrequency : Z;
  MemoryCapacity : Z;
  HugePages : list HugePagesInfo;
  MachineID : string;
  SystemUUID : string;
  BootID : string;
  Filesystems : list FsInfo;
  DiskMap_ : DiskMap;
  NetworkDevices : NetDevices;
  Topology_ : Topology;
  CloudProvider : string;
  InstanceType : string;
  InstanceID : string
}.

(** Body of the loop over [filesystems]. *)
Definition toFsInfo (fs : Fs) : FsInfo :=
  {| Device := fsDevice fs;
     DeviceMajor := fsMajor fs;
     DeviceMinor := fsMinor fs;
     Type_ := fsTypeString fs;
     Capacity := fsCapacity fs;
     Inodes := match fsInodes fs with Some inodes => inodes | None => 0%Z end;
     HasInodes := match fsInodes fs with Some _ => true | None => false end |}.

(** [func Info(sysFs sysfs.SysFs, fsInfo fs.FsInfo, inHostNamespace bool)],
    returning a pointer to [info.MachineInfo] and an error; [cloud] is what [cloudinfo.NewRealCloudInfo()] returns, and the two
    strings are the values of the flags.  On Linux [filepath.Join] is
    [path.Join]. *)
Definition Info (w : Files) (c : Collaborators) (cloud : CloudInfo.realCloudInfo)
    (machineIdFilePath bootIdFilePath : string) (inHostNamespace : bool)
  : io Event (option MachineInfo * option error) :=
  let rootFs := if inHostNamespace then "/" else "/rootfs" in
  let cpuinfoFile := GoPath.Join [rootFs; "/proc/cpuinfo"] in
  cpuinfo ← call (EvReadFile cpuinfoFile) (ReadFile w cpuinfoFile);
  match cpuinfo with
  | Err err => mret (None, Some err)
  | Ok cpuinfo =>
  match GetClockSpeed c cpuinfo with
  | Err err => mret (None, Some err)
  | Ok clockSpeed =>
  match GetMachineMemoryCapacity c with
  | Err err => mret (None, Some err)
  | Ok memoryCapacity =>
  '(hugePagesInfo, err) ← GetHugePagesInfo w;
  match err with
  | Some err => mret (None, Some err)
  | None =>
  let filesystems := fst (GetGlobalFsInfo c) in
  let diskMap := fst (GetBlockDeviceInfo c) in
  let netDevices := fst (GetNetworkDevices c) in
  let '(topology, numCores) := fst (GetTopology c cpuinfo) in
  let systemUUID := fst (GetSystemUUID c) in
  machineID ← getInfoFromFiles w (GoPath.Join [rootFs; machineIdFilePath]);
  bootID ← getInfoFromFiles w (GoPath.Join [rootFs; bootIdFilePath]);
  mret (Some {|
    NumCores := numCores;
    CpuFrequency := clockSpeed;
    MemoryCapacity := memoryCapacity;
    HugePages := hugePagesInfo;
    MachineID := machineID;
    SystemUUID := systemUUID;
    BootID := bootID;
    Filesystems := map toFsInfo filesystems;
    DiskMap_ := diskMap;
    NetworkDevices := netDevices;
    Topology_ := topology;
    CloudProvider := CloudInfo.cloudProvider cloud;
    InstanceType := CloudInfo.instanceType cloud;
    InstanceID := CloudInfo.instanceID cloud
  |}, None)
  end end end end.

End Info.

End Machine.

(** ** Sample values

    A host and a container on which the properties below are instantiated:
    network counters are one number, there is no disk I/O record, and a
    time is kept as its text. *)

Module Sample.

Import Docker.

Definition stats : ContainerStats (NetworkStats := Z) (DiskIoStats := unit) :=
  {| Network := 4096%Z; DiskIo := tt; Filesystem := [] |}.

Definition machine : MachineInfo :=
  {| Filesystems := [ {| fsDevice := "/dev/sda1"; fsCapacity := 1000000; fsType := "ext4" |} ] |}.

Definition baseline : FsUsage :=
  {| BaseUsageBytes := 1000; TotalUsageBytes := 2000; InodeUsage := 5 |}.

(** A corrector whose thin-pool watcher has nothing cached for the device. *)
Definition failingCorrector : dockerFsHandler :=
  {| fsHandler := {| samplerUsage := baseline |};
     thinPoolWatcher :=
       Some {| thinPoolGetUsage := λ _, Err (ErrExternal "no cached usage for device") |};
     deviceID := "pool-dev-1";
     zfsWatcher := None;
     zfsFilesystem := "" |}.

(** A thin-pool watcher that answers for the device [pool-dev-1], one that
    has nothing cached, and a zfs watcher that answers. *)
Definition thinPoolAnswers : ThinPoolWatcher :=
  {| thinPoolGetUsage := λ d, if String.eqb d "pool-dev-1"
                              then Ok 500000%Z
                              else Err (ErrExternal "no cached usage for device") |}.

Definition thinPoolFails : ThinPoolWatcher :=
  {| thinPoolGetUsage := λ _, Err (ErrExternal "no cached usage for device") |}.

Definition zfsAnswers : ZfsWatcher :=
  {| zfsGetUsage := λ _, Ok 40%Z |}.

(** A corrector with both watchers configured and answering, and one whose
    thin-pool query fails while the zfs watcher answers. *)
Definition bothWatchers : dockerFsHandler :=
  {| fsHandler := {| samplerUsage := baseline |};
     thinPoolWatcher := Some thinPoolAnswers;
     deviceID := "pool-dev-1";
     zfsWatcher := Some zfsAnswers;
     zfsFilesystem := "zroot/docker/m0unt1d" |}.

Definition zfsAloneAnswers : dockerFsHandler :=
  {| fsHandler := {| samplerUsage := baseline |};
     thinPoolWatcher := Some thinPoolFails;
     deviceID := "pool-dev-1";
     zfsWatcher := Some zfsAnswers;
     zfsFilesystem := "zroot/docker/m0unt1d" |}.

(** A handler of the given metrics, network mode, driver and corrector. *)
Definition handler (metrics : MetricSet) (mode : string) (driver : storageDriver)
    (fsh : option dockerFsHandler) : dockerContainerHandler (Time := string) :=
  {| machineInfoFactory := {| GetMachineInfo := Ok machine |};
     cgroupPaths := {[ "cpu" := "/sys/fs/cgroup/cpu/docker/abc123" ]};
     hStorageDriver := driver;
     fsInfo := {| GetDirFsDevice := λ _, Ok "/dev/sda1" |};
     rootfsStorageDir := "/var/lib/docker/overlay2/m0unt1d/diff";
     creationTime := "2019-01-01T00:00:00Z";
     envs := ∅;
     labels := Some ∅;
     image := "nginx";
     networkMode := mode;
     hFsHandler := fsh;
     ipAddress := "";
     includedMetrics := metrics;
     poolName := "docker-pool";
     zfsParent := "";
     reference := {| Id := "abc123"; Name := "/docker/abc123";
                     Aliases := ["web"; "abc123"]; Namespace := "docker" |};
     libcontainerHandler := Some {| libcontainerGetStats := (Some stats, None) |} |}.

(** The host: one mapping file, holding the mount id of container [abc123],
    and a daemon with a zfs parent dataset. *)
Definition world : World :=
  {| ReadFile := λ f,
       if String.eqb f "/var/lib/docker/image/overlay2/layerdb/mounts/abc123/mount-id"
       then Ok "m0unt1d" else Err (ErrExternal "no such file or directory");
     Status := Ok {[ "Parent Dataset" := "zroot/docker" ]} |}.

Definition inspected (created : string) : ContainerJSON :=
  {| ctnrCreated := created;
     ctnrName := "/web";
     ctnrRestartCount := 0;
     ctnrStatePid := 4242;
     configLabels := Some ∅;
     configImage := "nginx";
     configEnv := ["PATH=/usr/bin"];
     hostConfigNetworkMode := "bridge";
     networkSettingsIPAddress := "172.17.0.2";
     graphDriverData := ∅ |}.

(** The daemon knows container [abc123], and container [bad71me] whose
    creation time it reports as [yesterday]. *)
Definition client : dockerClient :=
  {| ContainerInspect := λ id,
       if String.eqb id "abc123" then Ok (inspected "2019-01-01T00:00:00.000000000Z")
       else if String.eqb id "bad71me" then Ok (inspected "yesterday")
       else Err (ErrExternal "No such container") |}.

Definition parseTime (value : string) : res string :=
  if String.eqb value "yesterday"
  then Err (ErrExternal "parsing time: cannot parse as 2006")
  else Ok value.

Definition dockerId (name : string) : string := GoStrings.TrimPrefix name "/docker/".

(** Construction of a handler on this host, without disk-usage metrics. *)
Definition construct (name : string) (driver : storageDriver) (storageDir : string)
    (inHostNamespace : bool) (dockerVersion : list Z)
  : io Event (option (dockerContainerHandler (NetworkStats := Z) (DiskIoStats := unit))
              * option error) :=
  newDockerContainerHandler parseTime dockerId (λ mounts _, mounts)
    (λ _ _ _, {| samplerUsage := baseline |})
    (λ _ _ _ _ _, {| libcontainerGetStats := (Some stats, None) |})
    (λ _, "1") (λ s, s) "docker" "Parent Dataset"
    world client name {| GetMachineInfo := Ok machine |}
    {| GetDirFsDevice := λ _, Ok "/dev/sda1" |}
    driver storageDir {| MountPoints := ∅ |} inHostNamespace [] dockerVersion
    ∅ "docker-pool" None None.

(** A pod: container [pod1] has no address of its own, joined the network
    namespace of [pause0] and was restarted three times; [nolabels] was
    restarted twice and has no labels map. *)
Definition podMember : ContainerJSON :=
  {| ctnrCreated := "2019-01-02T00:00:00.000000000Z";
     ctnrName := "/k8s_app_pod1";
     ctnrRestartCount := 3;
     ctnrStatePid := 4343;
     configLabels := Some {[ "app" := "web" ]};
     configImage := "app";
     configEnv := ["PATH=/usr/bin"; "TERM=xterm"];
     hostConfigNetworkMode := "container:pause0";
     networkSettingsIPAddress := "";
     graphDriverData := ∅ |}.

Definition podPause : ContainerJSON :=
  {| ctnrCreated := "2019-01-02T00:00:00.000000000Z";
     ctnrName := "/k8s_POD_pod1";
     ctnrRestartCount := 0;
     ctnrStatePid := 4300;
     configLabels := Some ∅;
     configImage := "pause";
     configEnv := [];
     hostConfigNetworkMode := "none";
     networkSettingsIPAddress := "10.0.0.5";
     graphDriverData := ∅ |}.

Definition noLabels : ContainerJSON :=
  {| ctnrCreated := "2019-01-03T00:00:00.000000000Z";
     ctnrName := "/bare";
     ctnrRestartCount := 2;
     ctnrStatePid := 4400;
     configLabels := None;
     configImage := "bare";
     configEnv := [];
     hostConfigNetworkMode := "bridge";
     networkSettingsIPAddress := "172.17.0.3";
     graphDriverData := ∅ |}.

Definition podClient : dockerClient :=
  {| ContainerInspect := λ id,
       if String.eqb id "pod1" then Ok podMember
       else if String.eqb id "pause0" then Ok podPause
       else if String.eqb id "nolabels" then Ok noLabels
       else Err (ErrExternal "No such container") |}.

(** Construction of a handler of the pod's daemon, with the given metrics. *)
Definition constructPod (name : string) (driver : storageDriver) (dockerVersion : list Z)
    (metrics : MetricSet)
  : io Event (option (dockerContainerHandler (NetworkStats := Z) (DiskIoStats := unit))
              * option error) :=
  newDockerContainerHandler parseTime dockerId (λ mounts _, mounts)
    (λ _ _ _, {| samplerUsage := baseline |})
    (λ _ _ _ _ _, {| libcontainerGetStats := (Some stats, None) |})
    (λ _, "3") (λ s, s) "docker" "Parent Dataset"
    world podClient name {| GetMachineInfo := Ok machine |}
    {| GetDirFsDevice := λ _, Ok "/dev/sda1" |}
    driver "/var/lib/docker" {| MountPoints := ∅ |} true [] dockerVersion
    metrics "docker-pool" None None.

(** A machine seen from a container.  [strings.TrimSpace] for spaces and
    line feeds, [strconv.ParseUint] and [fmt.Sscanf] for decimal digits. *)
Definition isSpace (c : ascii) : bool := Ascii.eqb c " " || Ascii.eqb c "010".

Fixpoint dropSpace (l : list ascii) : list ascii :=
  match l with
  | c :: rest => if isSpace c then dropSpace rest else l
  | [] => []
  end.

Definition trimSpace (s : string) : string :=
  string_of_list_ascii (rev (dropSpace (rev (dropSpace (list_ascii_of_string s))))).

Definition digit (c : ascii) : option Z :=
  let n := (Z.of_nat (nat_of_ascii c) - 48)%Z in
  if (0 <=? n)%Z && (n <=? 9)%Z then Some n else None.

Fixpoint scanDigits (acc : option Z) (l : list ascii) : option Z * list ascii :=
  match l with
  | c :: rest =>
      match digit c with
      | Some n => scanDigits (Some (default 0 acc * 10 + n)%Z) rest
      | None => (acc, l)
      end
  | [] => (acc, [])
  end.

Definition parseUint (s : string) : res Z :=
  match scanDigits None (list_ascii_of_string s) with
  | (Some n, []) => Ok n
  | _ => Err (ErrExternal "invalid syntax")
  end.

Definition sscanf (s : string) : option Z :=
  fst (scanDigits None (list_ascii_of_string s)).

Definition lineFeed : string := String "010" "".

Definition machineFiles : Machine.Files :=
  {| Machine.ReadFile := λ f,
       if String.eqb f "/rootfs/proc/cpuinfo" then Ok "cpu MHz : 2400.000"
       else if String.eqb f "/var/lib/dbus/machine-id" then Ok ("5f3a9c" +:+ lineFeed)
       else if String.eqb f "/sys/kernel/mm/hugepages/hugepages-2048kB/nr_hugepages"
       then Ok ("4" +:+ lineFeed)
       else if String.eqb f "/sys/kernel/mm/hugepages/hugepages-1048576kB/nr_hugepages"
       then Ok ("0" +:+ lineFeed)
       else Err (ErrExternal "no such file or directory");
     Machine.ReadDir := λ d,
       if String.eqb d "/sys/kernel/mm/hugepages/"
       then Ok ["hugepages-2048kB"; "hugepages-1048576kB"]
       else Err (ErrExternal "no such file or directory") |}.

Definition machineCollaborators
  : Machine.Collaborators (DiskMap := unit) (NetDevices := unit) (Topology := unit) :=
  {| Machine.GetClockSpeed := λ _, Ok 2400000%Z;
     Machine.GetMachineMemoryCapacity := Ok 8589934592%Z;
     Machine.GetGlobalFsInfo := ([], None);
     Machine.GetBlockDeviceInfo := (tt, None);
     Machine.GetNetworkDevices := (tt, None);
     Machine.GetTopology := λ _, (tt, 4%Z, None);
     Machine.GetSystemUUID := ("", Some (ErrExternal "no such file or directory")) |}.

Definition gce : CloudInfo.CloudProvider :=
  {| CloudInfo.IsActiveProvider := true;
     CloudInfo.GetInstanceType := "n1-standard-1";
     CloudInfo.GetInstanceID := "4711" |}.

Definition aws : CloudInfo.CloudProvider :=
  {| CloudInfo.IsActiveProvider := false;
     CloudInfo.GetInstanceType := "";
     CloudInfo.GetInstanceID := "" |}.

Definition gceInfo : CloudInfo.realCloudInfo :=
  {| CloudInfo.cloudProvider := "GCE";
     CloudInfo.instanceType := "n1-standard-1";
     CloudInfo.instanceID := "4711" |}.

End Sample.

(** * Properties *)

(** ** Packages [path] and [strings], and the network mode, on examples *)

Example Clean_examples :
  GoPath.Clean "/../a/b/../././/c" = "/a/c" ∧
  GoPath.Clean "" = "." ∧
  GoPath.Clean "a/c/../../.." = ".." ∧
  GoPath.Clean "/" = "/" ∧
  GoPath.Clean "abc//def//ghi/" = "abc/def/ghi" ∧
  GoPath.Clean "../../abc/../def" = "../../def".
Proof. repeat split. Qed.

Example Join_examples :
  GoPath.Join ["a"; "b"; "c"] = "a/b/c" ∧
  GoPath.Join ["a/b"; "../../../xyz"] = "../xyz" ∧
  GoPath.Join [""; ""] = "" ∧
  GoPath.Join [""; "a"; ""; "b"] = "a/b" ∧
  GoPath.Join ["/rootfs"; "/var/lib/docker"] = "/rootfs/var/lib/docker".
Proof. repeat split. Qed.

Example SplitN2_examples :
  GoStrings.SplitN2 "KEY=a=b" "=" = ["KEY"; "a=b"] ∧
  GoStrings.SplitN2 "KEY" "=" = ["KEY"] ∧
  GoStrings.SplitN2 "KEY=" "=" = ["KEY"; ""] ∧
  GoStrings.TrimPrefix "container:0f3c" "container:" = "0f3c" ∧
  GoStrings.TrimPrefix "bridge" "container:" = "bridge".
Proof. repeat split. Qed.

Example IsContainer_examples :
  Docker.IsContainer "container:0f3c" = true ∧
  Docker.IsContainer "container" = false ∧
  Docker.IsContainer "bridge" = false ∧
  Docker.IsContainer "host" = false.
Proof. repeat split. Qed.

(** ** The raw factory *)

Section RawFactory.

Import Raw.

Lemma rangeWhiteList_existsb (name : string) (l : list string) :
  rangeWhiteList name l = (true, existsb (GoStrings.HasPrefix name) l, None).
Proof.
  induction l as [|prefix rest IH]; simpl; [reflexivity|].
  destruct (GoStrings.HasPrefix name prefix); simpl; [reflexivity|exact IH].
Qed.

Lemma name_is_root (name : string) : name = "/" → String.eqb name "/" = true.
Proof. intros ->. reflexivity. Qed.

Lemma name_not_root (name : string) : name ≠ "/" → String.eqb name "/" = false.
Proof. intros H. apply String.eqb_neq. exact H. Qed.

Lemma CanHandleAndAccept_root (dockerOnly : bool) (self : rawFactory) :
  CanHandleAndAccept dockerOnly self "/" = Returns (true, true, None).
Proof. reflexivity. Qed.

Lemma CanHandleAndAccept_cons (dockerOnly : bool) (self : rawFactory) (name : string)
    (first : string) (rest : list string) :
  rawPrefixWhiteList self = first :: rest → name ≠ "/" →
  CanHandleAndAccept dockerOnly self name =
    Returns (true,
             negb (dockerOnly && String.eqb first "")
               && existsb (GoStrings.HasPrefix name) (first :: rest),
             None).
Proof.
  intros Hwl Hname. unfold CanHandleAndAccept.
  rewrite (name_not_root _ Hname), Hwl.
  destruct dockerOnly; simpl.
  - destruct (String.eqb first ""); simpl; [reflexivity|].
    destruct (GoStrings.HasPrefix name first); simpl; [reflexivity|].
    rewrite rangeWhiteList_existsb. reflexivity.
  - destruct (GoStrings.HasPrefix name first); simpl; [reflexivity|].
    rewrite rangeWhiteList_existsb. reflexivity.
Qed.

Lemma CanHandleAndAccept_flag_off (self : rawFactory) (name : string) :
  name ≠ "/" →
  CanHandleAndAccept false self name =
    Returns (true, existsb (GoStrings.HasPrefix name) (rawPrefixWhiteList self), None).
Proof.
  intros Hname. unfold CanHandleAndAccept. rewrite (name_not_root _ Hname). simpl.
  rewrite rangeWhiteList_existsb. reflexivity.
Qed.

Lemma CanHandleAndAccept_index_panic (self : rawFactory) (name : string) :
  rawPrefixWhiteList self = [] → name ≠ "/" →
  CanHandleAndAccept true self name = Panics "runtime error: index out of range".
Proof.
  intros Hwl Hname. unfold CanHandleAndAccept. rewrite (name_not_root _ Hname), Hwl.
  reflexivity.
Qed.

(** C3 (as amended).  The root container is accepted whatever the flag and
    the whitelist are.  With [--docker_only] off, every other name gets
    [canHandle = true] and no error whatever the whitelist is, one of length
    zero included, and is accepted exactly when one of the whitelist entries
    is a prefix of it.  With a whitelist of at least one entry, every other
    name gets [canHandle = true] and no error under either value of the flag,
    and is accepted exactly when one of the whitelist entries is a prefix of
    it, unless [--docker_only] is set and the first whitelist entry is the
    empty string, in which case it is rejected.  What is left, a name other
    than the root with [--docker_only] set and a whitelist of length zero,
    does not return: the call panics on the index. *)
Theorem CanHandleAndAccept_policy (dockerOnly : bool) (self : rawFactory) (name : string) :
  (name = "/" → CanHandleAndAccept dockerOnly self name = Returns (true, true, None)) ∧
  (∀ first rest, rawPrefixWhiteList self = first :: rest → name ≠ "/" →
     CanHandleAndAccept dockerOnly self name =
       Returns (true,
                negb (dockerOnly && String.eqb first "")
                  && existsb (GoStrings.HasPrefix name) (first :: rest),
                None)) ∧
  (dockerOnly = false → name ≠ "/" →
     CanHandleAndAccept dockerOnly self name =
       Returns (true, existsb (GoStrings.HasPrefix name) (rawPrefixWhiteList self), None)) ∧
  (dockerOnly = true → rawPrefixWhiteList self = [] → name ≠ "/" →
     CanHandleAndAccept dockerOnly self name = Panics "runtime error: index out of range").
Proof.
  split; [|split; [|split]].
  - intros ->. apply CanHandleAndAccept_root.
  - intros first rest. apply CanHandleAndAccept_cons.
  - intros ->. apply CanHandleAndAccept_flag_off.
  - intros ->. apply CanHandleAndAccept_index_panic.
Qed.

(** Scenario D with the whitelist an unset flag parses to, the single empty
    string: the root is accepted, ["/other"] is handled and rejected.  With
    the flag off and a whitelist of length zero ["/other"] is handled and
    rejected as well. *)
Lemma CanHandleAndAccept_policy_witness :
  CanHandleAndAccept true {| rawPrefixWhiteList := [""] |} "/" = Returns (true, true, None) ∧
  CanHandleAndAccept true {| rawPrefixWhiteList := [""] |} "/other" = Returns (true, false, None) ∧
  CanHandleAndAccept false {| rawPrefixWhiteList := [] |} "/other" = Returns (true, false, None) ∧
  CanHandleAndAccept true {| rawPrefixWhiteList := [] |} "/other"
    = Panics "runtime error: index out of range".
Proof.
  split; [|split; [|split]].
  - apply (proj1 (CanHandleAndAccept_policy true {| rawPrefixWhiteList := [""] |} "/")).
    reflexivity.
  - apply (proj1 (proj2 (CanHandleAndAccept_policy true {| rawPrefixWhiteList := [""] |}
                           "/other")) "" []); [reflexivity | discriminate].
  - apply (proj1 (proj2 (proj2 (CanHandleAndAccept_policy false
                                  {| rawPrefixWhiteList := [] |} "/other"))));
      [reflexivity | discriminate].
  - apply (proj2 (proj2 (proj2 (CanHandleAndAccept_policy true
                                  {| rawPrefixWhiteList := [] |} "/other"))));
      [reflexivity | reflexivity | discriminate].
Defined.

(** C3 as stated fails.  With [--docker_only] set and a whitelist of length
    zero the call for ["/other"] panics instead of returning [(true, false)];
    and with [--docker_only] set and the whitelist [[""; "/sys"]] the name
    ["/sys/fs"] has the whitelisted prefix ["/sys"] and is rejected. *)
Lemma CanHandleAndAccept_not_as_stated :
  CanHandleAndAccept true {| rawPrefixWhiteList := [] |} "/other"
    = Panics "runtime error: index out of range" ∧
  CanHandleAndAccept true {| rawPrefixWhiteList := [] |} "/other"
    ≠ Returns (true, false, None) ∧
  GoStrings.HasPrefix "/sys/fs" "/sys" = true ∧
  CanHandleAndAccept true {| rawPrefixWhiteList := [""; "/sys"] |} "/sys/fs"
    = Returns (true, false, None).
Proof. repeat split; try reflexivity. discriminate. Qed.

(** C9.  [CanHandleAndAccept] returns whenever the whitelist has at least one
    entry; it panics exactly when [--docker_only] is set, the name is not the
    root and the whitelist has length zero, the case in which element 0 is
    indexed out of range. *)
Theorem CanHandleAndAccept_total_iff_nonempty
    (dockerOnly : bool) (self : rawFactory) (name : string) :
  (rawPrefixWhiteList self ≠ [] →
     ∃ r, CanHandleAndAccept dockerOnly self name = Returns r) ∧
  ((∃ msg, CanHandleAndAccept dockerOnly self name = Panics msg) ↔
     dockerOnly = true ∧ name ≠ "/" ∧ rawPrefixWhiteList self = []).
Proof.
  split.
  - intros Hne. destruct (String.eqb_spec name "/") as [Hroot|Hname].
    + subst name. eexists. apply CanHandleAndAccept_root.
    + destruct (rawPrefixWhiteList self) as [|first rest] eqn:Hwl; [congruence|].
      eexists.
      apply (CanHandleAndAccept_cons dockerOnly self name first rest Hwl Hname).
  - split.
    + intros [msg Hp]. unfold CanHandleAndAccept in Hp.
      destruct (String.eqb_spec name "/") as [Hroot|Hname]; [discriminate|].
      destruct dockerOnly; simpl in Hp.
      * destruct (rawPrefixWhiteList self) as [|first rest]; simpl in Hp.
        -- repeat split; assumption.
        -- destruct (String.eqb first ""); discriminate.
      * discriminate.
    + intros (-> & Hname & Hwl). unfold CanHandleAndAccept.
      rewrite (name_not_root _ Hname), Hwl. simpl. eexists. reflexivity.
Qed.

Lemma CanHandleAndAccept_total_iff_nonempty_witness :
  (∃ r, CanHandleAndAccept true {| rawPrefixWhiteList := ["/sys"] |} "/other" = Returns r) ∧
  (∃ msg, CanHandleAndAccept true {| rawPrefixWhiteList := [] |} "/other" = Panics msg).
Proof.
  split.
  - apply (proj1 (CanHandleAndAccept_total_iff_nonempty
                    true {| rawPrefixWhiteList := ["/sys"] |} "/other")).
    discriminate.
  - apply (proj2 (CanHandleAndAccept_total_iff_nonempty
                    true {| rawPrefixWhiteList := [] |} "/other")).
    split; [reflexivity | split; [discriminate | reflexivity]].
Defined.

End RawFactory.

(** ** The storage-driver usage corrector *)

Section UsageCorrector.

Import Docker.

Lemma add64_exact (a b : Z) :
  (0 ≤ a)%Z → (0 ≤ b)%Z → (a + b < 2 ^ 64)%Z → add64 a b = (a + b)%Z.
Proof. intros Ha Hb Hlt. unfold add64. apply Z.mod_small. lia. Qed.

(** A watcher contributes nothing at this poll when it is not configured or
    its query fails. *)
Abbreviation thinPoolSilent h :=
  (∀ tp, thinPoolWatcher h = Some tp → ∃ e, thinPoolGetUsage tp (deviceID h) = Err e).
Abbreviation zfsSilent h :=
  (∀ zw, zfsWatcher h = Some zw → ∃ e, zfsGetUsage zw (zfsFilesystem h) = Err e).

(** The two halves of [Usage()]: the thin-pool overlay on a snapshot, then
    the zfs overlay on the result. *)
Lemma Usage_zfs_silent (h : dockerFsHandler) :
  zfsSilent h →
  dockerFsHandler_Usage h =
    match thinPoolWatcher h with
    | Some tp =>
        match thinPoolGetUsage tp (deviceID h) with
        | Ok v => {| BaseUsageBytes := v;
                     TotalUsageBytes := add64 (TotalUsageBytes (samplerUsage (fsHandler h))) v;
                     InodeUsage := InodeUsage (samplerUsage (fsHandler h)) |}
        | Err _ => samplerUsage (fsHandler h)
        end
    | None => samplerUsage (fsHandler h)
    end.
Proof.
  intros Hz. unfold dockerFsHandler_Usage.
  destruct (zfsWatcher h) as [zw|]; [|reflexivity].
  destruct (Hz zw eq_refl) as [e ->]. reflexivity.
Qed.

Lemma Usage_thinPool_silent (h : dockerFsHandler) :
  thinPoolSilent h →
  dockerFsHandler_Usage h =
    match zfsWatcher h with
    | Some zw =>
        match zfsGetUsage zw (zfsFilesystem h) with
        | Ok v => {| BaseUsageBytes := v;
                     TotalUsageBytes := add64 (TotalUsageBytes (samplerUsage (fsHandler h))) v;
                     InodeUsage := InodeUsage (samplerUsage (fsHandler h)) |}
        | Err _ => samplerUsage (fsHandler h)
        end
    | None => samplerUsage (fsHandler h)
    end.
Proof.
  intros Ht. unfold dockerFsHandler_Usage.
  destruct (thinPoolWatcher h) as [tp|]; [|reflexivity].
  destruct (Ht tp eq_refl) as [e ->]. reflexivity.
Qed.

(** When every configured watcher fails, the corrector answers with the
    sampler's snapshot. *)
Lemma Usage_watchers_fail (h : dockerFsHandler) :
  thinPoolSilent h → zfsSilent h →
  dockerFsHandler_Usage h = samplerUsage (fsHandler h).
Proof.
  intros Ht Hz. rewrite (Usage_zfs_silent h Hz).
  destruct (thinPoolWatcher h) as [tp|]; [|reflexivity].
  destruct (Ht tp eq_refl) as [e ->]. reflexivity.
Qed.

(** Both watchers configured and both answering: the zfs figure is the base
    and both figures are added to the total. *)
Lemma Usage_both_watchers (h : dockerFsHandler) (tp : ThinPoolWatcher) (zw : ZfsWatcher)
    (v1 v2 : Z) :
  thinPoolWatcher h = Some tp → thinPoolGetUsage tp (deviceID h) = Ok v1 →
  zfsWatcher h = Some zw → zfsGetUsage zw (zfsFilesystem h) = Ok v2 →
  dockerFsHandler_Usage h =
    {| BaseUsageBytes := v2;
       TotalUsageBytes := add64 (add64 (TotalUsageBytes (samplerUsage (fsHandler h))) v1) v2;
       InodeUsage := InodeUsage (samplerUsage (fsHandler h)) |}.
Proof.
  intros Htp Hv1 Hzw Hv2. unfold dockerFsHandler_Usage.
  rewrite Htp, Hv1, Hzw, Hv2. reflexivity.
Qed.

(** C2 (as amended).  Let [B] be the snapshot of the wrapped sampler.  When
    one of the two watchers, the thin-pool watcher or the zfs watcher, is
    configured and its [GetUsage] succeeds with [V], while the other is not
    configured or its query fails, [Usage()] is
    [{Base: V, Total: B.Total + V, Inodes: B.Inodes}].  When both are
    configured and both queries succeed, with [V] from the thin pool and
    [V2] from zfs, [Usage()] is
    [{Base: V2, Total: B.Total + V + V2, Inodes: B.Inodes}].  When the query
    of every configured watcher fails, [Usage()] is [B] unchanged.  The sums
    are those of [uint64], which are the sums of the integers as long as
    these are below 2^64. *)
Theorem dockerFsHandler_Usage_overlay (h : dockerFsHandler) (V : Z) :
  let B := samplerUsage (fsHandler h) in
  let corrected := {| BaseUsageBytes := V;
                      TotalUsageBytes := add64 (TotalUsageBytes B) V;
                      InodeUsage := InodeUsage B |} in
  (∀ tp, thinPoolWatcher h = Some tp → thinPoolGetUsage tp (deviceID h) = Ok V →
         zfsSilent h → dockerFsHandler_Usage h = corrected) ∧
  (∀ zw, zfsWatcher h = Some zw → zfsGetUsage zw (zfsFilesystem h) = Ok V →
         thinPoolSilent h → dockerFsHandler_Usage h = corrected) ∧
  (thinPoolSilent h → zfsSilent h → dockerFsHandler_Usage h = B) ∧
  ((0 ≤ TotalUsageBytes B)%Z → (0 ≤ V)%Z → (TotalUsageBytes B + V < 2 ^ 64)%Z →
   TotalUsageBytes corrected = (TotalUsageBytes B + V)%Z) ∧
  (∀ tp zw V2,
     thinPoolWatcher h = Some tp → thinPoolGetUsage tp (deviceID h) = Ok V →
     zfsWatcher h = Some zw → zfsGetUsage zw (zfsFilesystem h) = Ok V2 →
     dockerFsHandler_Usage h =
       {| BaseUsageBytes := V2;
          TotalUsageBytes := add64 (add64 (TotalUsageBytes B) V) V2;
          InodeUsage := InodeUsage B |} ∧
     ((0 ≤ TotalUsageBytes B)%Z → (0 ≤ V)%Z → (0 ≤ V2)%Z →
      (TotalUsageBytes B + V + V2 < 2 ^ 64)%Z →
      TotalUsageBytes (dockerFsHandler_Usage h) = (TotalUsageBytes B + V + V2)%Z)).
Proof.
  intros B corrected. split; [|split; [|split; [|split]]].
  - intros tp Htp HV Hz. rewrite (Usage_zfs_silent h Hz), Htp, HV. reflexivity.
  - intros zw Hzw HV Ht. rewrite (Usage_thinPool_silent h Ht), Hzw, HV. reflexivity.
  - apply Usage_watchers_fail.
  - intros HB HV Hlt. apply add64_exact; assumption.
  - intros tp zw V2 Htp HV Hzw HV2.
    rewrite (Usage_both_watchers h tp zw V V2 Htp HV Hzw HV2). split; [reflexivity|].
    intros HB H1 H2 Hlt. cbn [TotalUsageBytes]. fold B.
    rewrite (add64_exact (TotalUsageBytes B) V) by lia.
    apply add64_exact; lia.
Qed.

(** Scenario B: the thin-pool watcher answers [500000] for ["pool-dev-1"] on
    top of the baseline [{Base: 1000, Total: 2000, Inodes: 5}]; and the same
    handler with a watcher that fails. *)
Lemma dockerFsHandler_Usage_overlay_witness :
  dockerFsHandler_Usage
    {| fsHandler := {| samplerUsage := Sample.baseline |};
       thinPoolWatcher :=
         Some {| thinPoolGetUsage := λ d, if String.eqb d "pool-dev-1"
                                          then Ok 500000%Z
                                          else Err (ErrExternal "no cached usage for device") |};
       deviceID := "pool-dev-1";
       zfsWatcher := None;
       zfsFilesystem := "" |}
  = {| BaseUsageBytes := 500000; TotalUsageBytes := 502000; InodeUsage := 5 |} ∧
  dockerFsHandler_Usage Sample.failingCorrector
  = {| BaseUsageBytes := 1000; TotalUsageBytes := 2000; InodeUsage := 5 |}.
Proof.
  split.
  - match goal with |- dockerFsHandler_Usage ?h = _ =>
      apply (proj1 (dockerFsHandler_Usage_overlay h 500000%Z) _ eq_refl eq_refl)
    end.
    intros zw Hzw. discriminate Hzw.
  - apply (proj1 (proj2 (proj2 (dockerFsHandler_Usage_overlay Sample.failingCorrector 0%Z)))).
    + intros tp Htp. injection Htp as <-. eexists. reflexivity.
    + intros zw Hzw. discriminate Hzw.
Defined.

(** C2 as stated fails.  On the baseline [{Base: 1000, Total: 2000, Inodes: 5}]
    with the thin-pool watcher answering [500000] and the zfs watcher
    answering [40], the thin-pool query succeeds and [Usage()] is
    [{Base: 40, Total: 502040, Inodes: 5}], not
    [{Base: 500000, Total: 502000, Inodes: 5}].  On the same baseline with
    the thin-pool query failing and the zfs watcher answering [40], the
    query of the thin-pool watcher fails and [Usage()] is
    [{Base: 40, Total: 2040, Inodes: 5}], not the baseline. *)
Lemma dockerFsHandler_Usage_not_as_stated :
  thinPoolGetUsage Sample.thinPoolAnswers (deviceID Sample.bothWatchers) = Ok 500000%Z ∧
  dockerFsHandler_Usage Sample.bothWatchers
  = {| BaseUsageBytes := 40; TotalUsageBytes := 502040; InodeUsage := 5 |} ∧
  dockerFsHandler_Usage Sample.bothWatchers
  ≠ {| BaseUsageBytes := 500000; TotalUsageBytes := 502000; InodeUsage := 5 |} ∧
  (∃ e, thinPoolGetUsage Sample.thinPoolFails (deviceID Sample.zfsAloneAnswers) = Err e) ∧
  dockerFsHandler_Usage Sample.zfsAloneAnswers
  = {| BaseUsageBytes := 40; TotalUsageBytes := 2040; InodeUsage := 5 |} ∧
  dockerFsHandler_Usage Sample.zfsAloneAnswers ≠ samplerUsage (fsHandler Sample.zfsAloneAnswers).
Proof.
  split; [reflexivity|]. split; [reflexivity|]. split; [discriminate|].
  split; [eexists; reflexivity|]. split; [reflexivity | discriminate].
Qed.

End UsageCorrector.

(** ** Resolution of the read-write layer id *)

Section RwLayerID.

Import Docker.

Lemma getRwLayerID_old (w : World) (containerID storageDir : string) (sd : storageDriver)
    (major minor : Z) (rest : list Z) :
  (major ≤ 1)%Z → (minor < 10)%Z →
  getRwLayerID w containerID storageDir sd (major :: minor :: rest)
  = (Returns (containerID, None), []).
Proof.
  intros Hmaj Hmin. unfold getRwLayerID. cbn.
  rewrite (proj2 (Z.leb_le major 1) Hmaj). cbn.
  unfold randomizedRWLayerMinorVersion.
  rewrite (proj2 (Z.ltb_lt minor 10) Hmin). reflexivity.
Qed.

Lemma getRwLayerID_randomized (w : World) (containerID storageDir : string)
    (sd : storageDriver) (major minor : Z) (rest : list Z) :
  (1 < major ∨ 10 ≤ minor)%Z →
  getRwLayerID w containerID storageDir sd (major :: minor :: rest)
  = (match ReadFile w (rwLayerIDPath containerID storageDir sd) with
     | Ok bytes => Returns (bytes, None)
     | Err err =>
         Returns ("", Some (ErrorfWrap
                   "failed to identify the read-write layer ID for container %q. - %v"
                   [containerID] err))
     end,
     [EvReadFile (rwLayerIDPath containerID storageDir sd)]).
Proof.
  intros Hv. unfold getRwLayerID. cbn.
  destruct (Z.leb_spec major 1) as [Hmaj|Hmaj]; cbn.
  - unfold randomizedRWLayerMinorVersion.
    destruct (Z.ltb_spec minor 10) as [Hmin|Hmin]; [lia|]. cbn.
    destruct (ReadFile w _); reflexivity.
  - destruct (ReadFile w _); reflexivity.
Qed.

(** C5 (as amended).  For a version [major.minor...]: when [major <= 1] and
    [minor < 10] the container id is returned and no file is read; in every
    other case ([major >= 2] or [minor >= 10]) exactly one file is read,
    [storageDir/image/<driver>/layerdb/mounts/<containerId>/mount-id], its
    contents are the identifier, and a failed read makes the resolution
    return an error. *)
Theorem getRwLayerID_by_version (w : World) (containerID storageDir : string)
    (sd : storageDriver) (major minor : Z) (rest : list Z) :
  let run := getRwLayerID w containerID storageDir sd (major :: minor :: rest) in
  let file := GoPath.Join [storageDir; "image"; sd; "layerdb"; "mounts"; containerID;
                           "mount-id"] in
  ((major ≤ 1)%Z → (minor < 10)%Z →
     result run = Returns (containerID, None) ∧ trace run = []) ∧
  ((1 < major ∨ 10 ≤ minor)%Z →
     trace run = [EvReadFile file] ∧
     (∀ bytes, ReadFile w file = Ok bytes → result run = Returns (bytes, None)) ∧
     (∀ err, ReadFile w file = Err err → ∃ e, result run = Returns ("", Some e))).
Proof.
  intros run file. split.
  - intros Hmaj Hmin. unfold run. rewrite getRwLayerID_old by assumption. split; reflexivity.
  - intros Hv. unfold run. rewrite getRwLayerID_randomized by assumption.
    change (rwLayerIDPath containerID storageDir sd) with file.
    split; [reflexivity|]. split.
    + intros bytes ->. reflexivity.
    + intros err ->. eexists. reflexivity.
Qed.

(** Versions 1.9.1 and 1.11.0 on the sample host, where the mapping file of
    container [abc123] holds [m0unt1d] and no other file can be read. *)
Lemma getRwLayerID_by_version_witness :
  let w := Sample.world in
  (result (getRwLayerID w "abc123" "/var/lib/docker" "overlay2" [1; 9; 1]%Z)
     = Returns ("abc123", None) ∧
   trace (getRwLayerID w "abc123" "/var/lib/docker" "overlay2" [1; 9; 1]%Z) = []) ∧
  (trace (getRwLayerID w "abc123" "/var/lib/docker" "overlay2" [1; 11; 0]%Z)
     = [EvReadFile "/var/lib/docker/image/overlay2/layerdb/mounts/abc123/mount-id"] ∧
   result (getRwLayerID w "abc123" "/var/lib/docker" "overlay2" [1; 11; 0]%Z)
     = Returns ("m0unt1d", None)) ∧
  (∃ e, result (getRwLayerID w "def456" "/var/lib/docker" "overlay2" [1; 11; 0]%Z)
          = Returns ("", Some e)).
Proof.
  intros w. split; [|split].
  - apply (proj1 (getRwLayerID_by_version w "abc123" "/var/lib/docker" "overlay2"
                    1 9 [1%Z])); lia.
  - pose proof (proj2 (getRwLayerID_by_version w "abc123" "/var/lib/docker" "overlay2"
                         1 11 [0%Z])) as H.
    destruct H as (Ht & Hok & _); [lia|]. split.
    + exact Ht.
    + apply Hok. reflexivity.
  - pose proof (proj2 (getRwLayerID_by_version w "def456" "/var/lib/docker" "overlay2"
                         1 11 [0%Z])) as H.
    destruct H as (_ & _ & Herr); [lia|].
    apply (Herr (ErrExternal "no such file or directory")). reflexivity.
Defined.

(** C5 as stated fails: version 17.3.0 has a minor number below 10, yet the
    mapping file is read and its contents, not the container id, are the
    identifier. *)
Lemma getRwLayerID_minor_alone_does_not_decide :
  let w := Sample.world in
  (3 < 10)%Z ∧
  getRwLayerID w "abc123" "/var/lib/docker" "overlay2" [17; 3; 0]%Z
    = (Returns ("m0unt1d", None),
       [EvReadFile "/var/lib/docker/image/overlay2/layerdb/mounts/abc123/mount-id"]) ∧
  result (getRwLayerID w "abc123" "/var/lib/docker" "overlay2" [17; 3; 0]%Z)
    ≠ Returns ("abc123", None) ∧
  trace (getRwLayerID w "abc123" "/var/lib/docker" "overlay2" [17; 3; 0]%Z) ≠ [].
Proof.
  intros w. split; [lia|]. split; [reflexivity|]. split; discriminate.
Qed.

End RwLayerID.

(** ** The netlink load reader *)

Section LoadReader.

Import Netlink.

Context {LoadStats : Type}.
Variable zeroLoadStats : LoadStats.

(** C6.  [GetCpuLoad(name, "")] returns the zero [LoadStats] and an error, and
    makes no external call: no file is opened and nothing is sent to or read
    from the kernel. *)
Theorem GetCpuLoad_empty_path (k : Kernel) (self : NetlinkReader) (name : string) :
  result (GetCpuLoad zeroLoadStats k self name "")
    = Returns (zeroLoadStats, Some (Errorf "cgroup path can not be empty!" [])) ∧
  trace (GetCpuLoad zeroLoadStats k self name "") = [].
Proof. split; reflexivity. Qed.

(** With a path that is not empty the reader does open it. *)
Lemma GetCpuLoad_nonempty_path_opens (k : Kernel) (self : NetlinkReader) (name path : string) :
  path ≠ "" →
  ∃ rest, trace (GetCpuLoad zeroLoadStats k self name path) = EvOpen path :: rest.
Proof.
  intros Hp. unfold GetCpuLoad. destruct path as [|c path]; [congruence|]. cbn.
  destruct (os_Open k _); cbn.
  - destruct (getLoadStats k _ _ _); cbn; eexists; reflexivity.
  - eexists; reflexivity.
Qed.

End LoadReader.

(** ** Statistics of a Docker container *)

Section Stats.

Import Docker.

Context {NetworkStats DiskIoStats Time : Type}.
Variable zeroNetworkStats : NetworkStats.
Variable AssignDeviceNamesToDiskStats : MachineInfo → DiskIoStats → DiskIoStats.

Abbreviation handlerT := (dockerContainerHandler (NetworkStats := NetworkStats)
                        (DiskIoStats := DiskIoStats) (Time := Time)).
Abbreviation getFsStats' := (getFsStats AssignDeviceNamesToDiskStats).
Abbreviation GetStats' := (GetStats zeroNetworkStats AssignDeviceNamesToDiskStats).

(** [getFsStats] leaves the network sub-record alone. *)
Lemma getFsStats_Network (self : handlerT) (s : ContainerStats)
    (stats' : option ContainerStats) (err : option error) :
  getFsStats' self (Some s) = Returns (stats', err) →
  ∃ s', stats' = Some s' ∧ Network s' = Network s.
Proof.
  unfold getFsStats. intros H.
  destruct (GetMachineInfo (machineInfoFactory self)) as [mi|e].
  2:{ inversion H; subst. eauto. }
  destruct (Has (includedMetrics self) DiskIOMetrics); cbn in H.
  - destruct (negb (Has (includedMetrics self) DiskUsageMetrics)).
    { inversion H; subst. eauto. }
    destruct (chooseDevice self) as [device|e|].
    + destruct (findFilesystem (Filesystems mi) device) as [limit ty].
      destruct (hFsHandler self) as [fh|]; cbn in H; [|discriminate].
      inversion H; subst. eauto.
    + inversion H; subst. eauto.
    + inversion H; subst. eauto.
  - destruct (negb (Has (includedMetrics self) DiskUsageMetrics)).
    { inversion H; subst. eauto. }
    destruct (chooseDevice self) as [device|e|].
    + destruct (findFilesystem (Filesystems mi) device) as [limit ty].
      destruct (hFsHandler self) as [fh|]; cbn in H; [|discriminate].
      inversion H; subst. eauto.
    + inversion H; subst. eauto.
    + inversion H; subst. eauto.
Qed.

(** When [needNet] is false, whatever [GetStats] returns without an error
    carries the zero network sub-record. *)
Lemma GetStats_no_net (self : handlerT) (stats : option ContainerStats) :
  needNet self = false →
  GetStats' self = Returns (stats, None) →
  ∃ s, stats = Some s ∧ Network s = zeroNetworkStats.
Proof.
  intros Hnn H. unfold GetStats in H. rewrite Hnn in H.
  destruct (libcontainerHandler self) as [lh|]; cbn in H; [|discriminate].
  destruct (libcontainerGetStats lh) as [st [e|]]; [discriminate|].
  destruct st as [s|]; cbn in H; [|discriminate].
  match type of H with
  | context [getFsStats' self (Some ?x)] =>
      destruct (getFsStats' self (Some x)) as [[st' err]|msg] eqn:Hfs
  end; cbn in H; [|discriminate].
  apply getFsStats_Network in Hfs. destruct Hfs as (s' & -> & Hnet).
  destruct err; inversion H; subst. eauto.
Qed.

(** When [needNet] is true the network sub-record of the cgroup statistics is
    passed on. *)
Lemma GetStats_net_passed_on (self : handlerT) (lh : libcontainerHandlerT)
    (s : ContainerStats) (stats : option ContainerStats) :
  needNet self = true →
  libcontainerHandler self = Some lh → libcontainerGetStats lh = (Some s, None) →
  GetStats' self = Returns (stats, None) →
  ∃ s', stats = Some s' ∧ Network s' = Network s.
Proof.
  intros Hnn Hlh Hls H. unfold GetStats in H. rewrite Hnn, Hlh in H. cbn in H.
  rewrite Hls in H. cbn in H.
  destruct (getFsStats' self (Some s)) as [[st' err]|msg] eqn:Hfs; cbn in H; [|discriminate].
  apply getFsStats_Network in Hfs. destruct Hfs as (s' & -> & Hnet).
  destruct err; inversion H; subst. eauto.
Qed.

(** C4.  A handler whose network mode is [container:...], that is whose
    container shares another container's network namespace, reports the zero
    network sub-record in every [GetStats] that returns without an error. *)
Theorem GetStats_shared_netns_zero (self : handlerT) (stats : option ContainerStats) :
  IsContainer (networkMode self) = true →
  GetStats' self = Returns (stats, None) →
  ∃ s, stats = Some s ∧ Network s = zeroNetworkStats.
Proof.
  intros Hc. apply GetStats_no_net. unfold needNet. rewrite Hc.
  destruct (Has (includedMetrics self) NetworkUsageMetrics); reflexivity.
Qed.

(** C10.  A handler whose metric set does not hold the network-usage metrics
    reports the zero network sub-record in every [GetStats] that returns
    without an error, whatever its network mode is. *)
Theorem GetStats_network_metrics_off_zero (self : handlerT) (stats : option ContainerStats) :
  Has (includedMetrics self) NetworkUsageMetrics = false →
  GetStats' self = Returns (stats, None) →
  ∃ s, stats = Some s ∧ Network s = zeroNetworkStats.
Proof.
  intros Hm. apply GetStats_no_net. unfold needNet. rewrite Hm. reflexivity.
Qed.


(** With the cgroup statistics, the machine information and the device at
    hand, [GetStats] returns without an error and with one more filesystem
    record, whatever the watchers and the inventory say. *)
Lemma GetStats_disk_usage (self : handlerT) (lh : libcontainerHandlerT)
    (s : ContainerStats) (mi : MachineInfo) (fh : dockerFsHandler) (device : string) :
  libcontainerHandler self = Some lh → libcontainerGetStats lh = (Some s, None) →
  GetMachineInfo (machineInfoFactory self) = Ok mi →
  Has (includedMetrics self) DiskUsageMetrics = true →
  hFsHandler self = Some fh →
  chooseDevice self = UseDevice device →
  ∃ s', GetStats' self = Returns (Some s', None) ∧
        Filesystem s' = Filesystem s ++ [fsStatFor mi fh device].
Proof.
  intros Hlh Hls Hmi Hdu Hfh Hdev.
  unfold GetStats, getFsStats. rewrite Hlh. cbn. rewrite Hls, Hmi, Hdu, Hdev, Hfh.
  unfold fsStatFor.
  destruct (findFilesystem (Filesystems mi) device) as [limit ty].
  destruct (needNet self); destruct (Has (includedMetrics self) DiskIOMetrics); cbn;
    eexists; (split; [reflexivity|reflexivity]).
Qed.


End Stats.

(** A container that joined the network namespace of container [0f3c]: the
    cgroup statistics carry the counter 4096, the handler reports 0. *)
Lemma GetStats_shared_netns_zero_witness :
  let self := Sample.handler {[ Docker.NetworkUsageMetrics ]} "container:0f3c"
                             Docker.overlay2StorageDriver None in
  Docker.IsContainer (Docker.networkMode self) = true ∧
  Docker.Network Sample.stats = 4096%Z ∧
  ∃ s, Docker.GetStats 0%Z (λ _ d, d) self = Returns (Some s, None) ∧
       Docker.Network s = 0%Z.
Proof.
  intros self. split; [reflexivity|]. split; [reflexivity|].
  destruct (GetStats_shared_netns_zero 0%Z (λ _ d, d) self
              (Some {| Docker.Network := 0%Z; Docker.DiskIo := tt; Docker.Filesystem := [] |})
              eq_refl eq_refl) as (s & Hs & Hnet).
  exists s. split; [rewrite <- Hs; reflexivity | exact Hnet].
Defined.

(** A container with its own network namespace (mode [bridge]) whose handler
    was built without the network-usage metrics. *)
Lemma GetStats_network_metrics_off_zero_witness :
  let self := Sample.handler {[ Docker.DiskIOMetrics ]} "bridge"
                             Docker.overlay2StorageDriver None in
  Docker.IsContainer (Docker.networkMode self) = false ∧
  Docker.Network Sample.stats = 4096%Z ∧
  ∃ s, Docker.GetStats 0%Z (λ _ d, d) self = Returns (Some s, None) ∧
       Docker.Network s = 0%Z.
Proof.
  intros self. split; [reflexivity|]. split; [reflexivity|].
  destruct (GetStats_network_metrics_off_zero 0%Z (λ _ d, d) self
              (Some {| Docker.Network := 0%Z; Docker.DiskIo := tt; Docker.Filesystem := [] |})
              eq_refl eq_refl) as (s & Hs & Hnet).
  exists s. split; [rewrite <- Hs; reflexivity | exact Hnet].
Defined.


(** ** Facts on strings *)

Section StringFacts.

Lemma HasPrefix_app (s p : string) :
  GoStrings.HasPrefix s p = true ↔ ∃ t, s = p +:+ t.
Proof.
  unfold GoStrings.HasPrefix. revert s.
  induction p as [|c p IH]; intros s.
  - split; [intros _; exists s; reflexivity | intros _; destruct s; reflexivity].
  - destruct s as [|d s]; simpl.
    + split; [discriminate | intros [t Ht]; discriminate Ht].
    + destruct (Ascii.ascii_dec c d) as [->|Hne].
      * rewrite IH. split; intros [t Ht]; exists t; [rewrite Ht; reflexivity|].
        injection Ht as ->. reflexivity.
      * split; [discriminate|]. intros [t Ht]. injection Ht as -> _. congruence.
Qed.

Lemma HasPrefix_empty (s : string) : GoStrings.HasPrefix s "" = true.
Proof. apply HasPrefix_app. exists s. reflexivity. Qed.

Lemma substring_all (s : string) : String.substring 0 (String.length s) s = s.
Proof. induction s as [|c s IH]; simpl; [reflexivity|]. rewrite IH. reflexivity. Qed.

(** [TrimPrefix] removes exactly the prefix. *)
Lemma TrimPrefix_app (p t : string) : GoStrings.TrimPrefix (p +:+ t) p = t.
Proof.
  unfold GoStrings.TrimPrefix.
  rewrite (proj2 (HasPrefix_app (p +:+ t) p)) by (exists t; reflexivity).
  induction p as [|c p IH]; simpl.
  - rewrite Nat.sub_0_r. apply substring_all.
  - exact IH.
Qed.

Lemma TrimPrefix_no_prefix (s p : string) :
  GoStrings.HasPrefix s p = false → GoStrings.TrimPrefix s p = s.
Proof. intros H. unfold GoStrings.TrimPrefix. rewrite H. reflexivity. Qed.

(** [SplitN2] cuts at the first separator: it gives the whole text when
    there is no separator in it, and otherwise the text before the first
    separator and the text after it. *)
Lemma SplitN2_shape (s : string) (sep : ascii) :
  (GoStrings.SplitN2 s sep = [s] ∧ ¬ In sep (list_ascii_of_string s)) ∨
  (∃ a b, GoStrings.SplitN2 s sep = [a; b] ∧ s = a +:+ String sep b ∧
          ¬ In sep (list_ascii_of_string a)).
Proof.
  induction s as [|c s IH]; simpl.
  - left. split; [reflexivity | intros []].
  - destruct (Ascii.eqb_spec c sep) as [->|Hne].
    + right. exists "", s. split; [reflexivity|]. split; [reflexivity | intros []].
    + destruct IH as [[-> Hno]|(a & b & -> & -> & Hno)].
      * left. split; [reflexivity|]. intros [Heq|Hin]; [congruence | exact (Hno Hin)].
      * right. exists (String c a), b. split; [reflexivity|]. split; [reflexivity|].
        intros [Heq|Hin]; [congruence | exact (Hno Hin)].
Qed.

Lemma SplitN2_app (a b : string) (sep : ascii) :
  ¬ In sep (list_ascii_of_string a) →
  GoStrings.SplitN2 (a +:+ String sep b) sep = [a; b].
Proof.
  induction a as [|c a IH]; intros Hno; simpl.
  - rewrite Ascii.eqb_refl. reflexivity.
  - destruct (Ascii.eqb_spec c sep) as [->|Hne].
    + exfalso. apply Hno. left. reflexivity.
    + rewrite IH; [reflexivity|]. intros Hin. apply Hno. right. exact Hin.
Qed.

End StringFacts.

(** ** Construction of a Docker container handler *)

Section Construction.

Import Docker.

Context {NetworkStats DiskIoStats Time : Type}.
Variable time_Parse : string → res Time.
Variable ContainerNameToDockerId : string → string.
Variable MakeCgroupPaths : gmap string string → string → gmap string string.
Variable NewFsHandler : string → string → fsInfoProvider → commonFsHandler.
Variable NewHandler :
  string → gmap string string → string → Z → MetricSet →
  libcontainerHandlerT (NetworkStats := NetworkStats) (DiskIoStats := DiskIoStats).
Variable strconv_Itoa : Z → string.
Variable strings_ToLower : string → string.
Variable DockerNamespace : string.
Variable DriverStatusParentDataset : string.

Local Arguments GoPath.Join : simpl never.

Abbreviation construct :=
  (newDockerContainerHandler time_Parse ContainerNameToDockerId MakeCgroupPaths
     NewFsHandler NewHandler strconv_Itoa strings_ToLower DockerNamespace
     DriverStatusParentDataset).

(** The outcome of a sequence of two computations. *)
Lemma result_bind {E A B : Type} (m : io E A) (k : A → io E B) :
  result (m ≫= k) =
  match result m with
  | Returns a => result (k a)
  | Panics msg => Panics msg
  end.
Proof.
  destruct m as [[a|msg] t]; cbn; [|reflexivity].
  destruct (k a); reflexivity.
Qed.

Lemma result_call_bind {E A B : Type} (ev : E) (a : A) (k : A → io E B) :
  result (call ev a ≫= k) = result (k a).
Proof. rewrite result_bind. reflexivity. Qed.

Lemma result_lift_bind {E A B : Type} (o : outcome A) (k : A → io E B) :
  result (io_lift o ≫= k) =
  match o with
  | Returns a => result (k a)
  | Panics msg => Panics msg
  end.
Proof. rewrite result_bind. reflexivity. Qed.

Lemma result_mret {E A : Type} (a : A) : result (mret a : io E A) = Returns a.
Proof. reflexivity. Qed.

Lemma getRwLayerID_returns (w : World) (containerID storageDir : string)
    (sd : storageDriver) (major minor : Z) (rest : list Z) :
  ∃ rw err, result (getRwLayerID w containerID storageDir sd (major :: minor :: rest))
            = Returns (rw, err).
Proof.
  unfold getRwLayerID. cbn.
  destruct (major <=? 1)%Z; cbn.
  - destruct (minor <? randomizedRWLayerMinorVersion)%Z; cbn; [eauto|].
    destruct (ReadFile w _); cbn; eauto.
  - destruct (ReadFile w _); cbn; eauto.
Qed.

Lemma storageLayout_returns (w : World) (driver : storageDriver) (storageDir rw : string) :
  ∃ l, result (storageLayout DriverStatusParentDataset w driver storageDir rw) = Returns l.
Proof.
  unfold storageLayout.
  repeat (match goal with |- context [if ?b then _ else _] => destruct b end; cbn; eauto).
  destruct (Status w); cbn; eauto.
Qed.

Lemma storageLayout_dirs (w : World) (driver : storageDriver) (storageDir rw : string)
    (rootfsDir zfsFs zfsPar : string) :
  result (storageLayout DriverStatusParentDataset w driver storageDir rw)
    = Returns (Ok (rootfsDir, zfsFs, zfsPar)) →
  (driver = aufsStorageDriver →
     rootfsDir = GoPath.Join [storageDir; "aufs"; "diff"; rw]) ∧
  (driver = overlayStorageDriver →
     rootfsDir = GoPath.Join [storageDir; "overlay"; rw; "upper"]) ∧
  (driver = overlay2StorageDriver →
     rootfsDir = GoPath.Join [storageDir; "overlay2"; rw; "diff"]).
Proof.
  intros H. repeat split; intros ->; cbn in H; inversion H; reflexivity.
Qed.

(** What a returned handler tells about the construction: the mount
    identifier was resolved, the layout computed, the container inspected and
    its creation time parsed; and how the handler's fields were filled. *)
Lemma construct_inversion (w : World) (client : dockerClient) (name : string)
    (mif : MachineInfoFactory) (fsi : fsInfoProvider)
    (driver : storageDriver) (storageDir : string)
    (cgroupSubsystems : CgroupSubsystems) (inHostNamespace : bool)
    (metadataEnvs : list string) (dockerVersion : list Z)
    (metrics : MetricSet) (thinPoolName : string)
    (tpw : option ThinPoolWatcher) (zw : option ZfsWatcher)
    (h : dockerContainerHandler) (err : option error) :
  let dir := if inHostNamespace then storageDir else GoPath.Join ["/rootfs"; storageDir] in
  let id := ContainerNameToDockerId name in
  result (construct w client name mif fsi driver storageDir cgroupSubsystems
            inHostNamespace metadataEnvs dockerVersion metrics thinPoolName tpw zw)
    = Returns (Some h, err) →
  ∃ rw zfsFs ctnr created,
    result (getRwLayerID w id dir driver dockerVersion) = Returns (rw, None) ∧
    result (storageLayout DriverStatusParentDataset w driver dir rw)
      = Returns (Ok (rootfsStorageDir h, zfsFs, zfsParent h)) ∧
    ContainerInspect client id = Ok ctnr ∧
    time_Parse (ctnrCreated ctnr) = Ok created ∧
    err = None ∧
    includedMetrics h = metrics ∧
    hStorageDriver h = driver ∧
    poolName h = thinPoolName ∧
    networkMode h = hostConfigNetworkMode ctnr ∧
    (Has metrics DiskUsageMetrics = false → hFsHandler h = None) ∧
    (Has metrics DiskUsageMetrics = true →
       ∃ fh, hFsHandler h = Some fh ∧ thinPoolWatcher fh = tpw ∧ zfsWatcher fh = zw ∧
             zfsFilesystem fh = zfsFs).
Proof.
  intros dir id H. unfold newDockerContainerHandler in H.
  assert (Hdir : (if inHostNamespace then storageDir
                  else GoPath.Join [if inHostNamespace then "/" else "/rootfs"; storageDir])
                 = dir) by (unfold dir; destruct inHostNamespace; reflexivity).
  rewrite Hdir in H. clear Hdir. fold id in H.
  rewrite result_bind in H.
  destruct (result (getRwLayerID w id dir driver dockerVersion)) as [[rw e]|msg] eqn:Hrw;
    cbv beta iota in H; [|discriminate H].
  destruct e as [e|]; [discriminate H|].
  rewrite result_bind in H.
  destruct (result (storageLayout DriverStatusParentDataset w driver dir rw))
    as [[[[rootfsDir zfsFs] zfsPar]|e]|msg] eqn:Hl; cbv beta iota in H;
    [|discriminate H|discriminate H].
  rewrite result_call_bind in H.
  destruct (ContainerInspect client id) as [ctnr|e] eqn:Hc; [|discriminate H].
  destruct (time_Parse (ctnrCreated ctnr)) as [created|e] eqn:Ht; [|discriminate H].
  rewrite result_lift_bind in H.
  match type of H with context [match ?o with Returns _ => _ | Panics _ => _ end] =>
    destruct o as [lbls|msg] end; [|discriminate H].
  rewrite result_bind in H.
  match type of H with context [match result ?m with _ => _ end] =>
    destruct (result m) as [[ip|e]|msg] end; [|discriminate H|discriminate H].
  rewrite result_mret in H. inversion H; subst. cbn.
  exists rw, zfsFs, ctnr, created.
  do 9 (split; [first [assumption | reflexivity]|]).
  split; intros ->; eauto.
Qed.

(** A failed inspection or an unparsable creation time ends the construction
    with an error, provided the version has its major and minor numbers. *)
Lemma construct_fails (w : World) (client : dockerClient) (name : string)
    (mif : MachineInfoFactory) (fsi : fsInfoProvider)
    (driver : storageDriver) (storageDir : string)
    (cgroupSubsystems : CgroupSubsystems) (inHostNamespace : bool)
    (metadataEnvs : list string) (major minor : Z) (rest : list Z)
    (metrics : MetricSet) (thinPoolName : string)
    (tpw : option ThinPoolWatcher) (zw : option ZfsWatcher) :
  ((∃ e, ContainerInspect client (ContainerNameToDockerId name) = Err e) ∨
   (∃ ctnr e, ContainerInspect client (ContainerNameToDockerId name) = Ok ctnr ∧
              time_Parse (ctnrCreated ctnr) = Err e)) →
  ∃ err,
    result (construct w client name mif fsi driver storageDir cgroupSubsystems
              inHostNamespace metadataEnvs (major :: minor :: rest) metrics
              thinPoolName tpw zw)
    = Returns (None, Some err).
Proof.
  intros Hfail. unfold newDockerContainerHandler.
  rewrite result_bind.
  match goal with |- context [getRwLayerID w ?id ?dir driver _] =>
    destruct (getRwLayerID_returns w id dir driver major minor rest) as (rw & e & ->)
  end.
  destruct e as [e|]; [eexists; reflexivity|].
  rewrite result_bind.
  match goal with |- context [storageLayout _ w driver ?dir rw] =>
    destruct (storageLayout_returns w driver dir rw) as (l & ->)
  end.
  destruct l as [[[rootfsDir zfsFs] zfsPar]|e]; [|eexists; reflexivity].
  rewrite result_call_bind.
  destruct Hfail as [[e ->]|(ctnr & e & -> & ->)]; eexists; reflexivity.
Qed.

(** C1 (as amended).  When construction yields a handler, its writable-layer
    directory is built from the storage directory (under [/rootfs] outside the
    host namespace) and the mount identifier that [getRwLayerID] resolved:
    for overlay it is [dir/overlay/<mountId>/upper], for overlay2 it is
    [dir/overlay2/<mountId>/diff], and for aufs it is [dir/aufs/diff/<mountId>],
    the subdirectory before the mount identifier. *)
Theorem newDockerContainerHandler_rootfsStorageDir
    (w : World) (client : dockerClient) (name : string)
    (mif : MachineInfoFactory) (fsi : fsInfoProvider)
    (driver : storageDriver) (storageDir : string)
    (cgroupSubsystems : CgroupSubsystems) (inHostNamespace : bool)
    (metadataEnvs : list string) (dockerVersion : list Z)
    (metrics : MetricSet) (thinPoolName : string)
    (tpw : option ThinPoolWatcher) (zw : option ZfsWatcher)
    (h : dockerContainerHandler) (err : option error) :
  let dir := if inHostNamespace then storageDir else GoPath.Join ["/rootfs"; storageDir] in
  let id := ContainerNameToDockerId name in
  result (construct w client name mif fsi driver storageDir cgroupSubsystems
            inHostNamespace metadataEnvs dockerVersion metrics thinPoolName tpw zw)
    = Returns (Some h, err) →
  ∃ mountId,
    result (getRwLayerID w id dir driver dockerVersion) = Returns (mountId, None) ∧
    (driver = overlayStorageDriver →
       rootfsStorageDir h = GoPath.Join [dir; "overlay"; mountId; "upper"]) ∧
    (driver = overlay2StorageDriver →
       rootfsStorageDir h = GoPath.Join [dir; "overlay2"; mountId; "diff"]) ∧
    (driver = aufsStorageDriver →
       rootfsStorageDir h = GoPath.Join [dir; "aufs"; "diff"; mountId]).
Proof.
  intros dir id H.
  destruct (construct_inversion _ _ _ _ _ _ _ _ _ _ _ _ _ _ _ _ _ H)
    as (rw & zfsFs & ctnr & created & Hrw & Hl & _).
  exists rw. split; [exact Hrw|].
  destruct (storageLayout_dirs _ _ _ _ _ _ _ Hl) as (Haufs & Hov & Hov2).
  repeat split; assumption.
Qed.

(** C7.  When the inspection of the container fails, or the creation time it
    reports does not parse, construction never yields a handler; and for a
    version with major and minor numbers it returns [nil] and an error. *)
Theorem newDockerContainerHandler_uninspectable
    (w : World) (client : dockerClient) (name : string)
    (mif : MachineInfoFactory) (fsi : fsInfoProvider)
    (driver : storageDriver) (storageDir : string)
    (cgroupSubsystems : CgroupSubsystems) (inHostNamespace : bool)
    (metadataEnvs : list string) (dockerVersion : list Z)
    (metrics : MetricSet) (thinPoolName : string)
    (tpw : option ThinPoolWatcher) (zw : option ZfsWatcher) :
  let id := ContainerNameToDockerId name in
  let run := construct w client name mif fsi driver storageDir cgroupSubsystems
               inHostNamespace metadataEnvs dockerVersion metrics thinPoolName tpw zw in
  ((∃ e, ContainerInspect client id = Err e) ∨
   (∃ ctnr e, ContainerInspect client id = Ok ctnr ∧ time_Parse (ctnrCreated ctnr) = Err e)) →
  (∀ h err, result run ≠ Returns (Some h, err)) ∧
  (∀ major minor rest, dockerVersion = major :: minor :: rest →
     ∃ err, result run = Returns (None, Some err)).
Proof.
  intros id run Hfail. split.
  - intros h err H.
    destruct (construct_inversion _ _ _ _ _ _ _ _ _ _ _ _ _ _ _ _ _ H)
      as (rw & zfsFs & ctnr & created & _ & _ & Hc & Ht & _).
    fold id in Hc.
    destruct Hfail as [[e He]|(ctnr' & e & Hc' & Ht')]; [congruence|].
    rewrite Hc in Hc'. injection Hc' as <-. congruence.
  - intros major minor rest ->. apply construct_fails. exact Hfail.
Qed.

(** What a computation that returns was made of. *)
Lemma bind_returns {E A B : Type} (m : io E A) (k : A → io E B) (b : B) (t : list E) :
  m ≫= k = (Returns b, t) →
  ∃ a t1 t2, m = (Returns a, t1) ∧ k a = (Returns b, t2) ∧ t = t1 ++ t2.
Proof.
  destruct m as [[a|msg] t1]; cbn; [|discriminate].
  destruct (k a) as [r t2] eqn:Hk. intros H. injection H as Hr Ht. subst r t.
  exists a, t1, t2. auto.
Qed.

Lemma trace_bind {E A B : Type} (m : io E A) (k : A → io E B) :
  trace (m ≫= k) =
  trace m ++ match result m with
             | Returns a => trace (k a)
             | Panics _ => []
             end.
Proof.
  destruct m as [[a|msg] t1]; cbn.
  - destruct (k a); reflexivity.
  - rewrite app_nil_r. reflexivity.
Qed.

Ltac ret_absurd H :=
  exfalso; cbv beta iota in H; unfold mret, io_mret, io_ret in H; discriminate H.

(** A run of the constructor that yields a handler, in full: the mount
    identifier was resolved, the layout computed, the container inspected,
    its creation time parsed, the labels and the IP address settled, in this
    order and with no other external call, and the handler holds what these
    steps gave. *)
Lemma construct_run (w : World) (client : dockerClient) (name : string)
    (mif : MachineInfoFactory) (fsi : fsInfoProvider)
    (driver : storageDriver) (storageDir : string)
    (cgroupSubsystems : CgroupSubsystems) (inHostNamespace : bool)
    (metadataEnvs : list string) (dockerVersion : list Z)
    (metrics : MetricSet) (thinPoolName : string)
    (tpw : option ThinPoolWatcher) (zw : option ZfsWatcher)
    (h : dockerContainerHandler) (err : option error) (t : list Event) :
  let dir := if inHostNamespace then storageDir else GoPath.Join ["/rootfs"; storageDir] in
  let rootFs := if inHostNamespace then "/" else "/rootfs" in
  let id := ContainerNameToDockerId name in
  construct w client name mif fsi driver storageDir cgroupSubsystems
    inHostNamespace metadataEnvs dockerVersion metrics thinPoolName tpw zw
    = (Returns (Some h, err), t) →
  ∃ rw t1 rootfsDir zfsFs zfsPar t2 ctnr created lbls ip t3,
    getRwLayerID w id dir driver dockerVersion = (Returns (rw, None), t1) ∧
    storageLayout DriverStatusParentDataset w driver dir rw
      = (Returns (Ok (rootfsDir, zfsFs, zfsPar)), t2) ∧
    ContainerInspect client id = Ok ctnr ∧
    time_Parse (ctnrCreated ctnr) = Ok created ∧
    (if (0 <? ctnrRestartCount ctnr)%Z
     then ∃ m, configLabels ctnr = Some m ∧
               lbls = Some (<["restartcount" := strconv_Itoa (ctnrRestartCount ctnr)]> m)
     else lbls = configLabels ctnr) ∧
    (if String.eqb (networkSettingsIPAddress ctnr) ""
        && GoStrings.HasPrefix (hostConfigNetworkMode ctnr) "container:"
     then ∃ c, ContainerInspect client
                 (GoStrings.TrimPrefix (hostConfigNetworkMode ctnr) "container:") = Ok c ∧
               ip = networkSettingsIPAddress c ∧
               t3 = [EvContainerInspect
                       (GoStrings.TrimPrefix (hostConfigNetworkMode ctnr) "container:")]
     else ip = networkSettingsIPAddress ctnr ∧ t3 = []) ∧
    err = None ∧
    t = t1 ++ t2 ++ [EvContainerInspect id] ++ t3 ∧
    h = {| machineInfoFactory := mif;
           cgroupPaths := MakeCgroupPaths (MountPoints cgroupSubsystems) name;
           hStorageDriver := driver;
           fsInfo := fsi;
           rootfsStorageDir := rootfsDir;
           creationTime := created;
           envs := metadataEnvMap strings_ToLower metadataEnvs (configEnv ctnr);
           labels := lbls;
           image := configImage ctnr;
           networkMode := hostConfigNetworkMode ctnr;
           hFsHandler :=
             if Has metrics DiskUsageMetrics then
               Some {| fsHandler :=
                         NewFsHandler rootfsDir
                           (GoPath.Join [dir; pathToContainersDir; id]) fsi;
                       thinPoolWatcher := tpw;
                       deviceID := default "" (graphDriverData ctnr !! "DeviceId");
                       zfsWatcher := zw;
                       zfsFilesystem := zfsFs |}
             else None;
           ipAddress := ip;
           includedMetrics := metrics;
           poolName := thinPoolName;
           zfsParent := zfsPar;
           reference := {| Id := id; Name := name;
                           Aliases := [GoStrings.TrimPrefix (ctnrName ctnr) "/"; id];
                           Namespace := DockerNamespace |};
           libcontainerHandler :=
             Some (NewHandler name
                     (MakeCgroupPaths (MountPoints cgroupSubsystems) name)
                     rootFs (ctnrStatePid ctnr) metrics) |}.
Proof.
  intros dir rootFs id H. unfold newDockerContainerHandler in H.
  assert (Hdir : (if inHostNamespace then storageDir
                  else GoPath.Join [if inHostNamespace then "/" else "/rootfs"; storageDir])
                 = dir) by (unfold dir; destruct inHostNamespace; reflexivity).
  rewrite Hdir in H. clear Hdir. fold id in H. fold rootFs in H.
  apply bind_returns in H. destruct H as ([rw e] & t1 & t1' & Hrw & H & ->).
  destruct e as [e|]; [ret_absurd H|].
  cbv beta iota in H.
  apply bind_returns in H. destruct H as (l & t2 & t2' & Hl & H & ->).
  destruct l as [[[rootfsDir zfsFs] zfsPar]|e]; [|ret_absurd H].
  cbv beta iota in H.
  apply bind_returns in H. destruct H as (c & tc & t3' & Hc & H & ->).
  injection Hc as <- <-.
  destruct (ContainerInspect client id) as [ctnr|e] eqn:Hci;
    [|ret_absurd H].
  destruct (time_Parse (ctnrCreated ctnr)) as [created|e] eqn:Ht;
    [|ret_absurd H].
  apply bind_returns in H. destruct H as (lbls & tl & t4' & Hlb & H & ->).
  apply bind_returns in H. destruct H as (ipr & t3 & t5' & Hip & H & ->).
  destruct ipr as [ip|e]; [|ret_absurd H].
  cbv beta iota in H. unfold mret, io_mret, io_ret in H.
  injection H as <- <- <-.
  unfold io_lift in Hlb. injection Hlb as Hlb <-.
  exists rw, t1, rootfsDir, zfsFs, zfsPar, t2, ctnr, created, lbls, ip, t3.
  split; [exact Hrw|]. split; [exact Hl|]. split; [reflexivity|]. split; [exact Ht|].
  split.
  { destruct (0 <? ctnrRestartCount ctnr)%Z.
    - destruct (configLabels ctnr) as [m|]; [|discriminate Hlb].
      injection Hlb as <-. eauto.
    - injection Hlb as <-. reflexivity. }
  split.
  { destruct (String.eqb (networkSettingsIPAddress ctnr) ""
              && GoStrings.HasPrefix (hostConfigNetworkMode ctnr) "container:").
    - apply bind_returns in Hip. destruct Hip as (c & tc & t6 & Hc & Hip & ->).
      injection Hc as <- <-.
      destruct (ContainerInspect client
                  (GoStrings.TrimPrefix (hostConfigNetworkMode ctnr) "container:"))
        as [c|e] eqn:Hc2; [|ret_absurd Hip].
      unfold mret, io_mret, io_ret in Hip. injection Hip as <- <-. eauto.
    - unfold mret, io_mret, io_ret in Hip. injection Hip as <- <-. auto. }
  split; [reflexivity|]. split; [|reflexivity].
  rewrite app_nil_r. reflexivity.
Qed.

Lemma storageLayout_trace (w : World) (driver : storageDriver) (storageDir rw : string) :
  trace (storageLayout DriverStatusParentDataset w driver storageDir rw)
  = if String.eqb driver zfsStorageDriver then [EvStatus] else [].
Proof.
  unfold storageLayout.
  destruct (String.eqb_spec driver aufsStorageDriver) as [->|_]; [reflexivity|].
  destruct (String.eqb_spec driver overlayStorageDriver) as [->|_]; [reflexivity|].
  destruct (String.eqb_spec driver overlay2StorageDriver) as [->|_]; [reflexivity|].
  destruct (String.eqb driver zfsStorageDriver); [|reflexivity].
  cbn. destruct (Status w); reflexivity.
Qed.

Lemma getRwLayerID_trace (w : World) (containerID storageDir : string)
    (sd : storageDriver) (major minor : Z) (rest : list Z) :
  trace (getRwLayerID w containerID storageDir sd (major :: minor :: rest))
  = if (major <=? 1)%Z && (minor <? 10)%Z then []
    else [EvReadFile (rwLayerIDPath containerID storageDir sd)].
Proof.
  destruct (Z.leb_spec major 1) as [Hmaj|Hmaj]; simpl.
  - destruct (Z.ltb_spec minor 10) as [Hmin|Hmin].
    + rewrite getRwLayerID_old by assumption. reflexivity.
    + rewrite getRwLayerID_randomized by (right; assumption). reflexivity.
  - rewrite getRwLayerID_randomized by (left; assumption). reflexivity.
Qed.

(** X4.  A construction that yields a handler has made these external calls
    and no other, in this order: the read of the mapping file unless the
    major number of the version is at most 1 and its minor number is below
    10, [Status()] for the zfs driver only, the inspection
    of the container, and the inspection of the container whose network
    namespace it joined when it has no IP address of its own. *)
Theorem newDockerContainerHandler_calls
    (w : World) (client : dockerClient) (name : string)
    (mif : MachineInfoFactory) (fsi : fsInfoProvider)
    (driver : storageDriver) (storageDir : string)
    (cgroupSubsystems : CgroupSubsystems) (inHostNamespace : bool)
    (metadataEnvs : list string) (major minor : Z) (rest : list Z)
    (metrics : MetricSet) (thinPoolName : string)
    (tpw : option ThinPoolWatcher) (zw : option ZfsWatcher)
    (h : dockerContainerHandler) (err : option error) (t : list Event)
    (ctnr : ContainerJSON) :
  let dir := if inHostNamespace then storageDir else GoPath.Join ["/rootfs"; storageDir] in
  let id := ContainerNameToDockerId name in
  let mode := hostConfigNetworkMode ctnr in
  construct w client name mif fsi driver storageDir cgroupSubsystems
    inHostNamespace metadataEnvs (major :: minor :: rest) metrics thinPoolName tpw zw
    = (Returns (Some h, err), t) →
  ContainerInspect client id = Ok ctnr →
  t = (if (major <=? 1)%Z && (minor <? 10)%Z then []
       else [EvReadFile (GoPath.Join [dir; "image"; driver; "layerdb"; "mounts"; id;
                                      "mount-id"])])
      ++ (if String.eqb driver zfsStorageDriver then [EvStatus] else [])
      ++ [EvContainerInspect id]
      ++ (if String.eqb (networkSettingsIPAddress ctnr) ""
             && GoStrings.HasPrefix mode "container:"
          then [EvContainerInspect (GoStrings.TrimPrefix mode "container:")]
          else []).
Proof.
  intros dir id mode H Hc.
  destruct (construct_run _ _ _ _ _ _ _ _ _ _ _ _ _ _ _ _ _ _ H)
    as (rw & t1 & rootfsDir & zfsFs & zfsPar & t2 & ctnr' & created & lbls & ip & t3
        & Hrw & Hl & Hc' & _ & _ & Hip & _ & -> & _).
  fold id in Hc'. rewrite Hc in Hc'. injection Hc' as <-.
  pose proof (getRwLayerID_trace w id dir driver major minor rest) as Ht1.
  fold id dir in Hrw. rewrite Hrw in Ht1. cbn [trace snd] in Ht1.
  pose proof (storageLayout_trace w driver dir rw) as Ht2.
  fold dir in Hl. rewrite Hl in Ht2. cbn [trace snd] in Ht2.
  subst t1 t2. f_equal. f_equal. f_equal.
  fold mode in Hip.
  destruct (String.eqb (networkSettingsIPAddress ctnr) ""
            && GoStrings.HasPrefix mode "container:").
  - destruct Hip as (c & _ & _ & ->). reflexivity.
  - destruct Hip as (_ & ->). reflexivity.
Qed.

(** X5.  The IP address of a constructed handler is the container's own when
    it has one or its network mode is not [container:...]; otherwise it is
    the address of the container named by the mode, whatever that address
    is: one hop and no more. *)
Theorem newDockerContainerHandler_ip_one_hop
    (w : World) (client : dockerClient) (name : string)
    (mif : MachineInfoFactory) (fsi : fsInfoProvider)
    (driver : storageDriver) (storageDir : string)
    (cgroupSubsystems : CgroupSubsystems) (inHostNamespace : bool)
    (metadataEnvs : list string) (dockerVersion : list Z)
    (metrics : MetricSet) (thinPoolName : string)
    (tpw : option ThinPoolWatcher) (zw : option ZfsWatcher)
    (h : dockerContainerHandler) (err : option error) (t : list Event)
    (ctnr : ContainerJSON) :
  let id := ContainerNameToDockerId name in
  let mode := hostConfigNetworkMode ctnr in
  construct w client name mif fsi driver storageDir cgroupSubsystems
    inHostNamespace metadataEnvs dockerVersion metrics thinPoolName tpw zw
    = (Returns (Some h, err), t) →
  ContainerInspect client id = Ok ctnr →
  (networkSettingsIPAddress ctnr ≠ "" ∨ GoStrings.HasPrefix mode "container:" = false →
   GetContainerIPAddress h = networkSettingsIPAddress ctnr) ∧
  (networkSettingsIPAddress ctnr = "" → GoStrings.HasPrefix mode "container:" = true →
   ∃ other c, mode = "container:" +:+ other ∧ ContainerInspect client other = Ok c ∧
              GetContainerIPAddress h = networkSettingsIPAddress c).
Proof.
  intros id mode H Hc.
  destruct (construct_run _ _ _ _ _ _ _ _ _ _ _ _ _ _ _ _ _ _ H)
    as (rw & t1 & rootfsDir & zfsFs & zfsPar & t2 & ctnr' & created & lbls & ip & t3
        & _ & _ & Hc' & _ & _ & Hip & _ & _ & ->).
  fold id in Hc'. rewrite Hc in Hc'. injection Hc' as <-. fold mode in Hip.
  unfold GetContainerIPAddress. cbn [ipAddress]. split.
  - intros Hown.
    destruct (String.eqb_spec (networkSettingsIPAddress ctnr) "") as [Hempty|Hne];
      cbn [andb] in Hip.
    + destruct Hown as [Hown|Hmode]; [congruence|]. rewrite Hmode in Hip. apply Hip.
    + apply Hip.
  - intros Hempty Hmode. rewrite Hempty, Hmode in Hip. cbn [String.eqb andb] in Hip.
    destruct Hip as (c & Hc2 & -> & _).
    destruct (proj1 (HasPrefix_app _ _) Hmode) as [other Hother].
    rewrite Hother, TrimPrefix_app in Hc2.
    exists other, c. auto.
Qed.

(** X6.  The labels of a constructed handler are the labels of the inspected
    container when its restart count is not positive; when it is positive
    they are these labels with [restartcount] set to the count, all other
    labels unchanged. *)
Theorem newDockerContainerHandler_restartcount
    (w : World) (client : dockerClient) (name : string)
    (mif : MachineInfoFactory) (fsi : fsInfoProvider)
    (driver : storageDriver) (storageDir : string)
    (cgroupSubsystems : CgroupSubsystems) (inHostNamespace : bool)
    (metadataEnvs : list string) (dockerVersion : list Z)
    (metrics : MetricSet) (thinPoolName : string)
    (tpw : option ThinPoolWatcher) (zw : option ZfsWatcher)
    (h : dockerContainerHandler) (err : option error) (t : list Event)
    (ctnr : ContainerJSON) :
  construct w client name mif fsi driver storageDir cgroupSubsystems
    inHostNamespace metadataEnvs dockerVersion metrics thinPoolName tpw zw
    = (Returns (Some h, err), t) →
  ContainerInspect client (ContainerNameToDockerId name) = Ok ctnr →
  ((ctnrRestartCount ctnr ≤ 0)%Z → GetContainerLabels h = configLabels ctnr) ∧
  ((0 < ctnrRestartCount ctnr)%Z →
   ∃ m m', configLabels ctnr = Some m ∧ GetContainerLabels h = Some m' ∧
           m' !! "restartcount" = Some (strconv_Itoa (ctnrRestartCount ctnr)) ∧
           ∀ k, k ≠ "restartcount" → m' !! k = m !! k).
Proof.
  intros H Hc.
  destruct (construct_run _ _ _ _ _ _ _ _ _ _ _ _ _ _ _ _ _ _ H)
    as (rw & t1 & rootfsDir & zfsFs & zfsPar & t2 & ctnr' & created & lbls & ip & t3
        & _ & _ & Hc' & _ & Hlb & _ & _ & _ & ->).
  rewrite Hc in Hc'. injection Hc' as <-.
  unfold GetContainerLabels. cbn [labels]. split.
  - intros Hn. rewrite (proj2 (Z.ltb_ge 0 _) Hn) in Hlb. exact Hlb.
  - intros Hn. rewrite (proj2 (Z.ltb_lt 0 _) Hn) in Hlb.
    destruct Hlb as (m & Hm & ->).
    exists m, (<["restartcount" := strconv_Itoa (ctnrRestartCount ctnr)]> m).
    split; [exact Hm|]. split; [reflexivity|]. split.
    + apply lookup_insert_eq.
    + intros k Hk. apply lookup_insert_ne. congruence.
Qed.

(** X7.  When the inspected container has a positive restart count and no
    labels map, the assignment of the [restartcount] label panics and the
    construction ends in that panic. *)
Theorem newDockerContainerHandler_nil_labels_panic
    (w : World) (client : dockerClient) (name : string)
    (mif : MachineInfoFactory) (fsi : fsInfoProvider)
    (driver : storageDriver) (storageDir : string)
    (cgroupSubsystems : CgroupSubsystems) (inHostNamespace : bool)
    (metadataEnvs : list string) (dockerVersion : list Z)
    (metrics : MetricSet) (thinPoolName : string)
    (tpw : option ThinPoolWatcher) (zw : option ZfsWatcher)
    (rw : string) (layout : string * string * string)
    (ctnr : ContainerJSON) (created : Time) :
  let dir := if inHostNamespace then storageDir else GoPath.Join ["/rootfs"; storageDir] in
  let id := ContainerNameToDockerId name in
  result (getRwLayerID w id dir driver dockerVersion) = Returns (rw, None) →
  result (storageLayout DriverStatusParentDataset w driver dir rw) = Returns (Ok layout) →
  ContainerInspect client id = Ok ctnr →
  time_Parse (ctnrCreated ctnr) = Ok created →
  (0 < ctnrRestartCount ctnr)%Z →
  configLabels ctnr = None →
  result (construct w client name mif fsi driver storageDir cgroupSubsystems
            inHostNamespace metadataEnvs dockerVersion metrics thinPoolName tpw zw)
  = Panics "assignment to entry in nil map".
Proof.
  intros dir id Hrw Hl Hc Ht Hn Hlb. unfold newDockerContainerHandler.
  assert (Hdir : (if inHostNamespace then storageDir
                  else GoPath.Join [if inHostNamespace then "/" else "/rootfs"; storageDir])
                 = dir) by (unfold dir; destruct inHostNamespace; reflexivity).
  rewrite Hdir. clear Hdir. fold id.
  rewrite result_bind, Hrw. cbv beta iota.
  rewrite result_bind, Hl. destruct layout as [[rootfsDir zfsFs] zfsPar]. cbv beta iota.
  rewrite result_call_bind, Hc, Ht.
  rewrite result_lift_bind, (proj2 (Z.ltb_lt 0 _) Hn), Hlb. reflexivity.
Qed.

(** X8.  [Start] and [Cleanup] on a constructed handler do not panic.  They
    make no call when the disk-usage metrics are off, and when they are on
    they start, respectively stop, the sampler that was built over the
    handler's writable-layer directory and the container's log directory. *)
Theorem newDockerContainerHandler_Start_Cleanup
    (w : World) (client : dockerClient) (name : string)
    (mif : MachineInfoFactory) (fsi : fsInfoProvider)
    (driver : storageDriver) (storageDir : string)
    (cgroupSubsystems : CgroupSubsystems) (inHostNamespace : bool)
    (metadataEnvs : list string) (dockerVersion : list Z)
    (metrics : MetricSet) (thinPoolName : string)
    (tpw : option ThinPoolWatcher) (zw : option ZfsWatcher)
    (h : dockerContainerHandler) (err : option error) (t : list Event) :
  let dir := if inHostNamespace then storageDir else GoPath.Join ["/rootfs"; storageDir] in
  let sampler := NewFsHandler (rootfsStorageDir h)
                   (GoPath.Join [dir; "containers"; ContainerNameToDockerId name]) fsi in
  construct w client name mif fsi driver storageDir cgroupSubsystems
    inHostNamespace metadataEnvs dockerVersion metrics thinPoolName tpw zw
    = (Returns (Some h, err), t) →
  Start h = (Returns tt, if Has metrics DiskUsageMetrics then [EvSamplerStart sampler] else []) ∧
  Cleanup h = (Returns tt, if Has metrics DiskUsageMetrics then [EvSamplerStop sampler] else []).
Proof.
  intros dir sampler H.
  destruct (construct_run _ _ _ _ _ _ _ _ _ _ _ _ _ _ _ _ _ _ H)
    as (rw & t1 & rootfsDir & zfsFs & zfsPar & t2 & ctnr' & created & lbls & ip & t3
        & _ & _ & _ & _ & _ & _ & _ & _ & Hh).
  subst sampler. rewrite Hh. unfold Start, Cleanup. cbn [hFsHandler rootfsStorageDir].
  destruct (Has metrics DiskUsageMetrics); split; reflexivity.
Qed.

(** X9.  When the version asks for the mapping file and the file cannot be
    read, construction returns [nil] and an error after that one read: the
    daemon is not asked anything. *)
Theorem newDockerContainerHandler_mapping_file_unreadable
    (w : World) (client : dockerClient) (name : string)
    (mif : MachineInfoFactory) (fsi : fsInfoProvider)
    (driver : storageDriver) (storageDir : string)
    (cgroupSubsystems : CgroupSubsystems) (inHostNamespace : bool)
    (metadataEnvs : list string) (major minor : Z) (rest : list Z)
    (metrics : MetricSet) (thinPoolName : string)
    (tpw : option ThinPoolWatcher) (zw : option ZfsWatcher) (e : error) :
  let dir := if inHostNamespace then storageDir else GoPath.Join ["/rootfs"; storageDir] in
  let id := ContainerNameToDockerId name in
  let file := GoPath.Join [dir; "image"; driver; "layerdb"; "mounts"; id; "mount-id"] in
  (1 < major ∨ 10 ≤ minor)%Z →
  ReadFile w file = Err e →
  ∃ err,
    construct w client name mif fsi driver storageDir cgroupSubsystems
      inHostNamespace metadataEnvs (major :: minor :: rest) metrics thinPoolName tpw zw
    = (Returns (None, Some err), [EvReadFile file]).
Proof.
  intros dir id file Hv Hread. unfold newDockerContainerHandler.
  assert (Hdir : (if inHostNamespace then storageDir
                  else GoPath.Join [if inHostNamespace then "/" else "/rootfs"; storageDir])
                 = dir) by (unfold dir; destruct inHostNamespace; reflexivity).
  rewrite Hdir. clear Hdir. fold id.
  rewrite (getRwLayerID_randomized w id dir driver major minor rest Hv).
  change (rwLayerIDPath id dir driver) with file. rewrite Hread.
  eexists. reflexivity.
Qed.

(** X10.  For the zfs driver a failing [Status()] ends the construction with
    [nil] and an error, and the container is not inspected. *)
Theorem newDockerContainerHandler_zfs_status_fails
    (w : World) (client : dockerClient) (name : string)
    (mif : MachineInfoFactory) (fsi : fsInfoProvider) (storageDir : string)
    (cgroupSubsystems : CgroupSubsystems) (inHostNamespace : bool)
    (metadataEnvs : list string) (dockerVersion : list Z)
    (metrics : MetricSet) (thinPoolName : string)
    (tpw : option ThinPoolWatcher) (zw : option ZfsWatcher)
    (rw : string) (t1 : list Event) (e : error) :
  let dir := if inHostNamespace then storageDir else GoPath.Join ["/rootfs"; storageDir] in
  let id := ContainerNameToDockerId name in
  getRwLayerID w id dir zfsStorageDriver dockerVersion = (Returns (rw, None), t1) →
  Status w = Err e →
  construct w client name mif fsi zfsStorageDriver storageDir cgroupSubsystems
    inHostNamespace metadataEnvs dockerVersion metrics thinPoolName tpw zw
  = (Returns (None, Some (ErrorfWrap "unable to determine docker status: %v" [] e)),
     t1 ++ [EvStatus]).
Proof.
  intros dir id Hrw Hst. unfold newDockerContainerHandler.
  assert (Hdir : (if inHostNamespace then storageDir
                  else GoPath.Join [if inHostNamespace then "/" else "/rootfs"; storageDir])
                 = dir) by (unfold dir; destruct inHostNamespace; reflexivity).
  rewrite Hdir. clear Hdir. fold id. rewrite Hrw.
  unfold storageLayout. cbn. rewrite Hst. reflexivity.
Qed.

End Construction.

(** Scenario A: the overlay2 driver, version 1.11.0, container [abc123]; the
    mapping file is read and holds [m0unt1d]. *)
Lemma newDockerContainerHandler_rootfsStorageDir_witness :
  ∃ h, result (Sample.construct "/docker/abc123" Docker.overlay2StorageDriver
                 "/var/lib/docker" true [1; 11; 0]%Z) = Returns (Some h, None) ∧
       Docker.rootfsStorageDir h = "/var/lib/docker/overlay2/m0unt1d/diff".
Proof.
  edestruct (newDockerContainerHandler_rootfsStorageDir
               Sample.parseTime Sample.dockerId (λ mounts _, mounts)
               (λ _ _ _, {| Docker.samplerUsage := Sample.baseline |})
               (λ _ _ _ _ _, {| Docker.libcontainerGetStats := (Some Sample.stats, None) |})
               (λ _, "1") (λ s, s) "docker" "Parent Dataset"
               Sample.world Sample.client "/docker/abc123"
               {| Docker.GetMachineInfo := Ok Sample.machine |}
               {| Docker.GetDirFsDevice := λ _, Ok "/dev/sda1" |}
               Docker.overlay2StorageDriver "/var/lib/docker"
               {| Docker.MountPoints := ∅ |} true [] [1; 11; 0]%Z
               ∅ "docker-pool" None None)
    as (mountId & Hrw & _ & Hov2 & _); [reflexivity|].
  injection Hrw as <-.
  eexists. split; [reflexivity|].
  etransitivity; [apply (Hov2 eq_refl)|reflexivity].
Defined.

(** C1 as stated fails for aufs: for container [abc123] on version 1.9.1 the
    mount identifier is [abc123] and the directory is
    [/var/lib/docker/aufs/diff/abc123], not the join of storage root, driver,
    mount identifier and [diff]. *)
Lemma newDockerContainerHandler_aufs_layout :
  ∃ h, result (Sample.construct "/docker/abc123" Docker.aufsStorageDriver
                 "/var/lib/docker" true [1; 9; 1]%Z) = Returns (Some h, None) ∧
       result (Docker.getRwLayerID Sample.world "abc123" "/var/lib/docker"
                 Docker.aufsStorageDriver [1; 9; 1]%Z) = Returns ("abc123", None) ∧
       Docker.rootfsStorageDir h = "/var/lib/docker/aufs/diff/abc123" ∧
       GoPath.Join ["/var/lib/docker"; "aufs"; "abc123"; Docker.aufsRWLayer]
         = "/var/lib/docker/aufs/abc123/diff" ∧
       Docker.rootfsStorageDir h
         ≠ GoPath.Join ["/var/lib/docker"; "aufs"; "abc123"; Docker.aufsRWLayer].
Proof.
  eexists. split; [reflexivity|]. repeat split. discriminate.
Qed.

(** An unknown container, and a container whose creation time is reported as
    [yesterday]. *)
Lemma newDockerContainerHandler_uninspectable_witness :
  (∃ err, result (Sample.construct "/docker/nonesuch" Docker.overlay2StorageDriver
                    "/var/lib/docker" true [1; 11; 0]%Z) = Returns (None, Some err)) ∧
  (∃ err, result (Sample.construct "/docker/bad71me" Docker.overlay2StorageDriver
                    "/var/lib/docker" true [1; 9; 1]%Z) = Returns (None, Some err)).
Proof.
  split.
  - apply (proj2 (newDockerContainerHandler_uninspectable
                Sample.parseTime Sample.dockerId (λ mounts _, mounts)
                (λ _ _ _, {| Docker.samplerUsage := Sample.baseline |})
                (λ _ _ _ _ _, {| Docker.libcontainerGetStats := (Some Sample.stats, None) |})
                (λ _, "1") (λ s, s) "docker" "Parent Dataset"
                Sample.world Sample.client "/docker/nonesuch"
                {| Docker.GetMachineInfo := Ok Sample.machine |}
                {| Docker.GetDirFsDevice := λ _, Ok "/dev/sda1" |}
                Docker.overlay2StorageDriver "/var/lib/docker"
                {| Docker.MountPoints := ∅ |} true [] [1; 11; 0]%Z
                ∅ "docker-pool" None None
                (or_introl (ex_intro _ (ErrExternal "No such container") eq_refl)))
             1%Z 11%Z [0%Z] eq_refl).
  - apply (proj2 (newDockerContainerHandler_uninspectable
                Sample.parseTime Sample.dockerId (λ mounts _, mounts)
                (λ _ _ _, {| Docker.samplerUsage := Sample.baseline |})
                (λ _ _ _ _ _, {| Docker.libcontainerGetStats := (Some Sample.stats, None) |})
                (λ _, "1") (λ s, s) "docker" "Parent Dataset"
                Sample.world Sample.client "/docker/bad71me"
                {| Docker.GetMachineInfo := Ok Sample.machine |}
                {| Docker.GetDirFsDevice := λ _, Ok "/dev/sda1" |}
                Docker.overlay2StorageDriver "/var/lib/docker"
                {| Docker.MountPoints := ∅ |} true [] [1; 9; 1]%Z
                ∅ "docker-pool" None None
                (or_intror (ex_intro _ (Sample.inspected "yesterday")
                   (ex_intro _ (ErrExternal "parsing time: cannot parse as 2006")
                      (conj eq_refl eq_refl)))))
             1%Z 9%Z [1%Z] eq_refl).
Defined.

(** ** The metadata environment map *)

Section MetadataEnvs.

Import Docker.

Variable strings_ToLower : string → string.

Abbreviation exposeEnv' := (exposeEnv strings_ToLower).
Abbreviation metadataEnvMap' := (metadataEnvMap strings_ToLower).

Lemma exposeEnv_lookup (name : string) (envs : gmap string string) (envVar k v : string) :
  exposeEnv' name envs envVar !! k = Some v →
  envs !! k = Some v ∨ (k = strings_ToLower name ∧ envVar = name +:+ "=" +:+ v).
Proof.
  unfold exposeEnv. destruct (String.eqb envVar ""); simpl; [auto|].
  destruct (SplitN2_shape envVar "=") as [[-> _]|(a & b & -> & Heq & _)]; [auto|].
  destruct (String.eqb_spec a name) as [->|_]; [|auto].
  rewrite lookup_insert. case_decide as Hk.
  - intros [= <-]. right. split; [symmetry; exact Hk | exact Heq].
  - auto.
Qed.

Lemma exposeEnv_keeps (name : string) (envs : gmap string string) (envVar k : string) :
  is_Some (envs !! k) → is_Some (exposeEnv' name envs envVar !! k).
Proof.
  intros Hk. unfold exposeEnv. destruct (String.eqb envVar ""); simpl; [exact Hk|].
  destruct (GoStrings.SplitN2 envVar "=") as [|key [|value [|]]]; try exact Hk.
  destruct (String.eqb key name); [|exact Hk].
  rewrite lookup_insert. case_decide; [eauto | exact Hk].
Qed.

Lemma exposeEnv_hits (name v : string) (envs : gmap string string) :
  ¬ In "="%char (list_ascii_of_string name) →
  exposeEnv' name envs (name +:+ "=" +:+ v) !! strings_ToLower name = Some v.
Proof.
  intros Hno. unfold exposeEnv.
  assert (Hne : String.eqb (name +:+ "=" +:+ v) "" = false)
    by (destruct name; reflexivity).
  rewrite Hne. simpl negb. cbv iota.
  change (name +:+ "=" +:+ v) with (name +:+ String "=" v).
  rewrite (SplitN2_app name v "=" Hno), String.eqb_refl.
  apply lookup_insert_eq.
Qed.

Lemma rangeEnv_lookup (name : string) (env : list string) (envs : gmap string string)
    (k v : string) :
  fold_left (exposeEnv' name) env envs !! k = Some v →
  envs !! k = Some v ∨ (k = strings_ToLower name ∧ In (name +:+ "=" +:+ v) env).
Proof.
  revert envs. induction env as [|envVar env IH]; intros envs; simpl; [auto|].
  intros H. destruct (IH _ H) as [H'|[Hk Hin]]; [|auto].
  destruct (exposeEnv_lookup _ _ _ _ _ H') as [H''|[Hk ->]]; auto.
Qed.

Lemma rangeEnv_keeps (name : string) (env : list string) (envs : gmap string string)
    (k : string) :
  is_Some (envs !! k) → is_Some (fold_left (exposeEnv' name) env envs !! k).
Proof.
  revert envs. induction env as [|envVar env IH]; intros envs Hk; simpl; [exact Hk|].
  apply IH, exposeEnv_keeps, Hk.
Qed.

Lemma rangeEnv_hits (name v : string) (env : list string) (envs : gmap string string) :
  ¬ In "="%char (list_ascii_of_string name) →
  In (name +:+ "=" +:+ v) env →
  is_Some (fold_left (exposeEnv' name) env envs !! strings_ToLower name).
Proof.
  intros Hno. revert envs. induction env as [|envVar env IH]; intros envs; simpl; [intros []|].
  intros [->|Hin].
  - apply rangeEnv_keeps. rewrite (exposeEnv_hits name v envs Hno). eauto.
  - apply IH, Hin.
Qed.

Lemma rangeNames_lookup (names env : list string) (envs : gmap string string) (k v : string) :
  fold_left (λ envs name, fold_left (exposeEnv' name) env envs) names envs !! k = Some v →
  envs !! k = Some v ∨
  ∃ name, In name names ∧ k = strings_ToLower name ∧ In (name +:+ "=" +:+ v) env.
Proof.
  revert envs. induction names as [|name names IH]; intros envs; simpl; [auto|].
  intros H. destruct (IH _ H) as [H'|(n & Hin & Hk & Hv)].
  - destruct (rangeEnv_lookup _ _ _ _ _ H') as [H''|[Hk Hv]]; [auto|].
    right. exists name. auto.
  - right. exists n. auto.
Qed.

Lemma rangeNames_keeps (names env : list string) (envs : gmap string string) (k : string) :
  is_Some (envs !! k) →
  is_Some (fold_left (λ envs name, fold_left (exposeEnv' name) env envs) names envs !! k).
Proof.
  revert envs. induction names as [|name names IH]; intros envs Hk; simpl; [exact Hk|].
  apply IH, rangeEnv_keeps, Hk.
Qed.

(** X11.  Every entry of the metadata map comes from the container's
    environment: its key is the lower-cased name of an exposed variable and
    its value is what follows [name=] in one of the environment strings.
    Conversely an exposed name without an equals sign that the environment
    defines has an entry. *)
Theorem metadataEnvMap_entries (metadataEnvs env : list string) :
  (∀ k v, metadataEnvMap strings_ToLower metadataEnvs env !! k = Some v →
     ∃ name, In name metadataEnvs ∧ k = strings_ToLower name ∧
             In (name +:+ "=" +:+ v) env) ∧
  (∀ name v, In name metadataEnvs → ¬ In "="%char (list_ascii_of_string name) →
     In (name +:+ "=" +:+ v) env →
     is_Some (metadataEnvMap strings_ToLower metadataEnvs env !! strings_ToLower name)).
Proof.
  unfold metadataEnvMap. split.
  - intros k v H. destruct (rangeNames_lookup _ _ _ _ _ H) as [Hempty|Hex]; [|exact Hex].
    rewrite lookup_empty in Hempty. discriminate Hempty.
  - intros name v Hin Hno Henv.
    generalize (∅ : gmap string string).
    induction metadataEnvs as [|n names IH]; intros envs; simpl; [destruct Hin|].
    destruct Hin as [->|Hin].
    + apply rangeNames_keeps. apply (rangeEnv_hits name v env envs Hno Henv).
    + apply IH, Hin.
Qed.

End MetadataEnvs.

(** The variables [PATH] and [HOME] exposed, by a lower-casing that knows
    these two names, on an environment that defines [PATH] and [TERM]. *)
Lemma metadataEnvMap_entries_witness :
  let lower := λ s, if String.eqb s "PATH" then "path"
                    else if String.eqb s "HOME" then "home" else s in
  (∃ name, In name ["PATH"; "HOME"] ∧ "path" = lower name ∧
     In (name +:+ "=" +:+ "/usr/bin") ["PATH=/usr/bin"; "TERM=xterm"]) ∧
  is_Some (Docker.metadataEnvMap lower ["PATH"; "HOME"] ["PATH=/usr/bin"; "TERM=xterm"]
             !! "path").
Proof.
  intros lower. split.
  - apply (proj1 (metadataEnvMap_entries lower ["PATH"; "HOME"]
                    ["PATH=/usr/bin"; "TERM=xterm"]) "path" "/usr/bin").
    reflexivity.
  - apply (proj2 (metadataEnvMap_entries lower ["PATH"; "HOME"]
                    ["PATH=/usr/bin"; "TERM=xterm"]) "PATH" "/usr/bin").
    + left. reflexivity.
    + vm_compute. intuition discriminate.
    + left. reflexivity.
Defined.

(** ** More on the usage corrector *)

Section UsageCorrectorMore.

Import Docker.

(** X12.  The corrector never changes the inode count of the sampler's
    snapshot.  After a thin-pool overlay of [V] on a snapshot of total [T],
    both within [uint64], the total is at least the base exactly when
    [T + V] does not overflow. *)
Theorem dockerFsHandler_Usage_total_and_base (h : dockerFsHandler) (tp : ThinPoolWatcher)
    (V : Z) :
  let B := samplerUsage (fsHandler h) in
  InodeUsage (dockerFsHandler_Usage h) = InodeUsage B ∧
  (thinPoolWatcher h = Some tp → thinPoolGetUsage tp (deviceID h) = Ok V →
   zfsWatcher h = None →
   (0 ≤ TotalUsageBytes B < 2 ^ 64)%Z → (0 ≤ V < 2 ^ 64)%Z →
   ((BaseUsageBytes (dockerFsHandler_Usage h) ≤ TotalUsageBytes (dockerFsHandler_Usage h))%Z
    ↔ (TotalUsageBytes B + V < 2 ^ 64)%Z)).
Proof.
  intros B. split.
  - unfold dockerFsHandler_Usage.
    destruct (thinPoolWatcher h) as [tp'|]; [destruct (thinPoolGetUsage tp' _)|];
      (destruct (zfsWatcher h) as [zw|]; [destruct (zfsGetUsage zw _)|]); reflexivity.
  - intros Htp HV Hz HT HVr.
    unfold dockerFsHandler_Usage. rewrite Htp, HV, Hz. cbn. fold B. unfold add64.
    destruct (Z_lt_ge_dec (TotalUsageBytes B + V) (2 ^ 64)) as [Hlt|Hge].
    + rewrite Z.mod_small by lia. lia.
    + replace ((TotalUsageBytes B + V) mod 2 ^ 64)%Z
        with (TotalUsageBytes B + V - 2 ^ 64)%Z.
      * lia.
      * apply Z.mod_unique with (q := 1%Z); lia.
Qed.

End UsageCorrectorMore.

(** A snapshot of total [2^64 - 1] overlaid with one byte wraps to a total of
    zero, below the base; the sample baseline overlaid with [500000] does
    not. *)
Lemma dockerFsHandler_Usage_total_and_base_witness :
  let wrap := {| Docker.fsHandler :=
                   {| Docker.samplerUsage :=
                        {| Docker.BaseUsageBytes := 0;
                           Docker.TotalUsageBytes := 2 ^ 64 - 1;
                           Docker.InodeUsage := 5 |} |};
                 Docker.thinPoolWatcher := Some {| Docker.thinPoolGetUsage := λ _, Ok 1%Z |};
                 Docker.deviceID := "pool-dev-1";
                 Docker.zfsWatcher := None;
                 Docker.zfsFilesystem := "" |} in
  ¬ (Docker.BaseUsageBytes (Docker.dockerFsHandler_Usage wrap)
     ≤ Docker.TotalUsageBytes (Docker.dockerFsHandler_Usage wrap))%Z.
Proof.
  intros wrap Hle.
  apply (proj2 (dockerFsHandler_Usage_total_and_base wrap
                  {| Docker.thinPoolGetUsage := λ _, Ok 1%Z |} 1%Z)
           eq_refl eq_refl eq_refl) in Hle.
  - vm_compute in Hle. discriminate Hle.
  - vm_compute. split; [discriminate | reflexivity].
  - lia.
Defined.

(** Both watchers configured on the sample baseline, answering 300 and 40. *)
Lemma Usage_both_watchers_witness :
  Docker.dockerFsHandler_Usage
    {| Docker.fsHandler := {| Docker.samplerUsage := Sample.baseline |};
       Docker.thinPoolWatcher := Some {| Docker.thinPoolGetUsage := λ _, Ok 300%Z |};
       Docker.deviceID := "pool-dev-1";
       Docker.zfsWatcher := Some {| Docker.zfsGetUsage := λ _, Ok 40%Z |};
       Docker.zfsFilesystem := "zroot/docker/m0unt1d" |}
  = {| Docker.BaseUsageBytes := 40; Docker.TotalUsageBytes := 2340; Docker.InodeUsage := 5 |}.
Proof.
  match goal with |- Docker.dockerFsHandler_Usage ?h = _ =>
    apply (Usage_both_watchers h {| Docker.thinPoolGetUsage := λ _, Ok 300%Z |}
             {| Docker.zfsGetUsage := λ _, Ok 40%Z |} 300%Z 40%Z
             eq_refl eq_refl eq_refl eq_refl)
  end.
Defined.

(** ** More on the statistics of a Docker container *)

Section StatsMore.

Import Docker.

Context {NetworkStats DiskIoStats Time : Type}.
Variable zeroNetworkStats : NetworkStats.
Variable AssignDeviceNamesToDiskStats : MachineInfo → DiskIoStats → DiskIoStats.

Abbreviation handlerT := (dockerContainerHandler (NetworkStats := NetworkStats)
                            (DiskIoStats := DiskIoStats) (Time := Time)).
Abbreviation GetStats' := (GetStats zeroNetworkStats AssignDeviceNamesToDiskStats).
Abbreviation getFsStats' := (getFsStats AssignDeviceNamesToDiskStats).

(** The drivers whose writable layer is a directory. *)
Abbreviation directoryBased sd :=
  (sd = aufsStorageDriver ∨ sd = overlayStorageDriver ∨ sd = overlay2StorageDriver).

Lemma directoryBased_eqb (sd : storageDriver) :
  String.eqb sd aufsStorageDriver || String.eqb sd overlayStorageDriver
    || String.eqb sd overlay2StorageDriver = true
  ↔ directoryBased sd.
Proof.
  rewrite !orb_true_iff, !String.eqb_eq. tauto.
Qed.

Lemma chooseDevice_err (self : handlerT) :
  (∃ e, chooseDevice self = ReturnErr e) ↔
  directoryBased (hStorageDriver self) ∧
  ∃ e, GetDirFsDevice (fsInfo self) (rootfsStorageDir self) = Err e.
Proof.
  unfold chooseDevice.
  destruct (String.eqb_spec (hStorageDriver self) devicemapperStorageDriver) as [Hd|_].
  { rewrite Hd. split; [intros [e He]; discriminate He|].
    intros [[H|[H|H]] _]; discriminate H. }
  destruct (String.eqb (hStorageDriver self) aufsStorageDriver
            || String.eqb (hStorageDriver self) overlayStorageDriver
            || String.eqb (hStorageDriver self) overlay2StorageDriver) eqn:Hdir.
  - apply directoryBased_eqb in Hdir.
    destruct (GetDirFsDevice (fsInfo self) (rootfsStorageDir self)) as [d|e].
    + split; [intros [e He]; discriminate He | intros [_ [e He]]; discriminate He].
    + split; [intros _; split; [exact Hdir | eauto] | intros _; eauto].
  - assert (Hnot : ¬ directoryBased (hStorageDriver self)).
    { intros H. apply directoryBased_eqb in H. congruence. }
    destruct (String.eqb (hStorageDriver self) zfsStorageDriver);
      (split; [intros [e He]; discriminate He | intros [H _]; contradiction]).
Qed.

Lemma chooseDevice_nil (self : handlerT) :
  chooseDevice self = ReturnNil ↔
  hStorageDriver self ≠ devicemapperStorageDriver ∧ ¬ directoryBased (hStorageDriver self)
  ∧ hStorageDriver self ≠ zfsStorageDriver.
Proof.
  unfold chooseDevice.
  destruct (String.eqb_spec (hStorageDriver self) devicemapperStorageDriver) as [Hd|Hd].
  { split; [discriminate | intros [H _]; contradiction]. }
  destruct (String.eqb (hStorageDriver self) aufsStorageDriver
            || String.eqb (hStorageDriver self) overlayStorageDriver
            || String.eqb (hStorageDriver self) overlay2StorageDriver) eqn:Hdir.
  - apply directoryBased_eqb in Hdir.
    destruct (GetDirFsDevice (fsInfo self) (rootfsStorageDir self));
      (split; [discriminate | intros (_ & H & _); contradiction]).
  - assert (Hnot : ¬ directoryBased (hStorageDriver self)).
    { intros H. apply directoryBased_eqb in H. congruence. }
    destruct (String.eqb_spec (hStorageDriver self) zfsStorageDriver) as [Hz|Hz].
    + split; [discriminate | intros (_ & _ & H); contradiction].
    + split; [intros _; auto | reflexivity].
Qed.

(** How [getFsStats] ends on statistics that are there, for a handler that
    has its corrector whenever the disk-usage metrics are on. *)
Lemma getFsStats_returns (self : handlerT) (s : ContainerStats) :
  (Has (includedMetrics self) DiskUsageMetrics = true → is_Some (hFsHandler self)) →
  ∃ s' err,
    getFsStats' self (Some s) = Returns (Some s', err) ∧
    Network s' = Network s ∧
    (err = None ↔
       (∃ mi, GetMachineInfo (machineInfoFactory self) = Ok mi) ∧
       (Has (includedMetrics self) DiskUsageMetrics = true →
        ¬ ∃ e, chooseDevice self = ReturnErr e)) ∧
    (Filesystem s' = Filesystem s ∨ ∃ r, Filesystem s' = Filesystem s ++ [r]) ∧
    (Has (includedMetrics self) DiskUsageMetrics = false ∨ chooseDevice self = ReturnNil →
     Filesystem s' = Filesystem s).
Proof.
  intros Hfh. unfold getFsStats.
  destruct (GetMachineInfo (machineInfoFactory self)) as [mi|e].
  2:{ exists s, (Some e). split; [reflexivity|]. split; [reflexivity|]. split.
      - split; [discriminate | intros [[mi Hmi] _]; discriminate Hmi].
      - auto. }
  set (s1 := if Has (includedMetrics self) DiskIOMetrics
             then {| Network := Network s;
                     DiskIo := AssignDeviceNamesToDiskStats mi (DiskIo s);
                     Filesystem := Filesystem s |}
             else s).
  assert (Hs1 : (if Has (includedMetrics self) DiskIOMetrics
                 then s0 ← deref (Some s);
                      mret (Some {| Network := Network s0;
                                    DiskIo := AssignDeviceNamesToDiskStats mi (DiskIo s0);
                                    Filesystem := Filesystem s0 |})
                 else mret (Some s)) = Returns (Some s1))
    by (unfold s1; destruct (Has (includedMetrics self) DiskIOMetrics); reflexivity).
  rewrite Hs1. cbn [mbind outcome_bind].
  assert (Hn1 : Network s1 = Network s)
    by (unfold s1; destruct (Has (includedMetrics self) DiskIOMetrics); reflexivity).
  assert (Hf1 : Filesystem s1 = Filesystem s)
    by (unfold s1; destruct (Has (includedMetrics self) DiskIOMetrics); reflexivity).
  destruct (Has (includedMetrics self) DiskUsageMetrics) eqn:Hdu; cbn [negb].
  2:{ exists s1, None. split; [reflexivity|]. split; [exact Hn1|]. split.
      - split; [intros _; split; [eauto | discriminate] | reflexivity].
      - auto. }
  destruct (chooseDevice self) as [device|e|] eqn:Hdev.
  - destruct (findFilesystem (Filesystems mi) device) as [limit ty].
    destruct (Hfh eq_refl) as [fh ->]. cbn.
    eexists _, None. split; [reflexivity|]. cbn. split; [exact Hn1|]. split.
    + split; [intros _; split; [eauto|] | reflexivity].
      intros _ [e He]. discriminate He.
    + rewrite Hf1. split; [right; eauto|]. intros [H|H]; discriminate H.
  - exists s1, (Some e). split; [reflexivity|]. split; [exact Hn1|]. split.
    + split; [discriminate|]. intros [_ H]. exfalso. apply (H eq_refl). eauto.
    + split; [auto|]. intros [H|H]; discriminate H.
  - exists s1, None. split; [reflexivity|]. split; [exact Hn1|]. split.
    + split; [intros _; split; [eauto|] | reflexivity].
      intros _ [e He]. discriminate He.
    + auto.
Qed.

(** X13.  For a handler with its cgroup collaborator and, when the disk-usage
    metrics are on, its corrector: [GetStats] returns, and it returns an
    error exactly when the cgroup statistics fail, or the machine information
    is not available, or the disk-usage metrics are on, the driver is
    directory-based and the device of the writable-layer directory cannot be
    determined. *)
Theorem GetStats_error_iff (self : handlerT) (lh : libcontainerHandlerT)
    (s : ContainerStats) (lerr : option error) :
  libcontainerHandler self = Some lh → libcontainerGetStats lh = (Some s, lerr) →
  (Has (includedMetrics self) DiskUsageMetrics = true → is_Some (hFsHandler self)) →
  ∃ stats err,
    GetStats' self = Returns (stats, err) ∧
    (is_Some err ↔
       is_Some lerr ∨
       (∃ e, GetMachineInfo (machineInfoFactory self) = Err e) ∨
       (Has (includedMetrics self) DiskUsageMetrics = true ∧
        directoryBased (hStorageDriver self) ∧
        ∃ e, GetDirFsDevice (fsInfo self) (rootfsStorageDir self) = Err e)).
Proof.
  intros Hlh Hls Hfh. unfold GetStats. rewrite Hlh. cbn [deref mbind outcome_bind].
  rewrite Hls. destruct lerr as [e|].
  { eexists _, _. split; [reflexivity|]. split; [intros _; left; eauto | eauto]. }
  set (s1 := if negb (needNet self)
             then {| Network := zeroNetworkStats; DiskIo := DiskIo s;
                     Filesystem := Filesystem s |}
             else s).
  assert (Hs1 : (if negb (needNet self)
                 then s0 ← deref (Some s);
                      mret (Some {| Network := zeroNetworkStats; DiskIo := DiskIo s0;
                                    Filesystem := Filesystem s0 |})
                 else mret (Some s)) = Returns (Some s1))
    by (unfold s1; destruct (negb (needNet self)); reflexivity).
  rewrite Hs1. cbn [mbind outcome_bind].
  destruct (getFsStats_returns self s1 Hfh) as (s' & err & -> & _ & Herr & _).
  cbn [mbind outcome_bind].
  exists (Some s'), err. split; [destruct err; reflexivity|].
  split.
  - intros Hsome. right.
    destruct (GetMachineInfo (machineInfoFactory self)) as [mi|e] eqn:Hmi; [|left; eauto].
    right.
    destruct (Has (includedMetrics self) DiskUsageMetrics) eqn:Hdu.
    + destruct (chooseDevice self) as [device|e|] eqn:Hdev.
      * exfalso. destruct Hsome as [e He]. subst err.
        assert (Hnone : Some e = None); [|discriminate Hnone].
        apply Herr. split; [eauto|]. intros _ [e' He']. discriminate He'.
      * split; [reflexivity|]. apply chooseDevice_err. eauto.
      * exfalso. destruct Hsome as [e He]. subst err.
        assert (Hnone : Some e = None); [|discriminate Hnone].
        apply Herr. split; [eauto|]. intros _ [e' He']. discriminate He'.
    + exfalso. destruct Hsome as [e He]. subst err.
      assert (Hnone : Some e = None); [|discriminate Hnone].
      apply Herr. split; [eauto|]. discriminate.
  - intros [[e He]|[[e He]|(Hdu & Hdir & Hdev)]]; [discriminate He| |].
    + destruct err as [e'|]; [eauto|]. exfalso.
      destruct (proj1 Herr eq_refl) as [[mi Hmi] _]. congruence.
    + destruct err as [e'|]; [eauto|]. exfalso.
      destruct (proj1 Herr eq_refl) as [_ Hno]. apply (Hno Hdu).
      apply chooseDevice_err. auto.
Qed.

(** X14.  Whatever [GetStats] returns on cgroup statistics [s], with or
    without an error from the filesystem part: the network sub-record is
    that of [s] when the network metrics are on and the container has its
    own network namespace, and the zero value otherwise; the filesystem
    records of [s] are kept and at most one is added; none is added when the
    disk-usage metrics are off or the driver is none of devicemapper, aufs,
    overlay, overlay2 and zfs. *)
Theorem GetStats_network_and_filesystems (self : handlerT) (lh : libcontainerHandlerT)
    (s : ContainerStats) :
  libcontainerHandler self = Some lh → libcontainerGetStats lh = (Some s, None) →
  (Has (includedMetrics self) DiskUsageMetrics = true → is_Some (hFsHandler self)) →
  ∃ s' err,
    GetStats' self = Returns (Some s', err) ∧
    Network s' = (if Has (includedMetrics self) NetworkUsageMetrics
                     && negb (IsContainer (networkMode self))
                  then Network s else zeroNetworkStats) ∧
    (Filesystem s' = Filesystem s ∨ ∃ r, Filesystem s' = Filesystem s ++ [r]) ∧
    (Has (includedMetrics self) DiskUsageMetrics = false ∨
     (hStorageDriver self ≠ devicemapperStorageDriver ∧
      ¬ directoryBased (hStorageDriver self) ∧
      hStorageDriver self ≠ zfsStorageDriver) →
     Filesystem s' = Filesystem s).
Proof.
  intros Hlh Hls Hfh. unfold GetStats. rewrite Hlh. cbn [deref mbind outcome_bind].
  rewrite Hls.
  set (s1 := if negb (needNet self)
             then {| Network := zeroNetworkStats; DiskIo := DiskIo s;
                     Filesystem := Filesystem s |}
             else s).
  assert (Hs1 : (if negb (needNet self)
                 then s0 ← deref (Some s);
                      mret (Some {| Network := zeroNetworkStats; DiskIo := DiskIo s0;
                                    Filesystem := Filesystem s0 |})
                 else mret (Some s)) = Returns (Some s1))
    by (unfold s1; destruct (negb (needNet self)); reflexivity).
  rewrite Hs1. cbn [mbind outcome_bind].
  assert (Hn1 : Network s1 = (if Has (includedMetrics self) NetworkUsageMetrics
                                 && negb (IsContainer (networkMode self))
                              then Network s else zeroNetworkStats)).
  { unfold s1, needNet. destruct (Has (includedMetrics self) NetworkUsageMetrics);
      [destruct (IsContainer (networkMode self))|]; reflexivity. }
  assert (Hf1 : Filesystem s1 = Filesystem s)
    by (unfold s1; destruct (negb (needNet self)); reflexivity).
  destruct (getFsStats_returns self s1 Hfh) as (s' & err & -> & Hnet & _ & Hfs & Hnone).
  cbn [mbind outcome_bind]. rewrite Hf1 in Hfs, Hnone. rewrite Hn1 in Hnet.
  exists s', err. split; [destruct err; reflexivity|]. split; [exact Hnet|].
  split; [exact Hfs|].
  intros [Hdu|Hdrv]; apply Hnone; [left; exact Hdu | right].
  apply chooseDevice_nil. exact Hdrv.
Qed.

(** X15.  The capacity limit and the type of the filesystem record come from
    the first inventory entry on the accounting device. *)
Theorem GetStats_first_inventory_match (self : handlerT) (lh : libcontainerHandlerT)
    (s : ContainerStats) (mi : MachineInfo) (fh : dockerFsHandler) (device : string)
    (before after : list FsInfo) (fs : FsInfo) :
  libcontainerHandler self = Some lh → libcontainerGetStats lh = (Some s, None) →
  GetMachineInfo (machineInfoFactory self) = Ok mi →
  Has (includedMetrics self) DiskUsageMetrics = true →
  hFsHandler self = Some fh →
  chooseDevice self = UseDevice device →
  Filesystems mi = before ++ fs :: after →
  (∀ fs', In fs' before → fsDevice fs' ≠ device) →
  fsDevice fs = device →
  ∃ s' r, GetStats' self = Returns (Some s', None) ∧
          Filesystem s' = Filesystem s ++ [r] ∧
          Device r = device ∧ Limit r = fsCapacity fs ∧ Type_ r = fsType fs.
Proof.
  intros Hlh Hls Hmi Hdu Hfh Hdev Hinv Hbefore Hfs.
  destruct (GetStats_disk_usage zeroNetworkStats AssignDeviceNamesToDiskStats
              self lh s mi fh device Hlh Hls Hmi Hdu Hfh Hdev) as (s' & Hret & Hfss).
  exists s', (fsStatFor mi fh device). split; [exact Hret|]. split; [exact Hfss|].
  split; [reflexivity|].
  assert (Hfind : findFilesystem (Filesystems mi) device = (fsCapacity fs, fsType fs)).
  { rewrite Hinv. clear Hinv. induction before as [|b before IH]; simpl.
    - rewrite Hfs, String.eqb_refl. reflexivity.
    - rewrite (proj2 (String.eqb_neq _ _) (Hbefore b (or_introl eq_refl))).
      apply IH. intros fs' Hin. apply Hbefore. right. exact Hin. }
  unfold fsStatFor. cbn [Limit Type_]. rewrite Hfind. split; reflexivity.
Qed.

End StatsMore.

(** The overlay2 sample handler with disk-usage metrics: the device of its
    directory is known, so no error. *)
Lemma GetStats_error_iff_witness :
  let self := Sample.handler {[ Docker.DiskUsageMetrics ]} "bridge"
                Docker.overlay2StorageDriver (Some Sample.failingCorrector) in
  ∃ stats err,
    Docker.GetStats 0%Z (λ _ d, d) self = Returns (stats, err) ∧
    (is_Some err ↔
       is_Some (@None error) ∨
       (∃ e, Docker.GetMachineInfo (Docker.machineInfoFactory self) = Err e) ∨
       (Docker.Has (Docker.includedMetrics self) Docker.DiskUsageMetrics = true ∧
        (Docker.hStorageDriver self = Docker.aufsStorageDriver ∨
         Docker.hStorageDriver self = Docker.overlayStorageDriver ∨
         Docker.hStorageDriver self = Docker.overlay2StorageDriver) ∧
        ∃ e, Docker.GetDirFsDevice (Docker.fsInfo self) (Docker.rootfsStorageDir self)
             = Err e)).
Proof.
  intros self.
  apply (GetStats_error_iff 0%Z (λ _ d, d) self
           {| Docker.libcontainerGetStats := (Some Sample.stats, None) |}
           Sample.stats None eq_refl eq_refl).
  intros _. eexists. reflexivity.
Defined.

(** The sample handler in bridge mode with network metrics and an unknown
    storage driver: network counters passed on, no filesystem record. *)
Lemma GetStats_network_and_filesystems_witness :
  let self := Sample.handler {[ Docker.NetworkUsageMetrics; Docker.DiskUsageMetrics ]}
                "bridge" "btrfs" (Some Sample.failingCorrector) in
  ∃ s' err,
    Docker.GetStats 0%Z (λ _ d, d) self = Returns (Some s', err) ∧
    Docker.Network s' = 4096%Z ∧ Docker.Filesystem s' = [].
Proof.
  intros self.
  destruct (GetStats_network_and_filesystems 0%Z (λ _ d, d) self
              {| Docker.libcontainerGetStats := (Some Sample.stats, None) |}
              Sample.stats eq_refl eq_refl)
    as (s' & err & Hret & Hnet & _ & Hnone).
  { intros _. eexists. reflexivity. }
  exists s', err. split; [exact Hret|]. split; [exact Hnet|].
  apply Hnone. right. split; [discriminate|]. split; [|discriminate].
  intros [H|[H|H]]; discriminate H.
Defined.

(** The aufs sample handler on a machine with two entries for [/dev/sda1]:
    the first one gives limit and type. *)
Lemma GetStats_first_inventory_match_witness :
  let self :=
    {| Docker.machineInfoFactory :=
         {| Docker.GetMachineInfo :=
              Ok {| Docker.Filesystems :=
                      [ {| Docker.fsDevice := "/dev/sdb1"; Docker.fsCapacity := 7;
                           Docker.fsType := "xfs" |};
                        {| Docker.fsDevice := "/dev/sda1"; Docker.fsCapacity := 1000000;
                           Docker.fsType := "ext4" |};
                        {| Docker.fsDevice := "/dev/sda1"; Docker.fsCapacity := 9;
                           Docker.fsType := "vfs" |} ] |} |};
       Docker.cgroupPaths := ∅;
       Docker.hStorageDriver := Docker.aufsStorageDriver;
       Docker.fsInfo := {| Docker.GetDirFsDevice := λ _, Ok "/dev/sda1" |};
       Docker.rootfsStorageDir := "/var/lib/docker/aufs/diff/abc123";
       Docker.creationTime := "2019-01-01T00:00:00Z";
       Docker.envs := ∅;
       Docker.labels := None;
       Docker.image := "nginx";
       Docker.networkMode := "bridge";
       Docker.hFsHandler := Some Sample.failingCorrector;
       Docker.ipAddress := "";
       Docker.includedMetrics := {[ Docker.DiskUsageMetrics ]};
       Docker.poolName := "";
       Docker.zfsParent := "";
       Docker.reference := {| Docker.Id := "abc123"; Docker.Name := "/docker/abc123";
                              Docker.Aliases := []; Docker.Namespace := "docker" |};
       Docker.libcontainerHandler :=
         Some {| Docker.libcontainerGetStats := (Some Sample.stats, None) |} |} in
  ∃ s' r, Docker.GetStats 0%Z (λ _ d, d) self = Returns (Some s', None) ∧
          Docker.Filesystem s' = Docker.Filesystem Sample.stats ++ [r] ∧
          Docker.Device r = "/dev/sda1" ∧ Docker.Limit r = 1000000%Z ∧
          Docker.Type_ r = "ext4".
Proof.
  intros self.
  apply (GetStats_first_inventory_match 0%Z (λ _ d, d) self
           {| Docker.libcontainerGetStats := (Some Sample.stats, None) |}
           Sample.stats _ Sample.failingCorrector "/dev/sda1"
           [ {| Docker.fsDevice := "/dev/sdb1"; Docker.fsCapacity := 7;
                Docker.fsType := "xfs" |} ]
           [ {| Docker.fsDevice := "/dev/sda1"; Docker.fsCapacity := 9;
                Docker.fsType := "vfs" |} ]
           {| Docker.fsDevice := "/dev/sda1"; Docker.fsCapacity := 1000000;
              Docker.fsType := "ext4" |}
           eq_refl eq_refl eq_refl eq_refl eq_refl eq_refl eq_refl).
  - intros fs' [<-|[]]. discriminate.
  - reflexivity.
Defined.

(** Container [pod1] on the zfs driver, version 1.9.1: the daemon is asked
    for its status, for [pod1] and for [pause0]. *)
Lemma newDockerContainerHandler_calls_witness :
  trace (Sample.constructPod "/docker/pod1" Docker.zfsStorageDriver [1; 9; 1]%Z ∅)
  = [Docker.EvStatus; Docker.EvContainerInspect "pod1"; Docker.EvContainerInspect "pause0"].
Proof.
  eassert (Hrun : Sample.constructPod "/docker/pod1" Docker.zfsStorageDriver [1; 9; 1]%Z ∅
                  = (Returns (Some _, _), _)) by reflexivity.
  unfold Sample.constructPod in Hrun |- *.
  rewrite Hrun. cbn [trace snd].
  exact (newDockerContainerHandler_calls _ _ _ _ _ _ _ _ _ _ _ _ _ _ _ _ _ _ _ _ _ _ _ _ _ _ _ _ _
           Sample.podMember Hrun eq_refl).
Defined.

(** [pod1] gets the address of [pause0]. *)
Lemma newDockerContainerHandler_ip_one_hop_witness :
  ∃ h, result (Sample.constructPod "/docker/pod1" Docker.overlay2StorageDriver [1; 9; 1]%Z ∅)
       = Returns (Some h, None) ∧
       Docker.GetContainerIPAddress h = "10.0.0.5".
Proof.
  eassert (Hrun : Sample.constructPod "/docker/pod1" Docker.overlay2StorageDriver [1; 9; 1]%Z ∅
                  = (Returns (Some _, _), _)) by reflexivity.
  unfold Sample.constructPod in Hrun |- *.
  eexists. split; [rewrite Hrun; reflexivity|].
  destruct (proj2 (newDockerContainerHandler_ip_one_hop _ _ _ _ _ _ _ _ _ _ _ _ _ _ _ _ _ _ _ _ _ _ _ _ _ _ _
           Sample.podMember Hrun eq_refl) eq_refl eq_refl)
    as (other & c & Hmode & Hc & Hip).
  cbv in Hmode. injection Hmode as <-. cbn in Hc. injection Hc as <-. exact Hip.
Defined.

(** [pod1], restarted three times, keeps its label [app] and gets
    [restartcount]. *)
Lemma newDockerContainerHandler_restartcount_witness :
  ∃ h m', result (Sample.constructPod "/docker/pod1" Docker.overlay2StorageDriver
                    [1; 9; 1]%Z ∅) = Returns (Some h, None) ∧
          Docker.GetContainerLabels h = Some m' ∧
          m' !! "restartcount" = Some "3" ∧ m' !! "app" = Some "web".
Proof.
  eassert (Hrun : Sample.constructPod "/docker/pod1" Docker.overlay2StorageDriver [1; 9; 1]%Z ∅
                  = (Returns (Some _, _), _)) by reflexivity.
  unfold Sample.constructPod in Hrun |- *.
  destruct (proj2 (newDockerContainerHandler_restartcount _ _ _ _ _ _ _ _ _ _ _ _ _ _ _ _ _ _ _ _ _ _ _ _ _ _ _
           Sample.podMember Hrun eq_refl) eq_refl)
    as (m & m' & Hm & Hlabels & Hrc & Hother).
  eexists _, m'. split; [rewrite Hrun; reflexivity|]. split; [exact Hlabels|].
  split; [exact Hrc|]. rewrite (Hother "app") by discriminate.
  cbn in Hm. injection Hm as <-. reflexivity.
Defined.

(** [nolabels], restarted twice, has no labels map. *)
Lemma newDockerContainerHandler_nil_labels_panic_witness :
  result (Sample.constructPod "/docker/nolabels" Docker.overlay2StorageDriver [1; 9; 1]%Z ∅)
  = Panics "assignment to entry in nil map".
Proof.
  unfold Sample.constructPod.
  apply (newDockerContainerHandler_nil_labels_panic _ _ _ _ _ _ _ _ _ _ _ _ _ _ _ _ _ _ _ _ _ _ _ _
           "nolabels"
           ("/var/lib/docker/overlay2/nolabels/diff", "", "") Sample.noLabels
           "2019-01-03T00:00:00.000000000Z");
    [reflexivity | reflexivity | reflexivity | reflexivity | reflexivity | reflexivity].
Defined.

(** [pod1] with and without the disk-usage metrics. *)
Lemma newDockerContainerHandler_Start_Cleanup_witness :
  (∃ h, result (Sample.constructPod "/docker/pod1" Docker.overlay2StorageDriver [1; 9; 1]%Z
                  {[ Docker.DiskUsageMetrics ]}) = Returns (Some h, None) ∧
        Docker.Start h
        = (Returns tt, [Docker.EvSamplerStart {| Docker.samplerUsage := Sample.baseline |}]) ∧
        Docker.Cleanup h
        = (Returns tt, [Docker.EvSamplerStop {| Docker.samplerUsage := Sample.baseline |}])) ∧
  (∃ h, result (Sample.constructPod "/docker/pod1" Docker.overlay2StorageDriver [1; 9; 1]%Z
                  ∅) = Returns (Some h, None) ∧
        Docker.Start h = (Returns tt, []) ∧ Docker.Cleanup h = (Returns tt, [])).
Proof.
  split.
  - eassert (Hrun : Sample.constructPod "/docker/pod1" Docker.overlay2StorageDriver
                      [1; 9; 1]%Z {[ Docker.DiskUsageMetrics ]}
                    = (Returns (Some _, _), _)) by reflexivity.
  unfold Sample.constructPod in Hrun |- *.
    eexists. split; [rewrite Hrun; reflexivity|].
    exact (newDockerContainerHandler_Start_Cleanup _ _ _ _ _ _ _ _ _ _ _ _ _ _ _ _ _ _ _ _ _ _ _ _ _ _ _
           Hrun).
  - eassert (Hrun : Sample.constructPod "/docker/pod1" Docker.overlay2StorageDriver
                      [1; 9; 1]%Z ∅
                    = (Returns (Some _, _), _)) by reflexivity.
  unfold Sample.constructPod in Hrun |- *.
    eexists. split; [rewrite Hrun; reflexivity|].
    exact (newDockerContainerHandler_Start_Cleanup _ _ _ _ _ _ _ _ _ _ _ _ _ _ _ _ _ _ _ _ _ _ _ _ _ _ _
           Hrun).
Defined.

(** Version 1.11.0 and container [pod1], whose mapping file the sample host
    does not have. *)
Lemma newDockerContainerHandler_mapping_file_unreadable_witness :
  ∃ err, Sample.constructPod "/docker/pod1" Docker.overlay2StorageDriver [1; 11; 0]%Z ∅
         = (Returns (None, Some err),
            [Docker.EvReadFile
               "/var/lib/docker/image/overlay2/layerdb/mounts/pod1/mount-id"]).
Proof.
  unfold Sample.constructPod.
  apply (newDockerContainerHandler_mapping_file_unreadable
           Sample.parseTime Sample.dockerId (λ mounts _, mounts)
           (λ _ _ _, {| Docker.samplerUsage := Sample.baseline |})
           (λ _ _ _ _ _, {| Docker.libcontainerGetStats := (Some Sample.stats, None) |})
           (λ _, "3") (λ s, s) "docker" "Parent Dataset"
           Sample.world Sample.podClient "/docker/pod1"
           {| Docker.GetMachineInfo := Ok Sample.machine |}
           {| Docker.GetDirFsDevice := λ _, Ok "/dev/sda1" |}
           Docker.overlay2StorageDriver "/var/lib/docker"
           {| Docker.MountPoints := ∅ |} true [] 1%Z 11%Z [0%Z]
           ∅ "docker-pool" None None
           (ErrExternal "no such file or directory")).
  - right. lia.
  - reflexivity.
Defined.

(** The sample construction on a host whose daemon does not answer. *)
Lemma newDockerContainerHandler_zfs_status_fails_witness :
  Docker.newDockerContainerHandler (NetworkStats := Z) (DiskIoStats := unit)
    Sample.parseTime Sample.dockerId (λ mounts _, mounts)
    (λ _ _ _, {| Docker.samplerUsage := Sample.baseline |})
    (λ _ _ _ _ _, {| Docker.libcontainerGetStats := (Some Sample.stats, None) |})
    (λ _, "1") (λ s, s) "docker" "Parent Dataset"
    {| Docker.ReadFile := λ _, Err (ErrExternal "no such file or directory");
       Docker.Status := Err (ErrExternal "Cannot connect to the Docker daemon") |}
    Sample.client "/docker/abc123" {| Docker.GetMachineInfo := Ok Sample.machine |}
    {| Docker.GetDirFsDevice := λ _, Ok "/dev/sda1" |}
    Docker.zfsStorageDriver "/var/lib/docker" {| Docker.MountPoints := ∅ |} true []
    [1; 9; 1]%Z ∅ "docker-pool" None None
  = (Returns (None, Some (ErrorfWrap "unable to determine docker status: %v" []
                            (ErrExternal "Cannot connect to the Docker daemon"))),
     [Docker.EvStatus]).
Proof.
  apply (newDockerContainerHandler_zfs_status_fails _ _ _ _ _ _ _ _ _ _ _ _ _ _ _ _ _ _ _ _ _ _ _
           "abc123" []); reflexivity.
Defined.

(** ** More on the read-write layer id *)

Section RwLayerIDMore.

Import Docker.

(** X16.  [getRwLayerID] indexes the version slice without looking at its
    length: an empty version panics, a version of one number not above 1
    panics at the minor number, both before any file is read; a version of
    one number above 1 does not look at the minor number and reads the
    mapping file. *)
Theorem getRwLayerID_short_version (w : World) (containerID storageDir : string)
    (sd : storageDriver) :
  getRwLayerID w containerID storageDir sd []
    = (Panics "runtime error: index out of range", []) ∧
  (∀ major, (major ≤ 1)%Z →
     getRwLayerID w containerID storageDir sd [major]
     = (Panics "runtime error: index out of range", [])) ∧
  (∀ major, (1 < major)%Z →
     trace (getRwLayerID w containerID storageDir sd [major])
     = [EvReadFile (GoPath.Join [storageDir; "image"; sd; "layerdb"; "mounts";
                                 containerID; "mount-id"])] ∧
     ∃ r, result (getRwLayerID w containerID storageDir sd [major]) = Returns r).
Proof.
  split; [reflexivity|]. split.
  - intros major Hmaj. unfold getRwLayerID. cbn.
    rewrite (proj2 (Z.leb_le major 1) Hmaj). reflexivity.
  - intros major Hmaj. unfold getRwLayerID. cbn.
    rewrite (proj2 (Z.leb_gt major 1) Hmaj). cbn.
    destruct (ReadFile w _); cbn; (split; [reflexivity | eauto]).
Qed.

End RwLayerIDMore.

Lemma getRwLayerID_short_version_witness :
  Docker.getRwLayerID Sample.world "abc123" "/var/lib/docker" "overlay2" [1%Z]
    = (Panics "runtime error: index out of range", []) ∧
  result (Docker.getRwLayerID Sample.world "abc123" "/var/lib/docker" "overlay2" [17%Z])
    = Returns ("m0unt1d", None).
Proof.
  split.
  - apply (proj1 (proj2 (getRwLayerID_short_version Sample.world "abc123"
                           "/var/lib/docker" "overlay2")) 1%Z). lia.
  - destruct (proj2 (proj2 (getRwLayerID_short_version Sample.world "abc123"
                              "/var/lib/docker" "overlay2")) 17%Z) as (_ & r & Hr); [lia|].
    rewrite Hr. cbn in Hr. injection Hr as <-. reflexivity.
Defined.

(** ** More on the netlink load reader *)

Section LoadReaderMore.

Import Netlink.

Context {LoadStats : Type}.
Variable zeroLoadStats : LoadStats.

(** X17.  With a path that is not empty [GetCpuLoad] opens it first.  When
    the open fails, nothing is sent to the kernel and the zero statistics
    come back with an error.  When it succeeds, one request is made with the
    reader's family id and connection and the descriptor is closed after it,
    whether the request succeeded or not; the statistics are those of the
    reply, or zero with the error of the request. *)
Theorem GetCpuLoad_descriptor (k : Kernel) (self : NetlinkReader) (name path : string) :
  path ≠ "" →
  (∀ e, os_Open k path = Err e →
     trace (GetCpuLoad zeroLoadStats k self name path) = [EvOpen path] ∧
     ∃ err, result (GetCpuLoad zeroLoadStats k self name path)
            = Returns (zeroLoadStats, Some err)) ∧
  (∀ cfd, os_Open k path = Ok cfd →
     trace (GetCpuLoad zeroLoadStats k self name path)
     = [EvOpen path; EvGetLoadStats (familyId self) cfd (conn self); EvClose cfd] ∧
     result (GetCpuLoad zeroLoadStats k self name path)
     = match getLoadStats k (familyId self) cfd (conn self) with
       | Ok stats => Returns (stats, None)
       | Err err => Returns (zeroLoadStats, Some err)
       end).
Proof.
  intros Hpath. unfold GetCpuLoad.
  destruct path as [|c path]; [congruence|]. cbn [String.length Nat.eqb].
  split.
  - intros e He. cbn. rewrite He. cbn. eauto.
  - intros cfd Hfd. cbn. rewrite Hfd. cbn.
    destruct (getLoadStats k (familyId self) cfd (conn self)); cbn; auto.
Qed.

(** X18.  A reader that [New] returns holds the connection that was opened and
    the family id that was resolved on it; [Stop] closes that connection and
    [GetCpuLoad] sends its requests with that id over it.  [New] itself
    closes nothing. *)
Theorem New_reader (h : Handshake) (r : NetlinkReader) (err : option error)
    (t : list ConnEvent) :
  New h = (Returns (Some r, err), t) →
  ∃ c id,
    newConnection h = Ok c ∧ getFamilyId h c = Ok id ∧ err = None ∧
    t = [EvNewConnection; EvGetFamilyId c] ∧
    Stop r = (Returns tt, [EvConnClose c]) ∧
    ∀ k name path cfd, path ≠ "" → os_Open k path = Ok cfd →
      trace (GetCpuLoad zeroLoadStats k r name path)
      = [EvOpen path; EvGetLoadStats id cfd (Some c); EvClose cfd].
Proof.
  unfold New. cbn.
  destruct (newConnection h) as [c|e] eqn:Hc; cbn; [|discriminate].
  destruct (getFamilyId h c) as [id|e] eqn:Hid; cbn; [|discriminate].
  intros H. injection H as <- <- <-.
  exists c, id. split; [reflexivity|]. split; [exact Hid|]. do 3 (split; [reflexivity|]).
  intros k name path cfd Hpath Hfd. unfold GetCpuLoad.
  destruct path as [|ch path]; [congruence|]. cbn. rewrite Hfd. cbn.
  destruct (getLoadStats k id cfd (Some c)); reflexivity.
Qed.

End LoadReaderMore.

(** X19.  [New] returns no reader when the connection cannot be opened or
    the family id cannot be resolved.  In the second case the connection
    that was opened is not closed: the calls made are the opening and the
    handshake, nothing else. *)
Theorem New_failure (h : Netlink.Handshake) :
  (∀ e, Netlink.newConnection h = Err e →
     ∃ err, Netlink.New h = (Returns (None, Some err), [Netlink.EvNewConnection])) ∧
  (∀ c e, Netlink.newConnection h = Ok c → Netlink.getFamilyId h c = Err e →
     ∃ err, Netlink.New h
            = (Returns (None, Some err),
               [Netlink.EvNewConnection; Netlink.EvGetFamilyId c])) ∧
  (∀ c, ¬ In (Netlink.EvConnClose c) (trace (Netlink.New h))).
Proof.
  unfold Netlink.New. split; [|split].
  - intros e ->. cbn. eauto.
  - intros c e -> He. cbn. rewrite He. cbn. eauto.
  - intros c. cbn. destruct (Netlink.newConnection h) as [c'|e]; cbn.
    + destruct (Netlink.getFamilyId h c'); cbn; intuition discriminate.
    + intuition discriminate.
Qed.

Lemma GetCpuLoad_descriptor_witness :
  let k := {| Netlink.os_Open := λ p, if String.eqb p "/sys/fs/cgroup/cpu/docker/abc123"
                                       then Ok 7%Z
                                       else Err (ErrExternal "no such file or directory");
              Netlink.getLoadStats := λ _ _ _, Err (ErrExternal "netlink: no reply") |} in
  let self := {| Netlink.familyId := 23%Z; Netlink.conn := Some 3%Z |} in
  trace (Netlink.GetCpuLoad 0%Z k self "abc123" "/sys/fs/cgroup/cpu/docker/gone")
    = [Netlink.EvOpen "/sys/fs/cgroup/cpu/docker/gone"] ∧
  trace (Netlink.GetCpuLoad 0%Z k self "abc123" "/sys/fs/cgroup/cpu/docker/abc123")
    = [Netlink.EvOpen "/sys/fs/cgroup/cpu/docker/abc123";
       Netlink.EvGetLoadStats 23%Z 7%Z (Some 3%Z); Netlink.EvClose 7%Z].
Proof.
  intros k self. split.
  - apply (proj1 (GetCpuLoad_descriptor 0%Z k self "abc123"
                    "/sys/fs/cgroup/cpu/docker/gone" ltac:(discriminate))
             (ErrExternal "no such file or directory")).
    reflexivity.
  - apply (proj2 (GetCpuLoad_descriptor 0%Z k self "abc123"
                    "/sys/fs/cgroup/cpu/docker/abc123" ltac:(discriminate)) 7%Z).
    reflexivity.
Defined.

Lemma New_reader_witness :
  let h := {| Netlink.newConnection := Ok 3%Z; Netlink.getFamilyId := λ _, Ok 23%Z |} in
  ∃ r, Netlink.New h
       = (Returns (Some r, None), [Netlink.EvNewConnection; Netlink.EvGetFamilyId 3%Z]) ∧
       Netlink.Stop r = (Returns tt, [Netlink.EvConnClose 3%Z]).
Proof.
  intros h.
  eassert (Hrun : Netlink.New h = (Returns (Some _, _), _)) by reflexivity.
  destruct (New_reader 0%Z h _ _ _ Hrun) as (c & id & Hc & Hid & _ & _ & Hstop & _).
  injection Hc as <-. eexists. split; [exact Hrun | exact Hstop].
Defined.

Lemma New_failure_witness :
  ∃ err, Netlink.New {| Netlink.newConnection := Ok 3%Z;
                        Netlink.getFamilyId := λ _, Err (ErrExternal "no such family") |}
         = (Returns (None, Some err), [Netlink.EvNewConnection; Netlink.EvGetFamilyId 3%Z]).
Proof.
  apply (proj1 (proj2 (New_failure _)) 3%Z (ErrExternal "no such family")); reflexivity.
Defined.

(** ** Splitting and joining *)

Section SplitFacts.

Lemma append_nil_r (s : string) : s +:+ "" = s.
Proof.
  induction s as [|c s IH]; [reflexivity|].
  change (String c s +:+ "") with (String c (s +:+ "")). rewrite IH. reflexivity.
Qed.

Lemma append_assoc (a b c : string) : (a +:+ b) +:+ c = a +:+ (b +:+ c).
Proof.
  induction a as [|x a IH]; [reflexivity|].
  change ((String x a +:+ b) +:+ c) with (String x ((a +:+ b) +:+ c)).
  change (String x a +:+ (b +:+ c)) with (String x (a +:+ (b +:+ c))).
  rewrite IH. reflexivity.
Qed.

Lemma prefix_nil (s : string) : String.prefix "" s = true.
Proof. destruct s; reflexivity. Qed.

(** A piece that does not hold the separator byte is cut off whole. *)
Lemma splitFrom_piece (c : ascii) (a b cur : string) :
  ¬ In c (list_ascii_of_string a) →
  GoStrings.splitFrom (String c "") (a +:+ String c b) 0 cur
  = (cur +:+ a) :: GoStrings.splitFrom (String c "") b 0 "".
Proof.
  revert cur. induction a as [|d a IH]; intros cur Hno.
  - change ("" +:+ String c b) with (String c b). rewrite append_nil_r.
    cbn [GoStrings.splitFrom]. unfold String.prefix at 1.
    destruct (ascii_dec c c) as [_|Hne]; [|congruence].
    fold String.prefix. rewrite prefix_nil. reflexivity.
  - change (String d a +:+ String c b) with (String d (a +:+ String c b)).
    cbn [GoStrings.splitFrom]. unfold String.prefix at 1.
    destruct (ascii_dec c d) as [->|Hne].
    + exfalso. apply Hno. left. reflexivity.
    + rewrite IH by (intros Hin; apply Hno; right; exact Hin).
      rewrite append_assoc. reflexivity.
Qed.

Lemma splitFrom_last (c : ascii) (a cur : string) :
  ¬ In c (list_ascii_of_string a) →
  GoStrings.splitFrom (String c "") a 0 cur = [cur +:+ a].
Proof.
  revert cur. induction a as [|d a IH]; intros cur Hno.
  - rewrite append_nil_r. reflexivity.
  - cbn [GoStrings.splitFrom]. unfold String.prefix at 1.
    destruct (ascii_dec c d) as [->|Hne].
    + exfalso. apply Hno. left. reflexivity.
    + rewrite IH by (intros Hin; apply Hno; right; exact Hin).
      rewrite append_assoc. reflexivity.
Qed.

(** Joining pieces that do not hold the separator byte and splitting the
    result gives the pieces back. *)
Lemma Split_Join (c : ascii) (pieces : list string) :
  pieces ≠ [] →
  (∀ p, In p pieces → ¬ In c (list_ascii_of_string p)) →
  GoStrings.Split (GoStrings.Join pieces (String c "")) (String c "") = pieces.
Proof.
  unfold GoStrings.Split, GoStrings.Join.
  induction pieces as [|p rest IH]; [congruence|]. intros _ Hno.
  destruct rest as [|q rest].
  - simpl. apply splitFrom_last. apply Hno. left. reflexivity.
  - change (String.concat (String c "") (p :: q :: rest))
      with (p +:+ String c (String.concat (String c "") (q :: rest))).
    rewrite splitFrom_piece by (apply Hno; left; reflexivity).
    rewrite IH; [reflexivity | discriminate |].
    intros p' Hin. apply Hno. right. exact Hin.
Qed.

(** [IndexByte] finds the first occurrence. *)
Lemma IndexByte_spec (b : list ascii) (c : ascii) :
  (¬ In c b ∧ GoStrings.IndexByte b c = (-1)%Z) ∨
  (∃ before after, b = before ++ c :: after ∧ ¬ In c before ∧
                   GoStrings.IndexByte b c = Z.of_nat (length before)).
Proof.
  induction b as [|x b IH]; simpl.
  - left. split; [intros [] | reflexivity].
  - destruct (Ascii.eqb_spec x c) as [->|Hne].
    + right. exists [], b. split; [reflexivity|]. split; [intros [] | reflexivity].
    + destruct IH as [[Hno ->]|(before & after & -> & Hno & ->)].
      * left. split; [|reflexivity]. intros [Heq|Hin]; [congruence | exact (Hno Hin)].
      * right. exists (x :: before), after. split; [reflexivity|]. split.
        -- intros [Heq|Hin]; [congruence | exact (Hno Hin)].
        -- destruct (Z.ltb_spec (Z.of_nat (length before)) 0) as [Hlt|_]; [lia|].
           simpl length. lia.
Qed.

End SplitFacts.

(** ** Machine information *)

Section MachineInfo.

Import Machine.

Variable strings_TrimSpace : string → string.
Variable strconv_ParseUint : string → res Z.
Variable fmt_Sscanf_d : string → option Z.

Abbreviation rangeFiles' := (rangeFiles strings_TrimSpace).
Abbreviation getInfoFromFiles' := (getInfoFromFiles strings_TrimSpace).
Abbreviation rangeHugePages' := (rangeHugePages strconv_ParseUint fmt_Sscanf_d).
Abbreviation GetHugePagesInfo' := (GetHugePagesInfo strconv_ParseUint fmt_Sscanf_d).

Lemma rangeFiles_none_readable (w : Files) (files : list string) :
  (∀ f, In f files → ∃ e, ReadFile w f = Err e) →
  rangeFiles' w files = (Returns "", map EvReadFile files).
Proof.
  induction files as [|f files IH]; intros Hall; [reflexivity|].
  cbn. destruct (Hall f (or_introl eq_refl)) as [e ->].
  rewrite IH by (intros f' Hin; apply Hall; right; exact Hin). reflexivity.
Qed.

Lemma rangeFiles_first_readable (w : Files) (unreadable : list string) (file id : string)
    (rest : list string) :
  (∀ f, In f unreadable → ∃ e, ReadFile w f = Err e) →
  ReadFile w file = Ok id →
  rangeFiles' w (unreadable ++ file :: rest)
  = (Returns (strings_TrimSpace id), map EvReadFile (unreadable ++ [file])).
Proof.
  intros Hall Hfile. induction unreadable as [|f unreadable IH].
  - cbn. rewrite Hfile. reflexivity.
  - cbn. destruct (Hall f (or_introl eq_refl)) as [e ->].
    rewrite IH by (intros f' Hin; apply Hall; right; exact Hin). reflexivity.
Qed.

(** X20.  [getInfoFromFiles] on a comma-separated list of files: the files
    are read in order up to the first one that can be read, whose contents,
    trimmed, are the answer; the files after it are not read.  When none can
    be read the answer is empty, after every file was tried.  On the empty
    string nothing is read. *)
Theorem getInfoFromFiles_first_readable (w : Files) (files : list string) :
  let filePaths := GoStrings.Join files "," in
  (∀ f, In f files → ¬ In ","%char (list_ascii_of_string f)) →
  filePaths ≠ "" →
  (∀ unreadable file id rest,
     files = unreadable ++ file :: rest →
     (∀ f, In f unreadable → ∃ e, ReadFile w f = Err e) →
     ReadFile w file = Ok id →
     getInfoFromFiles' w filePaths
     = (Returns (strings_TrimSpace id), map EvReadFile (unreadable ++ [file]))) ∧
  ((∀ f, In f files → ∃ e, ReadFile w f = Err e) →
   getInfoFromFiles' w filePaths = (Returns "", map EvReadFile files)) ∧
  getInfoFromFiles' w "" = (Returns "", []).
Proof.
  intros filePaths Hno Hne.
  assert (Hfiles : files ≠ []) by (intros ->; apply Hne; reflexivity).
  assert (Hsplit : GoStrings.Split filePaths "," = files)
    by (apply (Split_Join ","%char files Hfiles Hno)).
  assert (Hlen : Nat.eqb (String.length filePaths) 0 = false)
    by (destruct filePaths; [congruence | reflexivity]).
  split; [|split].
  - intros unreadable file id rest Heq Hall Hfile.
    unfold getInfoFromFiles. rewrite Hlen, Hsplit, Heq.
    apply rangeFiles_first_readable; assumption.
  - intros Hall. unfold getInfoFromFiles. rewrite Hlen, Hsplit.
    apply rangeFiles_none_readable. exact Hall.
  - reflexivity.
Qed.

(** How the loop over the huge page directories ends when it returns. *)
Lemma rangeHugePages_returns (w : Files) (files : list string)
    (acc infos : list HugePagesInfo) (err : option error) (t : list Event) :
  rangeHugePages' w files acc = (Returns (infos, err), t) →
  ∃ new,
    infos = acc ++ new ∧
    (length new ≤ length files)%nat ∧
    (err = None → length new = length files) ∧
    ∀ i info, new !! i = Some info →
      ∃ name size digits val,
        files !! i = Some name ∧
        GoStrings.Split name "-" !! 1 = Some size ∧
        GoStrings.Split size "kB" !! 0 = Some digits ∧
        strconv_ParseUint digits = Ok (PageSize info) ∧
        ReadFile w (hugepagesDirectory +:+ name +:+ "/nr_hugepages") = Ok val ∧
        fmt_Sscanf_d val = Some (NumPages info).
Proof.
  revert acc t. induction files as [|name files IH]; intros acc t H.
  - cbn in H. injection H as <- <- <-. exists []. rewrite app_nil_r.
    split; [reflexivity|]. split; [reflexivity|]. split; [reflexivity|].
    intros i info Hi. destruct i; discriminate Hi.
  - cbn [rangeHugePages] in H.
    apply bind_returns in H. destruct H as (size & ts & t' & Hsize & H & ->).
    unfold io_lift, index in Hsize.
    destruct (GoStrings.Split name "-" !! 1) as [size'|] eqn:Hs1; [|discriminate Hsize].
    injection Hsize as <- <-.
    apply bind_returns in H. destruct H as (digits & td & t'' & Hdigits & H & ->).
    unfold io_lift, index in Hdigits.
    destruct (GoStrings.Split size' "kB" !! 0) as [digits'|] eqn:Hs2; [|discriminate Hdigits].
    injection Hdigits as <- <-.
    destruct (strconv_ParseUint digits') as [pageSize|e] eqn:Hparse.
    2:{ injection H as <- <- <-. exists []. rewrite app_nil_r.
        split; [reflexivity|]. split; [simpl; lia|]. split; [discriminate|].
        intros i info Hi. destruct i; discriminate Hi. }
    apply bind_returns in H. destruct H as (val & tv & t3 & Hval & H & ->).
    injection Hval as <- <-.
    destruct (ReadFile w (hugepagesDirectory +:+ name +:+ "/nr_hugepages"))
      as [val|e] eqn:Hread.
    2:{ injection H as <- <- <-. exists []. rewrite app_nil_r.
        split; [reflexivity|]. split; [simpl; lia|]. split; [discriminate|].
        intros i info Hi. destruct i; discriminate Hi. }
    destruct (fmt_Sscanf_d val) as [numPages|] eqn:Hscan.
    2:{ injection H as <- <- <-. exists []. rewrite app_nil_r.
        split; [reflexivity|]. split; [simpl; lia|]. split; [discriminate|].
        intros i info Hi. destruct i; discriminate Hi. }
    destruct (IH _ _ H) as (new & -> & Hle & Hlen & Hnew).
    exists ({| PageSize := pageSize; NumPages := numPages |} :: new).
    split; [rewrite <- app_assoc; reflexivity|].
    split; [simpl; lia|]. split; [intros He; simpl; rewrite (Hlen He); reflexivity|].
    intros [|i] info Hi.
    + injection Hi as <-. exists name, size', digits', val. auto 10.
    + apply (Hnew i info Hi).
Qed.

(** X21.  A run of [GetHugePagesInfo] that returns: the records answer the
    first directory entries one by one, in order, all of them when there is
    no error.  The page size of a record is the number between the first
    dash of the entry's name and [kB], and its page count is scanned from
    the entry's [nr_hugepages] file. *)
Theorem GetHugePagesInfo_records (w : Files) (files : list string)
    (infos : list HugePagesInfo) (err : option error) (t : list Event) :
  ReadDir w hugepagesDirectory = Ok files →
  GetHugePagesInfo' w = (Returns (infos, err), t) →
  (length infos ≤ length files)%nat ∧
  (err = None → length infos = length files) ∧
  ∀ i info, infos !! i = Some info →
    ∃ name size digits val,
      files !! i = Some name ∧
      GoStrings.Split name "-" !! 1 = Some size ∧
      GoStrings.Split size "kB" !! 0 = Some digits ∧
      strconv_ParseUint digits = Ok (PageSize info) ∧
      ReadFile w ("/sys/kernel/mm/hugepages/" +:+ name +:+ "/nr_hugepages") = Ok val ∧
      fmt_Sscanf_d val = Some (NumPages info).
Proof.
  intros Hdir H. unfold GetHugePagesInfo in H.
  apply bind_returns in H. destruct H as (r & t1 & t2 & Hr & H & ->).
  injection Hr as <- <-. rewrite Hdir in H.
  destruct (rangeHugePages_returns _ _ _ _ _ _ H) as (new & -> & Hle & Hlen & Hnew).
  auto.
Qed.

(** X22.  [GetHugePagesInfo] treats a directory that cannot be listed as no
    huge pages, without an error; and it panics, before reading any file,
    on a first directory entry whose name has no dash. *)
Theorem GetHugePagesInfo_edges (w : Files) :
  (∀ e, ReadDir w hugepagesDirectory = Err e →
     GetHugePagesInfo' w = (Returns ([], None), [EvReadDir hugepagesDirectory])) ∧
  (∀ name rest, ReadDir w hugepagesDirectory = Ok (name :: rest) →
     ¬ In "-"%char (list_ascii_of_string name) →
     GetHugePagesInfo' w
     = (Panics "runtime error: index out of range", [EvReadDir hugepagesDirectory])).
Proof.
  unfold GetHugePagesInfo. split.
  - intros e ->. reflexivity.
  - intros name rest -> Hno. cbn [mbind io_mbind io_bind call].
    cbn [rangeHugePages]. unfold GoStrings.Split.
    rewrite (splitFrom_last "-"%char name "" Hno). reflexivity.
Qed.

(** X23.  [KernelVersion] answers with the bytes of the release field before
    its first NUL; it panics when the field holds no NUL; and it answers
    [Unknown] when [uname] fails. *)
Theorem KernelVersion_release (Release : list ascii) :
  (∀ before after,
     Release = before ++ "000"%char :: after → ¬ In "000"%char before →
     KernelVersion (Ok Release) = Returns (string_of_list_ascii before)) ∧
  (¬ In "000"%char Release →
     KernelVersion (Ok Release) = Panics "runtime error: slice bounds out of range") ∧
  (∀ e, KernelVersion (Err e) = Returns "Unknown").
Proof.
  split; [|split].
  - intros before after Heq Hno. unfold KernelVersion.
    destruct (IndexByte_spec Release "000"%char)
      as [[Hnone _]|(before' & after' & Heq' & Hno' & Hidx)].
    + exfalso. apply Hnone. rewrite Heq. apply in_or_app. right. left. reflexivity.
    + assert (Hsame : before' = before).
      { rewrite Heq in Heq'. clear -Heq' Hno Hno'.
        revert before' Heq' Hno'. induction before as [|x before IH]; intros [|y before'] H Hn.
        - reflexivity.
        - injection H as <- _. exfalso. apply Hn. left. reflexivity.
        - injection H as -> _. exfalso. apply Hno. left. reflexivity.
        - injection H as <- H. f_equal. apply IH.
          + intros Hin. apply Hno. right. exact Hin.
          + exact H.
          + intros Hin. apply Hn. right. exact Hin. }
      subst before'. rewrite Hidx. unfold sliceTo.
      destruct (Z.ltb_spec (Z.of_nat (length before)) 0) as [Hlt|_]; [lia|].
      destruct (Z.ltb_spec (Z.of_nat (length Release)) (Z.of_nat (length before)))
        as [Hlt|_].
      { rewrite Heq, length_app in Hlt. lia. }
      cbn [orb mbind outcome_bind mret outcome_ret].
      rewrite Nat2Z.id, Heq, take_app_length. reflexivity.
  - intros Hno. unfold KernelVersion.
    destruct (IndexByte_spec Release "000"%char)
      as [[_ ->]|(before' & after' & Heq' & _ & _)].
    + reflexivity.
    + exfalso. apply Hno. rewrite Heq'. apply in_or_app. right. left. reflexivity.
  - reflexivity.
Qed.

End MachineInfo.

(** The machine id of the sample machine: the first file cannot be read,
    the second one can. *)
Lemma getInfoFromFiles_first_readable_witness :
  Machine.getInfoFromFiles Sample.trimSpace Sample.machineFiles
    "/etc/machine-id,/var/lib/dbus/machine-id"
  = (Returns "5f3a9c",
     [Machine.EvReadFile "/etc/machine-id"; Machine.EvReadFile "/var/lib/dbus/machine-id"]).
Proof.
  destruct (getInfoFromFiles_first_readable Sample.trimSpace Sample.machineFiles
              ["/etc/machine-id"; "/var/lib/dbus/machine-id"]) as (H & _ & _).
  - intros f [<-|[<-|[]]]; vm_compute; intuition discriminate.
  - discriminate.
  - apply (H ["/etc/machine-id"] "/var/lib/dbus/machine-id"
             ("5f3a9c" +:+ Sample.lineFeed) []).
    + reflexivity.
    + intros f [<-|[]]. eexists. reflexivity.
    + reflexivity.
Defined.

(** The two huge page sizes of the sample machine. *)
Lemma GetHugePagesInfo_records_witness :
  ∃ infos t,
    Machine.GetHugePagesInfo Sample.parseUint Sample.sscanf Sample.machineFiles
    = (Returns (infos, None), t) ∧
    length infos = 2%nat.
Proof.
  eassert (Hrun : Machine.GetHugePagesInfo Sample.parseUint Sample.sscanf
                    Sample.machineFiles = (Returns (_, None), _)) by reflexivity.
  destruct (GetHugePagesInfo_records Sample.parseUint Sample.sscanf Sample.machineFiles
              ["hugepages-2048kB"; "hugepages-1048576kB"] _ _ _ eq_refl Hrun)
    as (_ & Hlen & _).
  eexists _, _. split; [exact Hrun | exact (Hlen eq_refl)].
Defined.

(** A directory entry without a dash. *)
Lemma GetHugePagesInfo_edges_witness :
  Machine.GetHugePagesInfo Sample.parseUint Sample.sscanf
    {| Machine.ReadFile := Machine.ReadFile Sample.machineFiles;
       Machine.ReadDir := λ _, Ok ["lost+found"] |}
  = (Panics "runtime error: index out of range",
     [Machine.EvReadDir "/sys/kernel/mm/hugepages/"]).
Proof.
  apply (proj2 (GetHugePagesInfo_edges Sample.parseUint Sample.sscanf _) "lost+found" []).
  - reflexivity.
  - vm_compute. intuition discriminate.
Defined.

(** A release field, padded with NUL bytes. *)
Lemma KernelVersion_release_witness :
  Machine.KernelVersion
    (Ok (list_ascii_of_string "5.4.0" ++ ["000"; "000"; "000"]%char))
  = Returns "5.4.0".
Proof.
  apply (proj1 (KernelVersion_release _) (list_ascii_of_string "5.4.0") ["000"; "000"]%char).
  - reflexivity.
  - vm_compute. intuition discriminate.
Defined.

(** ** Clean paths *)

Section CleanFacts.

Lemma elements_nonempty (p : string) : GoPath.elements p ≠ [].
Proof.
  destruct p as [|c p]; simpl; [discriminate|].
  destruct (Ascii.eqb c "/"); [discriminate|].
  destruct (GoPath.elements p); discriminate.
Qed.

Lemma elements_app (a b : string) :
  GoPath.elements (a +:+ String "/" b) = GoPath.elements a ++ GoPath.elements b.
Proof.
  induction a as [|c a IH]; [reflexivity|].
  change (String c a +:+ String "/" b) with (String c (a +:+ String "/" b)).
  cbn [GoPath.elements]. rewrite IH.
  destruct (Ascii.eqb c "/"); [reflexivity|].
  pose proof (elements_nonempty a) as Hne.
  destruct (GoPath.elements a) as [|hd tl]; [congruence|]. reflexivity.
Qed.

Lemma list_ascii_of_string_append (a b : string) :
  list_ascii_of_string (a +:+ b) = list_ascii_of_string a ++ list_ascii_of_string b.
Proof.
  induction a as [|c a IH]; [reflexivity|].
  change (String c a +:+ b) with (String c (a +:+ b)). simpl. rewrite IH. reflexivity.
Qed.

Lemma concat_cons (sep x : string) (l : list string) :
  l ≠ [] → String.concat sep (x :: l) = x +:+ sep +:+ String.concat sep l.
Proof. destruct l; [congruence | reflexivity]. Qed.

(** Joining the elements of a path with slashes gives the path back. *)
Lemma elements_concat (p : string) : String.concat "/" (GoPath.elements p) = p.
Proof.
  induction p as [|c p IH]; [reflexivity|]. cbn [GoPath.elements].
  pose proof (elements_nonempty p) as Hne.
  destruct (Ascii.eqb_spec c "/") as [->|_].
  - rewrite concat_cons by exact Hne. rewrite IH. reflexivity.
  - destruct (GoPath.elements p) as [|hd tl]; [congruence|].
    destruct tl as [|y tl]; simpl in IH |- *; rewrite <- IH; reflexivity.
Qed.

Lemma clean_step_plain (rooted : bool) (es out : list string) :
  Forall (λ e, e ≠ "" ∧ e ≠ "." ∧ e ≠ "..") es →
  fold_left (GoPath.clean_step rooted) es out = rev es ++ out.
Proof.
  intros Hes. revert out. induction Hes as [|e es (He1 & He2 & He3) _ IH]; intros out.
  - reflexivity.
  - cbn [fold_left]. unfold GoPath.clean_step at 2.
    rewrite (proj2 (String.eqb_neq e "") He1), (proj2 (String.eqb_neq e ".") He2),
      (proj2 (String.eqb_neq e "..") He3).
    cbn [orb]. rewrite IH. simpl. rewrite <- app_assoc. reflexivity.
Qed.

(** Joining the root of the host, [/] on the host and [/rootfs] in a
    container, and an absolute path whose elements are plain: in a container
    [/rootfs] is put in front of the path, on the host the path is left as it
    is. *)
Lemma Join_rootFs (inHostNamespace : bool) (p : string) (es : list string) :
  GoPath.elements p = "" :: es → es ≠ [] → Forall (λ e, e ≠ "" ∧ e ≠ "." ∧ e ≠ "..") es →
  GoPath.Join [if inHostNamespace then "/" else "/rootfs"; p]
  = (if inHostNamespace then "" else "/rootfs") +:+ p.
Proof.
  intros Hp Hne Hes.
  pose proof (elements_concat p) as Hc.
  rewrite Hp, concat_cons in Hc by exact Hne.
  destruct inHostNamespace.
  - unfold GoPath.Join. cbn [GoPath.skip_empty String.eqb Ascii.eqb Bool.eqb].
    change (GoStrings.Join ["/"; p] "/") with ("/" +:+ String "/" p).
    unfold GoPath.Clean.
    assert (Hrooted : GoStrings.HasPrefix ("/" +:+ String "/" p) "/" = true)
      by reflexivity.
    rewrite Hrooted, elements_app, Hp.
    change (GoPath.elements "/") with ["" ; ""].
    cbn [app fold_left].
    repeat change (GoPath.clean_step true [] "") with (@nil string).
    rewrite (clean_step_plain true es [] Hes).
    rewrite app_nil_r, rev_involutive.
    unfold GoStrings.Join. rewrite <- Hc. reflexivity.
  - unfold GoPath.Join. cbn [GoPath.skip_empty String.eqb Ascii.eqb Bool.eqb].
    change (GoStrings.Join ["/rootfs"; p] "/") with ("/rootfs" +:+ String "/" p).
    unfold GoPath.Clean.
    assert (Hrooted : GoStrings.HasPrefix ("/rootfs" +:+ String "/" p) "/" = true)
      by reflexivity.
    rewrite Hrooted, elements_app, Hp.
    change (GoPath.elements "/rootfs") with ["" ; "rootfs"].
    cbn [app fold_left].
    change (GoPath.clean_step true [] "") with (@nil string).
    change (GoPath.clean_step true [] "rootfs") with ["rootfs"].
    change (GoPath.clean_step true ["rootfs"] "") with ["rootfs"].
    rewrite (clean_step_plain true es ["rootfs"] Hes).
    rewrite rev_app_distr, rev_involutive. cbn [rev app].
    unfold GoStrings.Join. rewrite concat_cons by exact Hne.
    rewrite <- Hc. reflexivity.
Qed.

End CleanFacts.

(** ** The machine information *)

Section InfoFacts.

Import Machine.

Variable strings_TrimSpace : string → string.
Variable strconv_ParseUint : string → res Z.
Variable fmt_Sscanf_d : string → option Z.
Context {DiskMap NetDevices Topology : Type}.

Abbreviation Info' :=
  (Info strings_TrimSpace strconv_ParseUint fmt_Sscanf_d
        (DiskMap := DiskMap) (NetDevices := NetDevices) (Topology := Topology)).

Ltac info_absurd H :=
  exfalso; cbv beta iota in H; unfold mret, io_mret, io_ret in H; discriminate H.

(** What [Info] has done when it returns machine information. *)
Lemma Info_returns (w : Files) (c : Collaborators) (cloud : CloudInfo.realCloudInfo)
    (machineIdFilePath bootIdFilePath : string) (inHostNamespace : bool)
    (mi : MachineInfo) (err : option error) (t : list Event) :
  Info' w c cloud machineIdFilePath bootIdFilePath inHostNamespace
  = (Returns (Some mi, err), t) →
  let rootFs := if inHostNamespace then "/" else "/rootfs" in
  err = None ∧
  ∃ tm tb,
    getInfoFromFiles strings_TrimSpace w (GoPath.Join [rootFs; machineIdFilePath])
    = (Returns (MachineID mi), tm) ∧
    getInfoFromFiles strings_TrimSpace w (GoPath.Join [rootFs; bootIdFilePath])
    = (Returns (BootID mi), tb).
Proof.
  intros H rootFs. unfold Info in H. fold rootFs in H.
  apply bind_returns in H. destruct H as (cpuinfo & t0 & t1 & Hcpu & H & ->).
  destruct cpuinfo as [cpuinfo|e]; [|info_absurd H].
  destruct (GetClockSpeed c cpuinfo) as [clockSpeed|e]; [|info_absurd H].
  destruct (GetMachineMemoryCapacity c) as [memoryCapacity|e]; [|info_absurd H].
  apply bind_returns in H. destruct H as ([hugePagesInfo herr] & t2 & t3 & Hhuge & H & ->).
  destruct herr as [e|]; [info_absurd H|].
  destruct (GetTopology c cpuinfo) as [[topology numCores] terr].
  cbn [fst] in H.
  apply bind_returns in H. destruct H as (machineID & t4 & t5 & Hm & H & ->).
  apply bind_returns in H. destruct H as (bootID & t6 & t7 & Hb & H & ->).
  unfold mret, io_mret, io_ret in H. injection H as <- <- <-.
  split; [reflexivity|]. exists t4, t6. split; assumption.
Qed.

(** X24.  The machine id in a container and on the host.  The flag
    [machine_id_file] holds a comma-separated list of absolute paths, joined
    as one string to the root of the host before it is split: in a container
    (not in the host namespace) only the first file of the list is looked up
    under [/rootfs], the files after it are read at the paths given; in the
    host namespace every file is read at the path given.  The machine id
    that [Info] returns is what the loop over that list of files finds. *)
Theorem Info_machine_id_files (w : Files) (c : Collaborators)
    (cloud : CloudInfo.realCloudInfo) (first : string) (others : list string)
    (bootIdFilePath : string) (inHostNamespace : bool) (es : list string)
    (mi : MachineInfo) (err : option error) (t : list Event) :
  let machineIdFilePath := GoStrings.Join (first :: others) "," in
  (∀ f, In f (first :: others) → ¬ In ","%char (list_ascii_of_string f)) →
  GoPath.elements machineIdFilePath = "" :: es → es ≠ [] → Forall (λ e, e ≠ "" ∧ e ≠ "." ∧ e ≠ "..") es →
  Info' w c cloud machineIdFilePath bootIdFilePath inHostNamespace
  = (Returns (Some mi, err), t) →
  ∃ tm,
    rangeFiles strings_TrimSpace w
      (((if inHostNamespace then "" else "/rootfs") +:+ first) :: others)
    = (Returns (MachineID mi), tm).
Proof.
  intros machineIdFilePath Hno Hel Hne Hes H.
  apply Info_returns in H. destruct H as (_ & tm & _ & Hm & _).
  rewrite (Join_rootFs inHostNamespace machineIdFilePath es Hel Hne Hes) in Hm.
  exists tm. rewrite <- Hm. unfold getInfoFromFiles.
  set (pre := if inHostNamespace then "" else "/rootfs").
  assert (Hjoin : pre +:+ machineIdFilePath = GoStrings.Join ((pre +:+ first) :: others) ",").
  { unfold machineIdFilePath, GoStrings.Join. destruct others as [|o others].
    - reflexivity.
    - rewrite (concat_cons "," first), (concat_cons "," (pre +:+ first)) by discriminate.
      rewrite append_assoc. reflexivity. }
  rewrite Hjoin.
  assert (Hlen : Nat.eqb (String.length (GoStrings.Join ((pre +:+ first) :: others) ",")) 0
                 = false).
  { rewrite <- Hjoin. destruct (pre +:+ machineIdFilePath) eqn:Heq; [|reflexivity].
    exfalso. assert (Hp : machineIdFilePath = "").
    { destruct pre; [exact Heq | discriminate Heq]. }
    rewrite Hp in Hel. cbn in Hel. injection Hel as <-. apply Hne. reflexivity. }
  rewrite Hlen.
  rewrite (Split_Join ","%char ((pre +:+ first) :: others)); [reflexivity | discriminate |].
  intros f [<-|Hin].
  - intros Hin. rewrite list_ascii_of_string_append in Hin.
    apply in_app_or in Hin. destruct Hin as [Hin|Hin].
    + unfold pre in Hin. destruct inHostNamespace; cbn in Hin; intuition discriminate.
    + exact (Hno first (or_introl eq_refl) Hin).
  - apply Hno. right. exact Hin.
Qed.

End InfoFacts.

(** The sample machine seen from a container, with the default flags: the
    first candidate is read under [/rootfs], where it is missing, and the
    machine id comes from the second, read at its own path. *)
Lemma Info_machine_id_files_witness :
  ∃ mi t tm,
    Machine.Info Sample.trimSpace Sample.parseUint Sample.sscanf Sample.machineFiles
      Sample.machineCollaborators
      Sample.gceInfo Machine.machineIdFilePathDefault Machine.bootIdFilePathDefault
      false
    = (Returns (Some mi, None), t) ∧
    Machine.rangeFiles Sample.trimSpace Sample.machineFiles
      ["/rootfs/etc/machine-id"; "/var/lib/dbus/machine-id"]
    = (Returns (Machine.MachineID mi), tm) ∧
    Machine.MachineID mi = "5f3a9c".
Proof.
  eassert (Hrun : Machine.Info Sample.trimSpace Sample.parseUint Sample.sscanf
                    Sample.machineFiles Sample.machineCollaborators Sample.gceInfo
                    Machine.machineIdFilePathDefault Machine.bootIdFilePathDefault false
                  = (Returns (Some _, None), _)) by reflexivity.
  assert (Hno : ∀ f, In f ["/etc/machine-id"; "/var/lib/dbus/machine-id"] →
                     ¬ In ","%char (list_ascii_of_string f))
    by (intros f [<-|[<-|[]]]; vm_compute; intuition discriminate).
  assert (Hes : Forall (λ e : string, e ≠ "" ∧ e ≠ "." ∧ e ≠ "..")
                  ["etc"; "machine-id,"; "var"; "lib"; "dbus"; "machine-id"])
    by (repeat constructor; discriminate).
  destruct (Info_machine_id_files Sample.trimSpace Sample.parseUint Sample.sscanf
              Sample.machineFiles Sample.machineCollaborators Sample.gceInfo
              "/etc/machine-id" ["/var/lib/dbus/machine-id"]
              Machine.bootIdFilePathDefault false
              ["etc"; "machine-id,"; "var"; "lib"; "dbus"; "machine-id"] _ _ _
              Hno eq_refl ltac:(discriminate) Hes Hrun)
    as (tm & Hm).
  eexists _, _, tm. split; [exact Hrun|]. split; [exact Hm | reflexivity].
Defined.

(** ** The cloud provider registry *)

Section CloudProviders.

Import CloudInfo.

Variable UnknownProvider UnknownInstance UnNamedInstance : string.

Abbreviation rangeProviders' :=
  (rangeProviders UnknownProvider UnknownInstance UnNamedInstance).
Abbreviation NewRealCloudInfo' :=
  (NewRealCloudInfo UnknownProvider UnknownInstance UnNamedInstance).

(** What the active provider registered as [name] is reported as. *)
Abbreviation reported name provider :=
  {| cloudProvider := name;
     instanceType := GetInstanceType provider;
     instanceID := GetInstanceID provider |}.

Abbreviation unknown :=
  {| cloudProvider := UnknownProvider;
     instanceType := UnknownInstance;
     instanceID := UnNamedInstance |}.

(** The loop stops at the first active provider of the order. *)
Lemma rangeProviders_first_active (before : list (string * CloudProvider))
    (name : string) (provider : CloudProvider) (after : list (string * CloudProvider)) :
  Forall (λ np, IsActiveProvider np.2 = false) before →
  IsActiveProvider provider = true →
  rangeProviders' (before ++ (name, provider) :: after) = reported name provider.
Proof.
  intros Hbefore Hactive. induction Hbefore as [|[n q] before Hq _ IH].
  - simpl. rewrite Hactive. reflexivity.
  - simpl in Hq |- *. rewrite Hq. exact IH.
Qed.

Lemma rangeProviders_none_active (order : list (string * CloudProvider)) :
  Forall (λ np, IsActiveProvider np.2 = false) order →
  rangeProviders' order = unknown.
Proof.
  intros Hall. induction Hall as [|[n q] order Hq _ IH]; [reflexivity|].
  simpl in Hq |- *. rewrite Hq. exact IH.
Qed.

Lemma rangeProviders_cases (order : list (string * CloudProvider)) :
  (∃ name provider, (name, provider) ∈ order ∧ IsActiveProvider provider = true ∧
                    rangeProviders' order = reported name provider) ∨
  (Forall (λ np, IsActiveProvider np.2 = false) order ∧ rangeProviders' order = unknown).
Proof.
  induction order as [|[n q] order IH].
  - right. split; [constructor | reflexivity].
  - simpl. destruct (IsActiveProvider q) eqn:Hq.
    + left. exists n, q. split; [left | auto].
    + destruct IH as [(name & provider & Hin & Hactive & Hr)|[Hall Hr]].
      * left. exists name, provider. split; [right; exact Hin | auto].
      * right. split; [constructor; assumption | exact Hr].
Qed.

(** The outcomes of [NewRealCloudInfo], over all orders of iteration. *)
Lemma NewRealCloudInfo_outcomes_aux (providers : gmap string CloudProvider)
    (r : realCloudInfo) :
  NewRealCloudInfo' providers r ↔
  (∃ name provider, providers !! name = Some provider ∧
                    IsActiveProvider provider = true ∧ r = reported name provider) ∨
  ((∀ name provider, providers !! name = Some provider →
                     IsActiveProvider provider = false) ∧ r = unknown).
Proof.
  split.
  - intros (order & Hperm & <-).
    destruct (rangeProviders_cases order) as [(name & provider & Hin & Hactive & Hr)|[Hall Hr]].
    + left. exists name, provider. split; [|auto].
      apply elem_of_map_to_list. rewrite <- Hperm. exact Hin.
    + right. split; [|exact Hr]. intros name provider Hlook.
      apply elem_of_map_to_list in Hlook. rewrite <- Hperm in Hlook.
      rewrite Forall_forall in Hall. exact (Hall _ Hlook).
  - intros [(name & provider & Hlook & Hactive & ->)|[Hall ->]].
    + apply elem_of_map_to_list in Hlook.
      apply elem_of_Permutation in Hlook. destruct Hlook as [rest Hperm].
      exists ((name, provider) :: rest). split; [symmetry; exact Hperm|].
      simpl. rewrite Hactive. reflexivity.
    + exists (map_to_list providers). split; [reflexivity|].
      apply rangeProviders_none_active. apply Forall_forall.
      intros [n q] Hin. apply elem_of_map_to_list in Hin. exact (Hall n q Hin).
Qed.

(** X25.  What [NewRealCloudInfo] may return, whatever the order in which
    the registry is ranged over: the name, instance type and instance id of
    a registered provider that says it is active, any of them when several
    do; and the unknown provider, instance type and instance id exactly when
    no registered provider is active. *)
Theorem NewRealCloudInfo_outcomes (providers : gmap string CloudProvider)
    (r : realCloudInfo) :
  NewRealCloudInfo' providers r ↔
  (∃ name provider, providers !! name = Some provider ∧
                    IsActiveProvider provider = true ∧ r = reported name provider) ∨
  ((∀ name provider, providers !! name = Some provider →
                     IsActiveProvider provider = false) ∧ r = unknown).
Proof. apply NewRealCloudInfo_outcomes_aux. Qed.

(** X26.  When at most one registered provider is active, the order of
    iteration does not show: [NewRealCloudInfo] has one possible outcome. *)
Theorem NewRealCloudInfo_one_active (providers : gmap string CloudProvider)
    (r1 r2 : realCloudInfo) :
  (∀ n1 p1 n2 p2, providers !! n1 = Some p1 → providers !! n2 = Some p2 →
                  IsActiveProvider p1 = true → IsActiveProvider p2 = true → n1 = n2) →
  NewRealCloudInfo' providers r1 → NewRealCloudInfo' providers r2 → r1 = r2.
Proof.
  intros Hone (o1 & Hp1 & <-) (o2 & Hp2 & <-).
  destruct (rangeProviders_cases o1) as [(n1 & p1 & Hin1 & Ha1 & ->)|[Hall1 ->]];
    destruct (rangeProviders_cases o2) as [(n2 & p2 & Hin2 & Ha2 & ->)|[Hall2 ->]].
  - rewrite Hp1 in Hin1. rewrite Hp2 in Hin2.
    apply elem_of_map_to_list in Hin1, Hin2.
    assert (n1 = n2) as -> by exact (Hone _ _ _ _ Hin1 Hin2 Ha1 Ha2).
    assert (p1 = p2) as -> by congruence. reflexivity.
  - exfalso. rewrite Hp1, <- Hp2 in Hin1. rewrite Forall_forall in Hall2.
    specialize (Hall2 _ Hin1). simpl in Hall2. congruence.
  - exfalso. rewrite Hp2, <- Hp1 in Hin2. rewrite Forall_forall in Hall1.
    specialize (Hall1 _ Hin2). simpl in Hall1. congruence.
  - reflexivity.
Qed.

(** X27.  Registration and look-up together: after an active provider is
    registered under a name, and no provider registered under another name
    is active, [NewRealCloudInfo] returns that name with the provider's
    instance type and id, also when the name was registered before, with
    whatever provider: the later registration replaces the earlier.  The
    duplicate warning is logged exactly when the name was registered. *)
Theorem RegisterCloudProvider_then_NewRealCloudInfo
    (providers : gmap string CloudProvider) (name : string) (provider : CloudProvider)
    (r : realCloudInfo) :
  IsActiveProvider provider = true →
  (∀ n q, n ≠ name → providers !! n = Some q → IsActiveProvider q = false) →
  let '(warned, providers') := RegisterCloudProvider providers name provider in
  (warned = true ↔ is_Some (providers !! name)) ∧
  (NewRealCloudInfo' providers' r ↔ r = reported name provider).
Proof.
  intros Hactive Hothers. unfold RegisterCloudProvider. split.
  - rewrite bool_decide_eq_true. reflexivity.
  - rewrite NewRealCloudInfo_outcomes_aux. split.
    + intros [(n & q & Hlook & Ha & ->)|[Hall _]].
      * destruct (decide (n = name)) as [->|Hne].
        -- rewrite lookup_insert_eq in Hlook. injection Hlook as <-. reflexivity.
        -- rewrite lookup_insert_ne in Hlook by congruence.
           rewrite (Hothers n q Hne Hlook) in Ha. discriminate.
      * specialize (Hall name provider (lookup_insert_eq _ _ _)). congruence.
    + intros ->. left. exists name, provider.
      split; [apply lookup_insert_eq | auto].
Qed.

End CloudProviders.

(** A registry with one active provider. *)
Lemma NewRealCloudInfo_outcomes_witness :
  CloudInfo.NewRealCloudInfo "Unknown" "Unknown" "None"
    {[ "GCE" := Sample.gce; "AWS" := Sample.aws ]}
    Sample.gceInfo.
Proof.
  apply (NewRealCloudInfo_outcomes "Unknown" "Unknown" "None"). left.
  exists "GCE", Sample.gce. split; [reflexivity|]. split; reflexivity.
Defined.

(** The two orders of a registry with one active provider. *)
Lemma NewRealCloudInfo_one_active_witness :
  CloudInfo.rangeProviders "Unknown" "Unknown" "None"
    [("AWS", Sample.aws); ("GCE", Sample.gce)]
  = CloudInfo.rangeProviders "Unknown" "Unknown" "None"
      [("GCE", Sample.gce); ("AWS", Sample.aws)].
Proof.
  apply (NewRealCloudInfo_one_active "Unknown" "Unknown" "None"
           {[ "GCE" := Sample.gce; "AWS" := Sample.aws ]}).
  - intros n1 p1 n2 p2 H1 H2 A1 A2.
    assert (Hgce : ∀ n p, ({[ "GCE" := Sample.gce; "AWS" := Sample.aws ]}
                             : gmap string CloudInfo.CloudProvider) !! n = Some p →
                          CloudInfo.IsActiveProvider p = true → n = "GCE").
    { intros n p Hl Ha. destruct (decide (n = "GCE")) as [->|Hne]; [reflexivity|].
      rewrite lookup_insert_ne in Hl by congruence.
      destruct (decide (n = "AWS")) as [->|Hne'].
      - rewrite lookup_singleton_eq in Hl. injection Hl as <-. discriminate Ha.
      - rewrite lookup_singleton_ne in Hl by congruence. discriminate Hl. }
    rewrite (Hgce n1 p1 H1 A1), (Hgce n2 p2 H2 A2). reflexivity.
  - exists [("AWS", Sample.aws); ("GCE", Sample.gce)]. split; [|reflexivity].
    vm_compute. first [reflexivity | apply perm_swap].
  - exists [("GCE", Sample.gce); ("AWS", Sample.aws)]. split; [|reflexivity].
    vm_compute. first [reflexivity | apply perm_swap].
Defined.

(** Registering the active provider again, under a name in use. *)
Lemma RegisterCloudProvider_then_NewRealCloudInfo_witness :
  fst (CloudInfo.RegisterCloudProvider {[ "GCE" := Sample.aws ]} "GCE" Sample.gce) = true ∧
  CloudInfo.NewRealCloudInfo "Unknown" "Unknown" "None"
    (snd (CloudInfo.RegisterCloudProvider {[ "GCE" := Sample.aws ]} "GCE" Sample.gce))
    Sample.gceInfo.
Proof.
  assert (Hothers : ∀ n q, n ≠ "GCE" →
            ({[ "GCE" := Sample.aws ]} : gmap string CloudInfo.CloudProvider) !! n = Some q →
            CloudInfo.IsActiveProvider q = false).
  { intros n q Hne Hl. rewrite lookup_singleton_ne in Hl by congruence. discriminate Hl. }
  pose proof (RegisterCloudProvider_then_NewRealCloudInfo "Unknown" "Unknown" "None"
                {[ "GCE" := Sample.aws ]} "GCE" Sample.gce Sample.gceInfo eq_refl Hothers)
    as H.
  unfold CloudInfo.RegisterCloudProvider in H |- *. destruct H as [Hw Hiff]. split.
  - apply Hw. rewrite lookup_singleton_eq. eexists. reflexivity.
  - apply Hiff. reflexivity.
Defined.

(** ** More on the raw factory *)

Section RawFactoryMore.

Import Raw.

Lemma rangeWhiteList_accepts (name : string) (l : list string) :
  rangeWhiteList name l = (true, true, None) ↔
  ∃ prefix, In prefix l ∧ GoStrings.HasPrefix name prefix = true.
Proof.
  induction l as [|p rest IH]; simpl.
  - split; [discriminate | intros (prefix & [] & _)].
  - destruct (GoStrings.HasPrefix name p) eqn:Hp.
    + split; [intros _; exists p; auto | reflexivity].
    + rewrite IH. split.
      * intros (prefix & Hin & Hpre). exists prefix. auto.
      * intros (prefix & [->|Hin] & Hpre); [congruence|]. exists prefix. auto.
Qed.

Lemma rangeWhiteList_shape (name : string) (l : list string) :
  ∃ accept, rangeWhiteList name l = (true, accept, None).
Proof.
  induction l as [|p rest IH]; simpl; [eauto|].
  destruct (GoStrings.HasPrefix name p); eauto.
Qed.

(** X1.  When the first whitelist entry is not the empty string, the flag
    [--docker_only] makes no difference to [CanHandleAndAccept]. *)
Theorem CanHandleAndAccept_flag_irrelevant (self : rawFactory) (name : string)
    (first : string) (rest : list string) :
  rawPrefixWhiteList self = first :: rest → first ≠ "" →
  CanHandleAndAccept true self name = CanHandleAndAccept false self name.
Proof.
  intros Hwl Hfirst. unfold CanHandleAndAccept. rewrite Hwl.
  destruct (String.eqb name "/"); [reflexivity|]. simpl.
  rewrite (proj2 (String.eqb_neq first "") Hfirst). reflexivity.
Qed.

Lemma CanHandleAndAccept_flag_irrelevant_witness :
  CanHandleAndAccept true {| rawPrefixWhiteList := ["/system.slice"; ""] |} "/system.slice/sshd"
  = CanHandleAndAccept false {| rawPrefixWhiteList := ["/system.slice"; ""] |} "/system.slice/sshd".
Proof.
  apply (CanHandleAndAccept_flag_irrelevant _ _ "/system.slice" [""]);
    [reflexivity | discriminate].
Defined.

(** X2.  Without [--docker_only], a whitelist that holds the empty string
    (as the whitelist of an unset flag does) accepts every name. *)
Theorem CanHandleAndAccept_accepts_all (self : rawFactory) (name : string) :
  In "" (rawPrefixWhiteList self) →
  CanHandleAndAccept false self name = Returns (true, true, None).
Proof.
  intros Hin. unfold CanHandleAndAccept.
  destruct (String.eqb name "/"); [reflexivity|]. simpl. f_equal.
  apply rangeWhiteList_accepts. exists "". split; [exact Hin | apply HasPrefix_empty].
Qed.

Lemma CanHandleAndAccept_accepts_all_witness :
  CanHandleAndAccept false {| rawPrefixWhiteList := [""] |} "/user.slice/user-1000.slice"
  = Returns (true, true, None).
Proof. apply CanHandleAndAccept_accepts_all. left. reflexivity. Defined.

(** X3.  A name that [CanHandleAndAccept] accepts is the root or starts with
    a whitelist entry; and under [--docker_only] a name other than the root
    is accepted only by a whitelist whose first entry is not the empty
    string. *)
Theorem CanHandleAndAccept_accept_sound (dockerOnly : bool) (self : rawFactory)
    (name : string) (canHandle : bool) (err : option error) :
  CanHandleAndAccept dockerOnly self name = Returns (canHandle, true, err) →
  name = "/" ∨
  ((∃ prefix suffix, In prefix (rawPrefixWhiteList self) ∧ name = prefix +:+ suffix) ∧
   (dockerOnly = true → ∃ first rest, rawPrefixWhiteList self = first :: rest ∧ first ≠ "")).
Proof.
  unfold CanHandleAndAccept. intros H.
  destruct (String.eqb_spec name "/") as [Hroot|Hname]; [left; exact Hroot|]. right.
  assert (Hrange : ∀ r, Returns (rangeWhiteList name (rawPrefixWhiteList self))
                        = Returns (canHandle, true, r) →
            ∃ prefix suffix, In prefix (rawPrefixWhiteList self) ∧ name = prefix +:+ suffix).
  { intros r Hr. injection Hr as Hr.
    destruct (rangeWhiteList_shape name (rawPrefixWhiteList self)) as [accept Hacc].
    rewrite Hacc in Hr. injection Hr as _ -> _.
    apply rangeWhiteList_accepts in Hacc. destruct Hacc as (prefix & Hin & Hpre).
    apply HasPrefix_app in Hpre. destruct Hpre as [suffix ->]. eauto. }
  destruct dockerOnly; simpl in H.
  - destruct (rawPrefixWhiteList self) as [|first rest] eqn:Hwl; simpl in H; [discriminate|].
    destruct (String.eqb_spec first "") as [Hempty|Hfirst]; simpl in H; [discriminate|].
    split; [exact (Hrange _ H)|]. intros _. eauto.
  - split; [exact (Hrange _ H)|]. discriminate.
Qed.

Lemma CanHandleAndAccept_accept_sound_witness :
  "/kubepods/pod1" = "/" ∨
  ((∃ prefix suffix, In prefix ["/kubepods"] ∧ "/kubepods/pod1" = prefix +:+ suffix) ∧
   (true = true → ∃ first rest, ["/kubepods"] = first :: rest ∧ first ≠ "")).
Proof.
  apply (CanHandleAndAccept_accept_sound true {| rawPrefixWhiteList := ["/kubepods"] |}
           "/kubepods/pod1" true None).
  reflexivity.
Defined.

End RawFactoryMore.
